(** * NC program analyzer: a shallow embedding of [nc_checker_ultimate_v5.py]

    The development follows the analysis core of the program: the
    [BlockData] accumulator, the line scanner [NCAnalyzer.analyze], the
    aggregation [NCAnalyzer.get_global_stats] and the range check
    [App.open_limit_checker.check].  The Tk widgets around them are not
    modelled.

    Modelling conventions.
    - A Python [str] is a [string]; a character is one [ascii] code and the
      program text is taken to be ASCII.  The classes [\s] and [\d],
      [str.strip] and [str.upper] are those of Python on the ASCII range;
      a code above 127 belongs to no class and is left alone by [upper].
    - A Python [float] is the exact rational [Q] that its decimal literal
      denotes, kept in lowest terms (0.2 is 1 # 5).  Rounding to a double,
      the infinite value that [float] gives to a literal beyond the range
      of a double, and the sign of zero are not modelled: the properties
      below that speak of a sample speak of it as [float] of the text
      captured, and those that give a value outright do so on literals
      that a double holds exactly.
    - An [int] is an [N].  [py_int] reads any number of digits;
      [py_int_default] refuses more than 4300, as CPython does unless it
      is told otherwise.
    - A call that can raise ([int], [float]) returns an [option]; the scan
      threads that option, so that "the scan returns" is a statement to be
      proved and not a property of the encoding.
    - The regular expressions are modelled pattern by pattern, each as the
      matcher anchored at a position, with [findall] and [search] scanning
      the positions as [re] does. *)

From Stdlib Require Import String Ascii List Bool Arith NArith ZArith QArith.
From Stdlib Require Import Lia Lqa DecimalString.
Import ListNotations.

Close Scope Q_scope.
Open Scope string_scope.
Open Scope list_scope.

(* ================================================================== *)
(** ** Python string primitives *)

Definition code (c : ascii) : N := N_of_ascii c.

(** [str.isspace] on the ASCII range, where it is also the class [\s] of
    [re]; no code above 127 is taken for a blank. *)
Definition is_space (c : ascii) : bool :=
  let n := code c in
  (((9 <=? n) && (n <=? 13)) || ((28 <=? n) && (n <=? 32)))%N.

(** The class [\d] on the ASCII range: the ten digits 0 to 9. *)
Definition is_digit (c : ascii) : bool :=
  let n := code c in ((48 <=? n) && (n <=? 57))%N.

Definition digit_val (c : ascii) : N := (code c - 48)%N.

(** [c.upper()] on the ASCII range: a to z are raised, every other code is
    left as it is. *)
Definition upper_char (c : ascii) : ascii :=
  let n := code c in
  if ((97 <=? n) && (n <=? 122))%N then ascii_of_N (n - 32) else c.

(** [s.upper()] *)
Fixpoint upper (s : string) : string :=
  match s with
  | EmptyString => EmptyString
  | String c r => String (upper_char c) (upper r)
  end.

(** [s.split(sep)] for a one-character separator; never the empty list. *)
Fixpoint split (sep : ascii) (s : string) : list string :=
  match s with
  | EmptyString => [EmptyString]
  | String c r =>
      if Ascii.eqb c sep then EmptyString :: split sep r
      else match split sep r with
           | h :: t => String c h :: t
           | [] => [String c EmptyString]
           end
  end.

Fixpoint lstrip (s : string) : string :=
  match s with
  | EmptyString => EmptyString
  | String c r => if is_space c then lstrip r else s
  end.

Fixpoint rstrip (s : string) : string :=
  match s with
  | EmptyString => EmptyString
  | String c r =>
      match rstrip r with
      | EmptyString => if is_space c then EmptyString else String c EmptyString
      | r' => String c r'
      end
  end.

(** [s.strip()] *)
Definition strip (s : string) : string := rstrip (lstrip s).

(** Truth value of a string: [if s:] *)
Definition truthy (s : string) : bool :=
  match s with EmptyString => false | _ => true end.

(** Longest prefix whose characters satisfy [p], and what follows it: a
    greedy repetition of a pattern. *)
Fixpoint span (p : ascii -> bool) (s : string) : string * string :=
  match s with
  | EmptyString => (EmptyString, EmptyString)
  | String c r =>
      if p c then let (a, b) := span p r in (String c a, b)
      else (EmptyString, s)
  end.

Fixpoint digits_value (acc : N) (s : string) : N :=
  match s with
  | EmptyString => acc
  | String c r => digits_value (10 * acc + digit_val c) r
  end.

Fixpoint all_chars (p : ascii -> bool) (s : string) : bool :=
  match s with
  | EmptyString => true
  | String c r => p c && all_chars p r
  end.

(** [int(text)] on the digit strings the program passes to it, with the
    interpreter's limit on the number of digits lifted; [None] is
    [ValueError].  [py_int_default], further down, is [int] under the
    limit that CPython applies by default. *)
Definition py_int (text : string) : option N :=
  if truthy text && all_chars is_digit text then Some (digits_value 0 text)
  else None.

(** The rational [(-1)^neg * (ip.fp)] read in base ten, in lowest terms. *)
Definition decimal (neg : bool) (ip fp : string) : Q :=
  let m := Z.of_N (digits_value 0 (ip ++ fp)%string) in
  let d := Z.to_pos (10 ^ Z.of_nat (String.length fp)) in
  Qred (Qmake (if neg then Z.opp m else m) d).

(** The unsigned part of a decimal literal: digits with an optional point,
    or a point followed by digits. *)
Definition float_unsigned (neg : bool) (body : string) : option Q :=
  let (ip, r1) := span is_digit body in
  match r1 with
  | EmptyString => if truthy ip then Some (decimal neg ip "") else None
  | String c r2 =>
      if Ascii.eqb c "." then
        let (fp, r3) := span is_digit r2 in
        if truthy r3 then None
        else if truthy ip || truthy fp then Some (decimal neg ip fp)
        else None
      else None
  end.

(** [float(text)] on plain decimal literals, with an optional sign in
    front: the exact rational that the literal denotes.  [None] is
    [ValueError].  Exponents, [inf], [nan], underscores and surrounding
    blanks, which [float] also reads, are outside the model and give
    [None] here; the patterns of the scanner never capture such a text,
    an entry field of the limit dialog can hold one. *)
Definition py_float (text : string) : option Q :=
  match text with
  | String c r =>
      if Ascii.eqb c "-" then float_unsigned true r
      else if Ascii.eqb c "+" then float_unsigned false r
      else float_unsigned false text
  | EmptyString => None
  end.

(** [str(n)] for a line number. *)
Definition str_nat (n : nat) : string := NilZero.string_of_uint (Nat.to_uint n).

(* ================================================================== *)
(** ** The five patterns of [analyze]

    Each pattern is given as its anchored matcher: the captured groups and
    the number of characters the match consumes.  None of the patterns
    needs backtracking: every greedy part is followed by a character class
    disjoint from it. *)

Section Scanning.
Context {A : Type}.
Variable here : string -> option (A * nat).

(** [pattern.findall(s)]: try the pattern at each position from the left;
    after a match the scan resumes where the match ended ([skip] counts
    the characters of the last match still to be passed over). *)
Fixpoint findall_from (skip : nat) (s : string) : list A :=
  match s with
  | EmptyString => []
  | String _ r =>
      match skip with
      | S k => findall_from k r
      | O =>
          match here s with
          | Some (groups, len) => groups :: findall_from (pred len) r
          | None => findall_from 0 r
          end
      end
  end.

Definition findall (s : string) : list A := findall_from 0 s.

(** [pattern.search(s)]: the leftmost match. *)
Fixpoint search (s : string) : option A :=
  match s with
  | EmptyString => None
  | String _ r =>
      match here s with
      | Some (groups, _) => Some groups
      | None => search r
      end
  end.
End Scanning.

(** The part of a lazy [.*?] up to the first [")"]; [.] stops at a line
    feed. *)
Fixpoint until_close (s : string) : option string :=
  match s with
  | EmptyString => None
  | String c r =>
      if Ascii.eqb c ")"%char then Some EmptyString
      else if Ascii.eqb c "010"%char then None
      else option_map (String c) (until_close r)
  end.

(** [re_comment]: an opening parenthesis, a lazy run of characters
    (captured), a closing parenthesis. *)
Definition re_comment_here (s : string) : option (string * nat) :=
  match s with
  | String c r =>
      if Ascii.eqb c "(" then
        match until_close r with
        | Some g => Some (g, 2 + String.length g)
        | None => None
        end
      else None
  | EmptyString => None
  end.

(** The number at the head of [s], its text and the rest: one or more
    digits, an optional point, further digits; for [number_here] after an
    optional minus sign. *)
Definition unsigned_here (s : string) : option (string * string) :=
  let (d1, r2) := span is_digit s in
  if truthy d1 then
    match r2 with
    | String c r3 =>
        if Ascii.eqb c "." then
          let (d2, r4) := span is_digit r3 in
          Some ((d1 ++ String "." d2)%string, r4)
        else Some (d1, r2)
    | EmptyString => Some (d1, r2)
    end
  else None.

Definition number_here (s : string) : option (string * string) :=
  match s with
  | String c r =>
      if Ascii.eqb c "-" then
        match unsigned_here r with
        | Some (num, rest) => Some (String "-" num, rest)
        | None => None
        end
      else unsigned_here s
  | EmptyString => None
  end.

Definition is_axis_letter (c : ascii) : bool :=
  Ascii.eqb c "X"%char || Ascii.eqb c "Y"%char || Ascii.eqb c "Z"%char.

(** [re_coord]: one of the letters X, Y, Z (captured), any blanks, a
    number (captured). *)
Definition re_coord_here (s : string) : option ((string * string) * nat) :=
  match s with
  | String c r =>
      if is_axis_letter c then
        let (ws, r1) := span is_space r in
        match number_here r1 with
        | Some (num, _) =>
            Some ((String c EmptyString, num),
                  1 + String.length ws + String.length num)
        | None => None
        end
      else None
  | EmptyString => None
  end.

(** [re_s]: the letter S, any blanks, one or more digits (captured). *)
Definition re_s_here (s : string) : option (string * nat) :=
  match s with
  | String c r =>
      if Ascii.eqb c "S" then
        let (ws, r1) := span is_space r in
        let (d, _) := span is_digit r1 in
        if truthy d then Some (d, 1 + String.length ws + String.length d)
        else None
      else None
  | EmptyString => None
  end.

(** [re_f]: the letter F, any blanks, an unsigned number (captured). *)
Definition re_f_here (s : string) : option (string * nat) :=
  match s with
  | String c r =>
      if Ascii.eqb c "F" then
        let (ws, r1) := span is_space r in
        match unsigned_here r1 with
        | Some (num, _) => Some (num, 1 + String.length ws + String.length num)
        | None => None
        end
      else None
  | EmptyString => None
  end.

(** [re_g]: the letter G, one or more digits (captured). *)
Definition re_g_here (s : string) : option (string * nat) :=
  match s with
  | String c r =>
      if Ascii.eqb c "G" then
        let (d, _) := span is_digit r in
        if truthy d then Some (d, 1 + String.length d) else None
      else None
  | EmptyString => None
  end.

(* ================================================================== *)
(** ** Python [min] and [max] on floats *)

Definition Qltb (a b : Q) : bool := negb (Qle_bool b a).

(** [min(x :: r)]: the first least element. *)
Definition py_min (x : Q) (r : list Q) : Q :=
  fold_left (fun m y => if Qltb y m then y else m) r x.

(** [max(x :: r)]: the first greatest element. *)
Definition py_max (x : Q) (r : list Q) : Q :=
  fold_left (fun m y => if Qltb m y then y else m) r x.

(** [(min(vals), max(vals)) if vals else (None, None)] *)
Definition min_max (vals : list Q) : option Q * option Q :=
  match vals with
  | [] => (None, None)
  | x :: r => (Some (py_min x r), Some (py_max x r))
  end.

(** [max(vals) if vals else 0] *)
Definition max_or_zero (vals : list Q) : Q :=
  match vals with
  | [] => 0%Q
  | x :: r => py_max x r
  end.

(* ================================================================== *)
(** ** class BlockData *)

(** The two dictionaries of a block have the fixed key set "X", "Y", "Z":
    no method adds or removes a key.  A dictionary is the record of its
    three lists, and [Axis] names the keys that exist. *)
Inductive Axis : Set := aX | aY | aZ.

Definition axis_key (a : Axis) : string :=
  match a with aX => "X" | aY => "Y" | aZ => "Z" end.

(** [axis in target], with the key found *)
Definition axis_of_key (k : string) : option Axis :=
  if String.eqb k "X" then Some aX
  else if String.eqb k "Y" then Some aY
  else if String.eqb k "Z" then Some aZ
  else None.

Record AxisDict : Type := mkAxisDict
  { at_X : list Q; at_Y : list Q; at_Z : list Q }.

Definition lookup (d : AxisDict) (a : Axis) : list Q :=
  match a with aX => at_X d | aY => at_Y d | aZ => at_Z d end.

(** [d[a].append(v)] *)
Definition append_at (d : AxisDict) (a : Axis) (v : Q) : AxisDict :=
  match a with
  | aX => mkAxisDict (at_X d ++ [v]) (at_Y d) (at_Z d)
  | aY => mkAxisDict (at_X d) (at_Y d ++ [v]) (at_Z d)
  | aZ => mkAxisDict (at_X d) (at_Y d) (at_Z d ++ [v])
  end.

Record BlockData : Type := mkBlockData
  { name : string;
    rapid : AxisDict;
    cut : AxisDict;
    s_vals : list Q;
    f_vals : list Q;
    errors : list string }.

(** [BlockData(name)] *)
Definition new_BlockData (name : string) : BlockData :=
  mkBlockData name (mkAxisDict [] [] []) (mkAxisDict [] [] []) [] [] [].

Definition add_val (self : BlockData) (axis : string) (val : Q)
    (is_rapid : bool) : BlockData :=
  match axis_of_key axis with
  | Some a =>
      if is_rapid
      then mkBlockData (name self) (append_at (rapid self) a val) (cut self)
             (s_vals self) (f_vals self) (errors self)
      else mkBlockData (name self) (rapid self) (append_at (cut self) a val)
             (s_vals self) (f_vals self) (errors self)
  | None => self
  end.

(** [axis] ranges over the keys of the dictionaries; [mode] is the string
    the caller passes. *)
Definition get_raw_min_max (self : BlockData) (axis : Axis) (mode : string)
    : option Q * option Q :=
  let vals := [] in
  let vals :=
    if String.eqb mode "rapid" || String.eqb mode "both"
    then vals ++ lookup (rapid self) axis else vals in
  let vals :=
    if String.eqb mode "cut" || String.eqb mode "both"
    then vals ++ lookup (cut self) axis else vals in
  min_max vals.

Definition get_max_s_f (self : BlockData) : Q * Q :=
  (max_or_zero (s_vals self), max_or_zero (f_vals self)).

(* ================================================================== *)
(** ** class NCAnalyzer *)

(** Uncaught exceptions: [None] stands for a raised [ValueError]. *)
Definition bind {A B : Type} (m : option A) (k : A -> option B) : option B :=
  match m with
  | Some a => k a
  | None => None
  end.

Notation "x <- m ;; k" := (bind m (fun x => k))
  (at level 61, m at next level, right associativity).

Definition parse_value (text : string) : option Q := py_float text.

(** The comprehension [[int(g) for g in ...]] *)
Fixpoint int_each (gs : list string) : option (list N) :=
  match gs with
  | [] => Some []
  | g :: rest =>
      n <- py_int g ;;
      ns <- int_each rest ;;
      Some (n :: ns)
  end.

(** [n in g_codes] *)
Definition mem (n : N) (g_codes : list N) : bool := existsb (N.eqb n) g_codes.

(** The variables of one run of [analyze].  [self.current_block] is always
    the object last appended to [self.blocks]; the state keeps that object
    apart from the blocks before it, so that a write through
    [self.current_block] is a write to the last element of [self.blocks]. *)
Record ScanState : Type := mkScanState
  { earlier : list BlockData;
    current_block : BlockData;
    has_g50_global : bool;
    is_rapid_mode : bool }.

(** [self.blocks] *)
Definition blocks (st : ScanState) : list BlockData :=
  earlier st ++ [current_block st].

(** [line.split(';')[0].strip()] *)
Definition content_of (line : string) : string :=
  strip (hd EmptyString (split ";" line)).

Definition block_title (line_num : nat) (block_name : string) : string :=
  ("Line" ++ str_nat line_num ++ ": " ++ block_name)%string.

Definition g96_message (line_num : nat) : string :=
  ("[Line " ++ str_nat line_num ++ "] 危険: G50なしでG96使用")%string.

(** Block switching: a parenthesised comment on the original line opens a
    new block, which becomes the current one. *)
Definition switch_block (line_num : nat) (line : string) (st : ScanState)
    : ScanState :=
  match search re_comment_here line with
  | Some group1 =>
      let block_name := strip group1 in
      mkScanState (blocks st) (new_BlockData (block_title line_num block_name))
        (has_g50_global st) (is_rapid_mode st)
  | None => st
  end.

(** Mode decision from the G codes of the line: the two [if]s in order. *)
Definition update_mode (g_codes : list N) (is_rapid_mode : bool) : bool :=
  let is_rapid_mode := if mem 0 g_codes then true else is_rapid_mode in
  let is_rapid_mode :=
    if existsb (fun g => mem g [1; 2; 3]%N) g_codes then false
    else is_rapid_mode in
  is_rapid_mode.

(** The loop over [coords]: a value that does not parse is passed over. *)
Definition store_coords (is_rapid_mode : bool) (coords : list (string * string))
    (b : BlockData) : BlockData :=
  fold_left
    (fun b (m : string * string) =>
       let (axis, val_str) := m in
       match parse_value val_str with
       | Some val => add_val b axis val is_rapid_mode
       | None => b
       end)
    coords b.

Definition append_s (b : BlockData) (v : Q) : BlockData :=
  mkBlockData (name b) (rapid b) (cut b) (s_vals b ++ [v]) (f_vals b) (errors b).

Definition append_f (b : BlockData) (v : Q) : BlockData :=
  mkBlockData (name b) (rapid b) (cut b) (s_vals b) (f_vals b ++ [v]) (errors b).

Definition append_error (b : BlockData) (e : string) : BlockData :=
  mkBlockData (name b) (rapid b) (cut b) (s_vals b) (f_vals b) (errors b ++ [e]).

(** [if s_match: ....s_vals.append(float(s_match.group(1)))] *)
Definition store_s (text : string) (b : BlockData) : option BlockData :=
  match search re_s_here text with
  | Some group1 => v <- py_float group1 ;; Some (append_s b v)
  | None => Some b
  end.

Definition store_f (text : string) (b : BlockData) : option BlockData :=
  match search re_f_here text with
  | Some group1 => v <- py_float group1 ;; Some (append_f b v)
  | None => Some b
  end.

Definition is_lathe (machine_type : string) : bool :=
  String.eqb machine_type "FANUC_Lathe".

(** The latch after the line *)
Definition update_g50 (machine_type : string) (g_codes : list N)
    (has_g50_global : bool) : bool :=
  if is_lathe machine_type && mem 50 g_codes then true else has_g50_global.

(** The simple check of the lathe profile, with the latch already updated *)
Definition simple_check (machine_type : string) (line_num : nat)
    (g_codes : list N) (has_g50_global : bool) (b : BlockData) : BlockData :=
  if is_lathe machine_type && (mem 96 g_codes && negb has_g50_global)
  then append_error b (g96_message line_num)
  else b.

(** The body of [for i, line in enumerate(lines)] *)
Definition loop_body (machine_type : string) (i : nat) (line : string)
    (st : ScanState) : option ScanState :=
  let line_num := i + 1 in
  let line_content := content_of line in
  if negb (truthy line_content) then Some st
  else
    let st := switch_block line_num line st in
    g_codes <- int_each (findall re_g_here (upper line_content)) ;;
    let is_rapid_mode := update_mode g_codes (is_rapid_mode st) in
    let coords := findall re_coord_here (upper line_content) in
    let b := store_coords is_rapid_mode coords (current_block st) in
    b <- store_s (upper line_content) b ;;
    b <- store_f (upper line_content) b ;;
    let has_g50_global := update_g50 machine_type g_codes (has_g50_global st) in
    let b := simple_check machine_type line_num g_codes has_g50_global b in
    Some (mkScanState (earlier st) b has_g50_global is_rapid_mode).

Fixpoint for_lines (machine_type : string) (i : nat) (lines : list string)
    (st : ScanState) : option ScanState :=
  match lines with
  | [] => Some st
  | line :: rest =>
      st' <- loop_body machine_type i line st ;;
      for_lines machine_type (S i) rest st'
  end.

(** The state on entry to the loop: the header block, no G50 seen, rapid. *)
Definition initial_state : ScanState :=
  mkScanState [] (new_BlockData "Header / Setup") false true.

Definition analyze_lines (lines : list string) (machine_type : string)
    : option ScanState :=
  for_lines machine_type 0 lines initial_state.

(** [analyze(nc_code, machine_type)]; [None] would be an exception escaping
    the method. *)
Definition analyze (nc_code : string) (machine_type : string)
    : option (list BlockData) :=
  option_map blocks (analyze_lines (split "010" nc_code) machine_type).

(** [get_global_stats], as a function of [self.blocks] *)
Record GlobalStats : Type := mkGlobalStats
  { stat_X : option Q * option Q;
    stat_Y : option Q * option Q;
    stat_Z : option Q * option Q;
    max_s : Q;
    max_f : Q }.

Definition axis_samples (a : Axis) (blks : list BlockData) : list Q :=
  flat_map (fun blk => lookup (rapid blk) a ++ lookup (cut blk) a) blks.

Definition get_global_stats (blks : list BlockData) : GlobalStats :=
  mkGlobalStats
    (min_max (axis_samples aX blks))
    (min_max (axis_samples aY blks))
    (min_max (axis_samples aZ blks))
    (max_or_zero (flat_map s_vals blks))
    (max_or_zero (flat_map f_vals blks)).

Definition stat_of (stats : GlobalStats) (a : Axis) : option Q * option Q :=
  match a with aX => stat_X stats | aY => stat_Y stats | aZ => stat_Z stats end.

(* ================================================================== *)
(** ** The range check of [App.open_limit_checker]

    [check] reads the global statistics and the six entry fields and sets
    the result label.  The verdict is the branch taken for the label; a
    violation carries [results], which the label shows joined by line
    feeds.  The conversion [float] of an entry text (any text the user
    typed), the comparisons of floats and their rendering in a message are
    parameters: the check is the same whatever Python's floats make of
    them. *)

Inductive Verdict : Type :=
  | SAFE
  | NO_CONDITIONS
  | VIOLATION (results : list string).

Section LimitChecker.
Variable num : Type.
(** [float(text)]; [None] is an exception, caught by the bare [except] *)
Variable float : string -> option num.
Variable lt gt : num -> num -> bool.
(** A float inside an f-string *)
Variable show : num -> string.

Definition min_message (axis : Axis) (p_min : num) (u_min : string) : string :=
  ("❌ " ++ axis_key axis ++ " Min違反: " ++ show p_min ++ " < " ++ u_min)%string.

Definition max_message (axis : Axis) (p_max : num) (u_max : string) : string :=
  ("❌ " ++ axis_key axis ++ " Max違反: " ++ show p_max ++ " > " ++ u_max)%string.

(** [if u_min: try: ... except: pass] *)
Definition check_min (axis : Axis) (p_min : num) (u_min : string)
    (acc : list string * bool) : list string * bool :=
  if truthy u_min then
    match float u_min with
    | Some limit =>
        if lt p_min limit
        then (fst acc ++ [min_message axis p_min u_min], false)
        else acc
    | None => acc
    end
  else acc.

(** [if u_max: try: ... except: pass]; the comparison of an absent
    maximum would raise as well and be caught. *)
Definition check_max (axis : Axis) (p_max : option num) (u_max : string)
    (acc : list string * bool) : list string * bool :=
  if truthy u_max then
    match float u_max, p_max with
    | Some limit, Some p_max =>
        if gt p_max limit
        then (fst acc ++ [max_message axis p_max u_max], false)
        else acc
    | _, _ => acc
    end
  else acc.

(** One turn of [for axis in ["X", "Y", "Z"]]; the accumulator is
    [(results, safe)]. *)
Definition check_axis (stats : Axis -> option num * option num)
    (entries : Axis -> string * string) (acc : list string * bool)
    (axis : Axis) : list string * bool :=
  let (p_min, p_max) := stats axis in
  match p_min with
  | None => acc
  | Some p_min =>
      let (u_min, u_max) := entries axis in
      check_max axis p_max u_max (check_min axis p_min u_min acc)
  end.

Definition check_loop (stats : Axis -> option num * option num)
    (entries : Axis -> string * string) : list string * bool :=
  fold_left (check_axis stats entries) [aX; aY; aZ] ([], true).

Definition check (stats : Axis -> option num * option num)
    (entries : Axis -> string * string) : Verdict :=
  let (results, safe) := check_loop stats entries in
  if safe && match results with [] => true | _ => false end then SAFE
  else if safe then NO_CONDITIONS
  else VIOLATION results.
End LimitChecker.

(** The check as the program runs it, on the statistics of the analysed
    blocks; [show] stands for the rendering of a float. *)
Definition check_blocks (float : string -> option Q) (show : Q -> string)
    (blks : list BlockData) (entries : Axis -> string * string) : Verdict :=
  check Q float Qltb (fun a b => Qltb b a) show
    (stat_of (get_global_stats blks)) entries.

(** No field filled in *)
Definition blank_entries : Axis -> string * string :=
  fun _ => (EmptyString, EmptyString).

(* ================================================================== *)
(** ** Notions used to state the properties *)

(** The captures of a pattern at every position where it matches, from the
    left, whether or not an earlier match covers the position. *)
Fixpoint occurrences {A : Type} (here : string -> option (A * nat))
    (s : string) : list A :=
  match s with
  | EmptyString => []
  | String _ r =>
      match here s with
      | Some (groups, _) => groups :: occurrences here r
      | None => occurrences here r
      end
  end.

(** A coordinate token in the words of the specification: an axis letter
    immediately followed by an optionally signed decimal number, with no
    blank in between. *)
Definition spec_coord_here (s : string) : option ((string * string) * nat) :=
  match s with
  | String c r =>
      if is_axis_letter c then
        match number_here r with
        | Some (num, _) =>
            Some ((String c EmptyString, num), 1 + String.length num)
        | None => None
        end
      else None
  | EmptyString => None
  end.

(** The values that the tokens [coords] carry for the axis [a], in order. *)
Definition coord_values (a : Axis) (coords : list (string * string)) : list Q :=
  flat_map
    (fun m : string * string =>
       match axis_of_key (fst m), parse_value (snd m) with
       | Some a', Some val =>
           match a, a' with
           | aX, aX | aY, aY | aZ, aZ => [val]
           | _, _ => []
           end
       | _, _ => []
       end)
    coords.

(** The G codes of a line, as numbers; none on a line that is passed over. *)
Definition g_codes_of (line : string) : list N :=
  map (digits_value 0) (findall re_g_here (upper (content_of line))).

Definition coords_of (line : string) : list (string * string) :=
  findall re_coord_here (upper (content_of line)).

Definition all_errors (blks : list BlockData) : list string :=
  flat_map errors blks.

(** Number of coordinate samples of a block, both modes and all axes. *)
Definition sample_count (b : BlockData) : nat :=
  length (at_X (rapid b)) + length (at_Y (rapid b)) + length (at_Z (rapid b))
  + length (at_X (cut b)) + length (at_Y (cut b)) + length (at_Z (cut b)).

Definition has_comment (line : string) : bool :=
  match search re_comment_here line with Some _ => true | None => false end.

(** A line that stores nothing: it is passed over, or it has no coordinate,
    spindle or feed token and no G96. *)
Definition quiet_line (line : string) : bool :=
  negb (truthy (content_of line))
  || (match coords_of line with [] => true | _ => false end
      && match search re_s_here (upper (content_of line)) with
         | None => true | Some _ => false end
      && match search re_f_here (upper (content_of line)) with
         | None => true | Some _ => false end
      && negb (mem 96 (g_codes_of line))).

(** The mode and the latch as folds over the lines alone, with no mention
    of blocks. *)
Definition mode_after (lines : list string) : bool :=
  fold_left (fun m line => update_mode (g_codes_of line) m) lines true.

Definition latch_after (machine_type : string) (lines : list string) : bool :=
  fold_left (fun h line => update_g50 machine_type (g_codes_of line) h)
    lines false.

(** Combining two results of [min_max] as Python's [min] and [max] would
    combine the lists behind them: on a tie the left one stays. *)
Definition pick_min (x y : Q) : Q := if Qltb y x then y else x.
Definition pick_max (x y : Q) : Q := if Qltb x y then y else x.

Definition merge (f : Q -> Q -> Q) (o1 o2 : option Q) : option Q :=
  match o1, o2 with
  | Some x, Some y => Some (f x y)
  | Some x, None => Some x
  | None, _ => o2
  end.

Definition union_min_max (p1 p2 : option Q * option Q) : option Q * option Q :=
  (merge pick_min (fst p1) (fst p2), merge pick_max (snd p1) (snd p2)).

Definition Axis_eqb (a b : Axis) : bool :=
  match a, b with
  | aX, aX | aY, aY | aZ, aZ => true
  | _, _ => false
  end.

(** The entries with the minimum (maximum) field of one axis left blank. *)
Definition clear_min (a : Axis) (entries : Axis -> string * string)
    : Axis -> string * string :=
  fun b => if Axis_eqb b a then (EmptyString, snd (entries b)) else entries b.

Definition clear_max (a : Axis) (entries : Axis -> string * string)
    : Axis -> string * string :=
  fun b => if Axis_eqb b a then (fst (entries b), EmptyString) else entries b.

(** A rendering of floats of integral value, as Python prints them, used
    where a property is run on an example. *)
Definition show_integral (q : Q) : string :=
  (NilZero.string_of_int (Z.to_int (Qnum q)) ++ ".0")%string.

(** A string on which a greedy repetition of [p] stops at once. *)
Definition stops (p : ascii -> bool) (s : string) : Prop :=
  match s with
  | EmptyString => True
  | String c _ => p c = false
  end.

(** The shape of a captured number. *)
Inductive unsigned_shape : string -> Prop :=
  | shape_int d1 :
      truthy d1 = true -> all_chars is_digit d1 = true -> unsigned_shape d1
  | shape_point d1 d2 :
      truthy d1 = true -> all_chars is_digit d1 = true ->
      all_chars is_digit d2 = true ->
      unsigned_shape (d1 ++ String "." d2)%string.

Inductive number_shape : string -> Prop :=
  | shape_plus num : unsigned_shape num -> number_shape num
  | shape_minus num : unsigned_shape num -> number_shape (String "-" num).

(** A character at which [re_coord] cannot start. *)
Definition not_axis (c : ascii) : bool := negb (is_axis_letter c).

(** A block with spindle and feed samples appended. *)
Definition extend_sf (b : BlockData) (sv fv : list Q) : BlockData :=
  mkBlockData (name b) (rapid b) (cut b) (s_vals b ++ sv) (f_vals b ++ fv)
    (errors b).

(** The state that the loop body leaves for a line that is not passed over,
    given the spindle samples [sv] and feed samples [fv] read on it. *)
Definition line_result (machine_type : string) (i : nat) (line : string)
    (st : ScanState) (sv fv : list Q) : ScanState :=
  let st1 := switch_block (i + 1) line st in
  let gs := g_codes_of line in
  let m := update_mode gs (is_rapid_mode st1) in
  let g50 := update_g50 machine_type gs (has_g50_global st1) in
  let b := extend_sf (store_coords m (coords_of line) (current_block st1)) sv fv in
  mkScanState (earlier st1) (simple_check machine_type (i + 1) gs g50 b) g50 m.

(** The first element of [self.blocks]. *)
Definition first_block (st : ScanState) : BlockData :=
  hd (current_block st) (earlier st).

(** [safe] is still true only while [results] is still empty. *)
Definition in_step (acc : list string * bool) : Prop :=
  snd acc = true <-> fst acc = [].

(** The failures of one axis: a supplied, readable lower bound above the
    observed minimum, then a supplied, readable upper bound below the
    observed maximum; none for an axis without data. *)
Definition failures_of (num : Type) (float : string -> option num)
    (lt gt : num -> num -> bool) (show : num -> string)
    (stats : Axis -> option num * option num)
    (entries : Axis -> string * string) (axis : Axis) : list string :=
  match stats axis with
  | (Some p_min, p_max) =>
      (if truthy (fst (entries axis)) then
         match float (fst (entries axis)) with
         | Some limit =>
             if lt p_min limit
             then [min_message num show axis p_min (fst (entries axis))]
             else []
         | None => []
         end
       else [])
      ++ (if truthy (snd (entries axis)) then
            match float (snd (entries axis)), p_max with
            | Some limit, Some p_max =>
                if gt p_max limit
                then [max_message num show axis p_max (snd (entries axis))]
                else []
            | _, _ => []
            end
          else [])
  | (None, _) => []
  end.

(** The character [c] does not occur in [s]. *)
Definition no_char (c : ascii) (s : string) : bool :=
  all_chars (fun x => negb (Ascii.eqb x c)) s.

(** ["\n".join(lines)] *)
Definition join_lines (lines : list string) : string :=
  String.concat (String "010" EmptyString) lines.

(** The messages of the simple check, read off the lines alone: a line
    number for each line that carries G96 while the latch, updated by the
    line itself, is not set. *)
Fixpoint expected_errors (machine_type : string) (i : nat)
    (lines : list string) (has_g50 : bool) : list string :=
  match lines with
  | [] => []
  | line :: rest =>
      let h := update_g50 machine_type (g_codes_of line) has_g50 in
      (if is_lathe machine_type && (mem 96 (g_codes_of line) && negb h)
       then [g96_message (i + 1)] else [])
      ++ expected_errors machine_type (S i) rest h
  end.

(** The block a line opens, if any: its title as a one-element list. *)
Definition opened_title (i : nat) (line : string) : list string :=
  if truthy (content_of line) then
    match search re_comment_here line with
    | Some group1 => [block_title (i + 1) (strip group1)]
    | None => []
    end
  else [].

Fixpoint opened_titles (i : nat) (lines : list string) : list string :=
  match lines with
  | [] => []
  | line :: rest => opened_title i line ++ opened_titles (S i) rest
  end.

(** A list that continues another. *)
Definition extends {A : Type} (l l' : list A) : Prop :=
  exists more, l' = l ++ more.

(** A block that has only grown: same name, every list continued. *)
Definition grown (b b' : BlockData) : Prop :=
  name b' = name b /\
  (forall a, extends (lookup (rapid b) a) (lookup (rapid b') a)) /\
  (forall a, extends (lookup (cut b) a) (lookup (cut b') a)) /\
  extends (s_vals b) (s_vals b') /\
  extends (f_vals b) (f_vals b') /\
  extends (errors b) (errors b').

(** What the patterns guarantee of a block built by the scan: spindle
    and feed samples are not negative, every error is the G96 message of
    some line. *)
Definition scanned_block (b : BlockData) : Prop :=
  Forall (fun v => (0 <= v)%Q) (s_vals b) /\
  Forall (fun v => (0 <= v)%Q) (f_vals b) /\
  Forall (fun e => exists n : nat, e = g96_message n) (errors b).

(** ** Texts shown for ranges

    The format specification [.3f] of a float is a parameter. *)

Section Rendering.
Variable fmt3 : Q -> string.

(** [BlockData.get_range_str] *)
Definition get_range_str (self : BlockData) (axis : Axis) (mode : string)
    : string :=
  let vals := [] in
  let vals :=
    if String.eqb mode "rapid" || String.eqb mode "both"
    then vals ++ lookup (rapid self) axis else vals in
  let vals :=
    if String.eqb mode "cut" || String.eqb mode "both"
    then vals ++ lookup (cut self) axis else vals in
  match vals with
  | [] => "-"
  | x :: r => (fmt3 (py_min x r) ++ " ~ " ++ fmt3 (py_max x r))%string
  end.

(** [fmt_mm] of [App.run_analysis]; formatting an absent maximum would
    raise, which is [None]. *)
Definition fmt_mm (vals : option Q * option Q) : option string :=
  match vals with
  | (Some min_v, Some max_v) =>
      Some (fmt3 min_v ++ " ~ " ++ fmt3 max_v)%string
  | (Some _, None) => None
  | (None, _) => Some "---"
  end.

(** The text of the label of one axis on the dashboard, as
    [run_analysis] sets it from the global statistics. *)
Definition axis_label (blks : list BlockData) (a : Axis) : option string :=
  option_map (fun t => (axis_key a ++ ": " ++ t)%string)
    (fmt_mm (stat_of (get_global_stats blks) a)).
End Rendering.

(** The mode string under which [add_val] files a value. *)
Definition mode_name (is_rapid : bool) : string :=
  if is_rapid then "rapid" else "cut".

(** The samples of one block for an axis, rapid then cut. *)
Definition block_samples (b : BlockData) (a : Axis) : list Q :=
  lookup (rapid b) a ++ lookup (cut b) a.

(** A sample that respects the bounds entered for its axis, as far as they
    are filled in and readable. *)
Definition within_limits (float : string -> option Q)
    (entries : Axis -> string * string) (a : Axis) (v : Q) : Prop :=
  (forall lo, truthy (fst (entries a)) = true ->
              float (fst (entries a)) = Some lo -> (lo <= v)%Q) /\
  (forall hi, truthy (snd (entries a)) = true ->
              float (snd (entries a)) = Some hi -> (v <= hi)%Q).

(** ** The log, the table and the CSV rows of [App]

    What the methods write to the widgets and to the file, as values. *)

(** A value of a row: a text or a number. *)
Inductive Cell : Type :=
  | Text (s : string)
  | Number (q : Q).

(** One line of [update_log] *)
Definition log_line (blk_name err : string) : string :=
  ("❌ " ++ blk_name ++ ": " ++ err ++ String "010" "")%string.

Definition no_error_line : string :=
  ("✅ エラーなし" ++ String "010" "")%string.

(** [App.update_log]: the text of the log after the call; the accumulator
    is the text inserted so far and [count]. *)
Definition update_log (blks : list BlockData) : string :=
  let (text, count) :=
    fold_left
      (fun acc blk =>
         fold_left
           (fun (acc : string * nat) err =>
              ((fst acc ++ log_line (name blk) err)%string, snd acc + 1))
           (errors blk) acc)
      blks (EmptyString, 0) in
  if Nat.eqb count 0 then (text ++ no_error_line)%string else text.

(** The header row of [App.save_csv] *)
Definition csv_header : list string :=
  ["Block Name";
   "G00 Min X"; "G00 Max X"; "Cut Min X"; "Cut Max X";
   "G00 Min Y"; "G00 Max Y"; "Cut Min Y"; "Cut Max Y";
   "G00 Min Z"; "G00 Max Z"; "Cut Min Z"; "Cut Max Z";
   "Max S"; "Max F"; "Errors"].

(** [val if val is not None else ""] *)
Definition cell_of (v : option Q) : Cell :=
  match v with
  | Some q => Number q
  | None => Text ""
  end.

(** [" / ".join(blk.errors) if blk.errors else "OK"] *)
Definition errors_cell (errs : list string) : string :=
  match errs with
  | [] => "OK"
  | _ => String.concat " / " errs
  end.

(** The row of one block in [App.save_csv] *)
Definition csv_row (blk : BlockData) : list Cell :=
  let g0_x := get_raw_min_max blk aX "rapid" in
  let cut_x := get_raw_min_max blk aX "cut" in
  let g0_y := get_raw_min_max blk aY "rapid" in
  let cut_y := get_raw_min_max blk aY "cut" in
  let g0_z := get_raw_min_max blk aZ "rapid" in
  let cut_z := get_raw_min_max blk aZ "cut" in
  let (s, f_val) := get_max_s_f blk in
  let err := errors_cell (errors blk) in
  let row := [Text (name blk)] in
  let row :=
    fold_left
      (fun row (val_pair : option Q * option Q) =>
         row ++ [cell_of (fst val_pair); cell_of (snd val_pair)])
      [g0_x; cut_x; g0_y; cut_y; g0_z; cut_z] row in
  row ++ [Number s; Number f_val; Text err].

(** [int(x)] of a finite float: the integer part, towards zero.  (On an
    infinite float [int] raises [OverflowError]; a [Q] is never one.) *)
Definition int_of_float (q : Q) : Z := Z.quot (Qnum q) (Z.pos (Qden q)).

(** Truth value of a number: [if max_f] *)
Definition nonzero (q : Q) : bool := negb (Qeq_bool q 0).

Section Table.
Variable fmt3 : Q -> string.
(** [fmt], the format specification [.1f] *)
Variable fmt1 : Q -> string.

(** [values] and [tag] of the row that [App.update_table] inserts for the
    block of index [i], for a block whose samples are finite numbers, as
    every [Q] is. *)
Definition table_row (i : nat) (blk : BlockData) : list Cell * string :=
  let (max_s, max_f) := get_max_s_f blk in
  let status := match errors blk with [] => "OK" | _ => "WARN" end in
  let g0_x := get_range_str fmt3 blk aX "rapid" in
  let cut_x := get_range_str fmt3 blk aX "cut" in
  let g0_y := get_range_str fmt3 blk aY "rapid" in
  let cut_y := get_range_str fmt3 blk aY "cut" in
  let g0_z := get_range_str fmt3 blk aZ "rapid" in
  let cut_z := get_range_str fmt3 blk aZ "cut" in
  let values :=
    [Text (name blk);
     Text g0_x; Text cut_x; Text g0_y; Text cut_y; Text g0_z; Text cut_z;
     Number (inject_Z (int_of_float max_s));
     Text (if nonzero max_f then fmt1 max_f else "-");
     Text status] in
  let tag :=
    match errors blk with
    | _ :: _ => "error"
    | [] => if Nat.eqb (Nat.modulo i 2) 0 then "odd" else "even"
    end in
  (values, tag).
End Table.

(** ** The path of a dropped file *)

(** [s.split()]: the runs of characters that are not blanks. *)
Fixpoint split_ws (s : string) : list string :=
  match s with
  | EmptyString => []
  | String c r =>
      if is_space c then split_ws r
      else
        match r with
        | EmptyString => [String c EmptyString]
        | String c' _ =>
            if is_space c' then String c EmptyString :: split_ws r
            else match split_ws r with
                 | h :: t => String c h :: t
                 | [] => [String c EmptyString]
                 end
        end
  end.

Definition is_brace (c : ascii) : bool := Ascii.eqb c "{" || Ascii.eqb c "}".

Fixpoint lstrip_chars (p : ascii -> bool) (s : string) : string :=
  match s with
  | EmptyString => EmptyString
  | String c r => if p c then lstrip_chars p r else s
  end.

Fixpoint rstrip_chars (p : ascii -> bool) (s : string) : string :=
  match s with
  | EmptyString => EmptyString
  | String c r =>
      match rstrip_chars p r with
      | EmptyString => if p c then EmptyString else String c EmptyString
      | r' => String c r'
      end
  end.

(** [file_path.strip('{}')] of [App.load_and_run] *)
Definition clean_path (file_path : string) : string :=
  rstrip_chars is_brace (lstrip_chars is_brace file_path).

(** What [App.drop_file] does with the data of a drop event: nothing, an
    [IndexError], or [load_and_run] on a path, given here as the cleaned
    path that [load_and_run] opens. *)
Inductive Dropped : Type :=
  | NothingDone
  | IndexError
  | Loads (clean : string).

(** [s.startswith(c)] for a one-character prefix *)
Definition startswith (c : ascii) (s : string) : bool :=
  match s with
  | String x _ => Ascii.eqb x c
  | EmptyString => false
  end.

Definition drop_file (data : string) : Dropped :=
  if truthy data then
    let raw := data in
    if startswith "{" raw then
      Loads (clean_path (hd EmptyString (split "}" raw) ++ "}")%string)
    else
      match split_ws raw with
      | path :: _ => Loads (clean_path path)
      | [] => IndexError
      end
  else NothingDone.

(** The texts of a list one after the other. *)
Definition str_concat (l : list string) : string :=
  fold_right append EmptyString l.

(** The lines that [update_log] owes to the errors of the blocks. *)
Definition error_lines (blks : list BlockData) : list string :=
  flat_map (fun blk => map (log_line (name blk)) (errors blk)) blks.

(** Number of coordinate samples of a list of blocks. *)
Definition total_samples (blks : list BlockData) : nat :=
  fold_right (fun b n => sample_count b + n) 0 blks.

(** Number of coordinate tokens of a list of lines. *)
Definition total_tokens (lines : list string) : nat :=
  fold_right (fun line n => length (coords_of line) + n) 0 lines.

(** The spindle sample that a line contributes: [float] of the digits
    after its leftmost S token, if it has one. *)
Definition spindle_of (line : string) : list Q :=
  match search re_s_here (upper (content_of line)) with
  | Some group1 =>
      match py_float group1 with
      | Some v => [v]
      | None => []
      end
  | None => []
  end.

(** The feed sample that a line contributes: [float] of the number after
    its leftmost F token, if it has one. *)
Definition feed_of (line : string) : list Q :=
  match search re_f_here (upper (content_of line)) with
  | Some group1 =>
      match py_float group1 with
      | Some v => [v]
      | None => []
      end
  | None => []
  end.

(** ** The limit of [int] on the number of digits

    CPython refuses to convert a decimal string of more than
    [sys.get_int_max_str_digits()] digits, 4300 unless the interpreter is
    told otherwise, and raises [ValueError].  [py_int_default] is [int] as
    the interpreter runs it by default.  The scan is given once more with
    the conversion of the G codes as a parameter; at [py_int] it is the
    scan above. *)

Definition int_max_str_digits : nat := 4300.

Definition py_int_default (text : string) : option N :=
  if Nat.leb (String.length text) int_max_str_digits then py_int text
  else None.

Section ScanWithInt.
Variable int_of : string -> option N.

Fixpoint int_each_with (gs : list string) : option (list N) :=
  match gs with
  | [] => Some []
  | g :: rest =>
      n <- int_of g ;;
      ns <- int_each_with rest ;;
      Some (n :: ns)
  end.

Definition loop_body_with (machine_type : string) (i : nat) (line : string)
    (st : ScanState) : option ScanState :=
  let line_num := i + 1 in
  let line_content := content_of line in
  if negb (truthy line_content) then Some st
  else
    let st := switch_block line_num line st in
    g_codes <- int_each_with (findall re_g_here (upper line_content)) ;;
    let is_rapid_mode := update_mode g_codes (is_rapid_mode st) in
    let coords := findall re_coord_here (upper line_content) in
    let b := store_coords is_rapid_mode coords (current_block st) in
    b <- store_s (upper line_content) b ;;
    b <- store_f (upper line_content) b ;;
    let has_g50_global := update_g50 machine_type g_codes (has_g50_global st) in
    let b := simple_check machine_type line_num g_codes has_g50_global b in
    Some (mkScanState (earlier st) b has_g50_global is_rapid_mode).

Fixpoint for_lines_with (machine_type : string) (i : nat)
    (lines : list string) (st : ScanState) : option ScanState :=
  match lines with
  | [] => Some st
  | line :: rest =>
      st' <- loop_body_with machine_type i line st ;;
      for_lines_with machine_type (S i) rest st'
  end.

Definition analyze_with (nc_code : string) (machine_type : string)
    : option (list BlockData) :=
  option_map blocks
    (for_lines_with machine_type 0 (split "010" nc_code) initial_state).
End ScanWithInt.

(** The character [c], [n] times. *)
Fixpoint run_of (c : ascii) (n : nat) : string :=
  match n with
  | O => EmptyString
  | S k => String c (run_of c k)
  end.

(** The numbers after G on the line, as the pattern captures them. *)
Definition g_captures (line : string) : list string :=
  findall re_g_here (upper (content_of line)).

Definition too_long (g : string) : bool :=
  negb (Nat.leb (String.length g) int_max_str_digits).

(* ================================================================== *)
(** * Properties *)

(** ** Strings and patterns *)

Lemma span_parts (p : ascii -> bool) (s a b : string) :
  span p s = (a, b) ->
  s = (a ++ b)%string /\ all_chars p a = true /\ stops p b.
Proof.
  revert a b; induction s as [|c r IH]; simpl; intros a b H.
  - inversion H; subst; simpl; auto.
  - destruct (p c) eqn:Hc.
    + destruct (span p r) as [a' b'] eqn:Hs. inversion H; subst a b.
      destruct (IH a' b' eq_refl) as (E & Ha & Hb).
      simpl. rewrite Hc, Ha, <- E. auto.
    + inversion H; subst; simpl; auto.
Qed.

Lemma span_app (p : ascii -> bool) (a b : string) :
  all_chars p a = true -> stops p b -> span p (a ++ b)%string = (a, b).
Proof.
  induction a as [|c a IH]; simpl; intros Ha Hb.
  - destruct b as [|c r]; simpl in *; [reflexivity | now rewrite Hb].
  - apply andb_prop in Ha as [Hc Ha]. now rewrite Hc, IH.
Qed.

Lemma span_all (p : ascii -> bool) (a : string) :
  all_chars p a = true -> span p a = (a, EmptyString).
Proof.
  intro Ha. pose proof (span_app p a EmptyString Ha I) as H.
  replace (a ++ "")%string with a in H; [exact H|].
  clear; induction a; simpl; congruence.
Qed.

Lemma str_app_assoc (u v w : string) :
  ((u ++ v) ++ w)%string = (u ++ v ++ w)%string.
Proof. induction u as [|c u IH]; simpl; [reflexivity | now rewrite IH]. Qed.

Lemma str_length_app (u v : string) :
  String.length (u ++ v)%string = String.length u + String.length v.
Proof. induction u as [|c u IH]; simpl; [reflexivity | now rewrite IH]. Qed.

Lemma all_chars_app (p : ascii -> bool) (a b : string) :
  all_chars p (a ++ b)%string = all_chars p a && all_chars p b.
Proof.
  induction a as [|c a IH]; simpl; [reflexivity|].
  now rewrite IH, andb_assoc.
Qed.

Lemma all_chars_weaken (p q : ascii -> bool) (a : string) :
  (forall c, p c = true -> q c = true) ->
  all_chars p a = true -> all_chars q a = true.
Proof.
  intros Hpq; induction a as [|c a IH]; simpl; [reflexivity|].
  intro H; apply andb_prop in H as [Hc Ha]. now rewrite (Hpq c Hc), IH.
Qed.

Lemma unsigned_here_shape (s num rest : string) :
  unsigned_here s = Some (num, rest) ->
  unsigned_shape num /\ s = (num ++ rest)%string.
Proof.
  unfold unsigned_here.
  destruct (span is_digit s) as [d1 r2] eqn:H1.
  apply span_parts in H1 as (E1 & A1 & _).
  destruct (truthy d1) eqn:T1; [|discriminate].
  destruct r2 as [|c r3].
  - intro H; inversion H; subst. split; [now constructor | reflexivity].
  - destruct (Ascii.eqb_spec c ".") as [->|_].
    + destruct (span is_digit r3) as [d2 r4] eqn:H2.
      apply span_parts in H2 as (E2 & A2 & _).
      intro H; inversion H; subst. split; [now constructor|].
      now rewrite str_app_assoc.
    + intro H; inversion H; subst. split; [now constructor | reflexivity].
Qed.

Lemma number_here_shape (s num rest : string) :
  number_here s = Some (num, rest) ->
  number_shape num /\ s = (num ++ rest)%string.
Proof.
  destruct s as [|c r]; simpl; [discriminate|].
  destruct (Ascii.eqb_spec c "-") as [->|_].
  - destruct (unsigned_here r) as [[n rs]|] eqn:H; [|discriminate].
    apply unsigned_here_shape in H as (Hs & ->).
    intro E; inversion E; subst. split; [now constructor | reflexivity].
  - intro H. apply unsigned_here_shape in H as (Hs & E).
    split; [now constructor | exact E].
Qed.

Lemma digit_not_sign (c : ascii) :
  is_digit c = true ->
  Ascii.eqb c "-" = false /\ Ascii.eqb c "+" = false /\ Ascii.eqb c "." = false.
Proof.
  intro H. repeat split;
    match goal with |- Ascii.eqb c ?k = false =>
      destruct (Ascii.eqb_spec c k) as [->|_]; [discriminate H | reflexivity]
    end.
Qed.

Lemma float_unsigned_shape (neg : bool) (num : string) :
  unsigned_shape num -> exists v, float_unsigned neg num = Some v.
Proof.
  intros [d1 T1 A1 | d1 d2 T1 A1 A2]; unfold float_unsigned.
  - rewrite (span_all _ _ A1), T1. eauto.
  - rewrite (span_app is_digit d1 (String "." d2) A1 eq_refl).
    rewrite Ascii.eqb_refl, (span_all _ _ A2). simpl. rewrite T1. simpl. eauto.
Qed.

Lemma unsigned_shape_head (num : string) :
  unsigned_shape num -> exists c r, num = String c r /\ is_digit c = true.
Proof.
  intros [d1 T1 A1 | d1 d2 T1 A1 A2];
    (destruct d1 as [|c r]; [discriminate T1|]);
    simpl in A1; apply andb_prop in A1 as [Hc _]; simpl; eauto.
Qed.

Lemma py_float_unsigned (num : string) :
  unsigned_shape num -> exists v, py_float num = Some v.
Proof.
  intro H. destruct (unsigned_shape_head num H) as (c & r & E & Hc).
  destruct (float_unsigned_shape false num H) as [v Hv].
  destruct (digit_not_sign c Hc) as (N1 & N2 & _).
  exists v. rewrite <- Hv. subst num. unfold py_float. now rewrite N1, N2.
Qed.

Lemma py_float_number (num : string) :
  number_shape num -> exists v, py_float num = Some v.
Proof.
  intros [n H | n H].
  - now apply py_float_unsigned.
  - unfold py_float. rewrite Ascii.eqb_refl. now apply float_unsigned_shape.
Qed.

Lemma py_int_digits (g : string) :
  truthy g = true -> all_chars is_digit g = true ->
  py_int g = Some (digits_value 0 g).
Proof. intros T A. unfold py_int. now rewrite T, A. Qed.

(** ** [findall] and [search] *)

Section ScanningFacts.
Context {A : Type}.
Variable here : string -> option (A * nat).

Lemma findall_from_Forall (P : A -> Prop) :
  (forall t g n, here t = Some (g, n) -> P g) ->
  forall s k, Forall P (findall_from here k s).
Proof.
  intros HP; induction s as [|c r IH]; intros k; simpl; [constructor|].
  destruct k as [|k]; [|apply IH].
  destruct (here (String c r)) as [[g n]|] eqn:H; [|apply IH].
  constructor; [eapply HP; eauto | apply IH].
Qed.

Lemma search_found (s : string) (g : A) :
  search here s = Some g -> exists t n, here t = Some (g, n).
Proof.
  induction s as [|c r IH]; simpl; [discriminate|].
  destruct (here (String c r)) as [[g' n]|] eqn:H; [|exact IH].
  intro E; inversion E; subst; eauto.
Qed.

Lemma findall_from_step (c : ascii) (r : string) :
  findall_from here 0 (String c r)
    = match here (String c r) with
      | Some (groups, len) => groups :: findall_from here (pred len) r
      | None => findall_from here 0 r
      end.
Proof. reflexivity. Qed.

Lemma occurrences_step (c : ascii) (r : string) :
  occurrences here (String c r)
    = match here (String c r) with
      | Some (groups, _) => groups :: occurrences here r
      | None => occurrences here r
      end.
Proof. reflexivity. Qed.

(** A match that covers only characters at which the pattern cannot
    start hides no other match: resuming after it loses nothing. *)
Lemma findall_from_skip (dead : ascii -> bool) :
  (forall c r, dead c = true -> here (String c r) = None) ->
  forall a rest,
    all_chars dead a = true ->
    findall_from here (String.length a) (a ++ rest)%string
      = findall_from here 0 rest
    /\ occurrences here (a ++ rest)%string = occurrences here rest.
Proof.
  intros Hdead; induction a as [|c a IH]; intros rest Ha; simpl.
  - split; [destruct rest|]; reflexivity.
  - simpl in Ha. apply andb_prop in Ha as [Hc Ha].
    rewrite (Hdead c _ Hc). now apply IH.
Qed.
End ScanningFacts.

Lemma re_g_here_digits (t g : string) (n : nat) :
  re_g_here t = Some (g, n) -> truthy g = true /\ all_chars is_digit g = true.
Proof.
  destruct t as [|c r]; simpl; [discriminate|].
  destruct (Ascii.eqb c "G"); [|discriminate].
  destruct (span is_digit r) as [d r'] eqn:Hs.
  apply span_parts in Hs as (_ & Hd & _).
  destruct (truthy d) eqn:T; [|discriminate].
  intro E; inversion E; subst; auto.
Qed.

Lemma int_each_map (gs : list string) :
  Forall (fun g => py_int g = Some (digits_value 0 g)) gs ->
  int_each gs = Some (map (digits_value 0) gs).
Proof.
  induction 1 as [|g gs Hg _ IH]; simpl; [reflexivity|].
  now rewrite Hg, IH.
Qed.

(** The comprehension over the G codes never raises. *)
Lemma int_each_g_codes (text : string) :
  int_each (findall re_g_here text)
    = Some (map (digits_value 0) (findall re_g_here text)).
Proof.
  apply int_each_map, findall_from_Forall.
  intros t g n H. apply re_g_here_digits in H as [T D].
  now apply py_int_digits.
Qed.

Lemma re_s_here_float (t g : string) (n : nat) :
  re_s_here t = Some (g, n) -> exists v, py_float g = Some v.
Proof.
  destruct t as [|c r]; simpl; [discriminate|].
  destruct (Ascii.eqb c "S"); [|discriminate].
  destruct (span is_space r) as [ws r1].
  destruct (span is_digit r1) as [d r'] eqn:Hs.
  apply span_parts in Hs as (_ & Hd & _).
  destruct (truthy d) eqn:T; [|discriminate].
  intro E; inversion E; subst.
  apply py_float_unsigned. now constructor.
Qed.

Lemma re_f_here_float (t g : string) (n : nat) :
  re_f_here t = Some (g, n) -> exists v, py_float g = Some v.
Proof.
  destruct t as [|c r]; simpl; [discriminate|].
  destruct (Ascii.eqb c "F"); [|discriminate].
  destruct (span is_space r) as [ws r1].
  destruct (unsigned_here r1) as [[num rest]|] eqn:H; [|discriminate].
  apply unsigned_here_shape in H as [Hs _].
  intro E; inversion E; subst. now apply py_float_unsigned.
Qed.

(** What a match of [re_coord] is made of. *)
Lemma re_coord_here_parts (t axis num : string) (n : nat) :
  re_coord_here t = Some ((axis, num), n) ->
  exists c ws rest,
    is_axis_letter c = true /\ axis = String c EmptyString /\
    all_chars is_space ws = true /\ number_shape num /\
    t = String c (ws ++ num ++ rest)%string /\
    n = 1 + String.length (ws ++ num)%string.
Proof.
  destruct t as [|c r]; simpl; [discriminate|].
  destruct (is_axis_letter c) eqn:Hc; [|discriminate].
  destruct (span is_space r) as [ws r1] eqn:Hs.
  apply span_parts in Hs as (E1 & Hws & _).
  destruct (number_here r1) as [[m rest]|] eqn:H; [|discriminate].
  apply number_here_shape in H as [Hm E2].
  intro E; inversion E; subst.
  exists c, ws, rest. rewrite str_length_app. repeat split; auto.
Qed.

Lemma axis_letter_key (c : ascii) :
  is_axis_letter c = true ->
  exists a, axis_of_key (String c EmptyString) = Some a.
Proof.
  unfold is_axis_letter. intro H.
  apply orb_prop in H as [H|H]; [apply orb_prop in H as [H|H]|];
    apply Ascii.eqb_eq in H; subst; eexists; reflexivity.
Qed.

(** ** [re_coord.findall] finds every coordinate token *)

Lemma axis_letter_cases (c : ascii) :
  is_axis_letter c = true -> c = "X"%char \/ c = "Y"%char \/ c = "Z"%char.
Proof.
  unfold is_axis_letter. intro H.
  apply orb_prop in H as [H|H]; [apply orb_prop in H as [H|H]|];
    apply Ascii.eqb_eq in H; auto.
Qed.

Lemma space_not_axis (c : ascii) : is_space c = true -> not_axis c = true.
Proof.
  intro H. unfold not_axis. destruct (is_axis_letter c) eqn:E; [|reflexivity].
  apply axis_letter_cases in E as [E|[E|E]]; subst c; discriminate H.
Qed.

Lemma digit_not_axis (c : ascii) : is_digit c = true -> not_axis c = true.
Proof.
  intro H. unfold not_axis. destruct (is_axis_letter c) eqn:E; [|reflexivity].
  apply axis_letter_cases in E as [E|[E|E]]; subst c; discriminate H.
Qed.

Lemma unsigned_not_axis (num : string) :
  unsigned_shape num -> all_chars not_axis num = true.
Proof.
  intros [d1 _ A1 | d1 d2 _ A1 A2].
  - exact (all_chars_weaken _ _ _ digit_not_axis A1).
  - rewrite all_chars_app. simpl.
    rewrite (all_chars_weaken _ _ _ digit_not_axis A1).
    now rewrite (all_chars_weaken _ _ _ digit_not_axis A2).
Qed.

Lemma number_not_axis (num : string) :
  number_shape num -> all_chars not_axis num = true.
Proof.
  intros [n H | n H]; simpl; now rewrite (unsigned_not_axis n H).
Qed.

Lemma re_coord_here_dead (c : ascii) (r : string) :
  not_axis c = true -> re_coord_here (String c r) = None.
Proof.
  unfold not_axis; simpl. now destruct (is_axis_letter c).
Qed.

Lemma findall_coord_bounded (n : nat) :
  forall s, String.length s <= n ->
    findall re_coord_here s = occurrences re_coord_here s.
Proof.
  induction n as [|n IH]; intros s Hn.
  - destruct s; [reflexivity | simpl in Hn; lia].
  - destruct s as [|c r]; [reflexivity|].
    unfold findall. rewrite findall_from_step, occurrences_step.
    destruct (re_coord_here (String c r)) as [[[axis num] len]|] eqn:H.
    + apply re_coord_here_parts in H
        as (c' & ws & rest & _ & _ & Hws & Hnum & E & ->).
      inversion E; subst c' r. clear E.
      assert (Hdead : all_chars not_axis (ws ++ num)%string = true).
      { rewrite all_chars_app, (all_chars_weaken _ _ _ space_not_axis Hws).
        now rewrite (number_not_axis num Hnum). }
      rewrite <- str_app_assoc. simpl pred.
      destruct (findall_from_skip re_coord_here not_axis re_coord_here_dead
                  (ws ++ num)%string rest Hdead) as [-> ->].
      f_equal. apply IH.
      simpl in Hn. rewrite <- str_app_assoc, str_length_app in Hn. lia.
    + apply IH. simpl in Hn. lia.
Qed.

Lemma findall_coord_occurrences (s : string) :
  findall re_coord_here s = occurrences re_coord_here s.
Proof. now apply (findall_coord_bounded (String.length s)). Qed.

(** Every captured number is read by [float]; every captured letter is a
    key of the dictionaries. *)
Lemma coords_well_formed (s : string) :
  Forall (fun m : string * string =>
            (exists a, axis_of_key (fst m) = Some a) /\
            (exists val, parse_value (snd m) = Some val))
    (findall re_coord_here s).
Proof.
  apply findall_from_Forall. intros t [axis num] n H.
  apply re_coord_here_parts in H as (c & ws & rest & Hc & -> & _ & Hnum & _).
  split; [now apply axis_letter_key | now apply py_float_number].
Qed.

(** ** The accumulator *)

Lemma add_val_fields (b : BlockData) (axis : string) (val : Q) (m : bool) :
  name (add_val b axis val m) = name b /\
  s_vals (add_val b axis val m) = s_vals b /\
  f_vals (add_val b axis val m) = f_vals b /\
  errors (add_val b axis val m) = errors b.
Proof.
  unfold add_val. destruct (axis_of_key axis); [destruct m|]; simpl; auto.
Qed.

Lemma store_coords_fields (m : bool) (coords : list (string * string)) :
  forall b,
    name (store_coords m coords b) = name b /\
    s_vals (store_coords m coords b) = s_vals b /\
    f_vals (store_coords m coords b) = f_vals b /\
    errors (store_coords m coords b) = errors b.
Proof.
  unfold store_coords.
  induction coords as [|[axis val_str] cs IH]; intro b; simpl; [auto|].
  destruct (IH (match parse_value val_str with
                | Some val => add_val b axis val m
                | None => b
                end)) as (H1 & H2 & H3 & H4).
  rewrite H1, H2, H3, H4.
  destruct (parse_value val_str); [apply add_val_fields | auto].
Qed.

(** Each token of the line lands, in order, in the dictionary of the mode
    and nowhere else. *)
Lemma store_coords_lookup (m : bool) (coords : list (string * string)) (a : Axis) :
  forall b,
    lookup (rapid (store_coords m coords b)) a
      = lookup (rapid b) a ++ (if m then coord_values a coords else []) /\
    lookup (cut (store_coords m coords b)) a
      = lookup (cut b) a ++ (if m then [] else coord_values a coords).
Proof.
  unfold store_coords.
  induction coords as [|[axis val_str] cs IH]; intro b.
  - simpl. destruct m; now rewrite !app_nil_r.
  - cbn [fold_left]. cbv beta iota.
    match goal with |- context [fold_left _ cs ?b'] =>
      destruct (IH b') as [Hr Hc] end.
    rewrite Hr, Hc. unfold coord_values. cbn [flat_map fst snd].
    fold (coord_values a cs). unfold add_val.
    destruct (axis_of_key axis) as [a'|]; destruct (parse_value val_str);
      destruct m; try destruct a'; destruct a; simpl;
      rewrite <- ?app_assoc; simpl; auto.
Qed.

Lemma store_coords_count (m : bool) (coords : list (string * string)) :
  Forall (fun c : string * string =>
            (exists a, axis_of_key (fst c) = Some a) /\
            (exists val, parse_value (snd c) = Some val)) coords ->
  forall b,
    sample_count (store_coords m coords b) = sample_count b + length coords.
Proof.
  unfold store_coords.
  induction 1 as [|[axis val_str] cs [[a Ha] [val Hv]] _ IH]; intro b; simpl.
  - lia.
  - simpl in Ha, Hv. rewrite Hv, IH. unfold add_val. rewrite Ha.
    unfold sample_count.
    destruct m, a; simpl; rewrite length_app; simpl; lia.
Qed.

(** ** One turn of the loop *)

Lemma extend_sf_nil (b : BlockData) : extend_sf b [] [] = b.
Proof. destruct b; unfold extend_sf; simpl. now rewrite !app_nil_r. Qed.

Lemma store_s_runs (text : string) (b : BlockData) :
  exists sv,
    store_s text b = Some (extend_sf b sv []) /\
    (search re_s_here text = None -> sv = []).
Proof.
  unfold store_s. destruct (search re_s_here text) as [g|] eqn:H.
  - apply search_found in H as (t & n & H).
    apply re_s_here_float in H as [v Hv]. exists [v]. rewrite Hv. simpl.
    split; [|discriminate].
    unfold append_s, extend_sf. now rewrite app_nil_r.
  - exists []. now rewrite extend_sf_nil.
Qed.

Lemma store_f_runs (text : string) (b : BlockData) :
  exists fv,
    store_f text b = Some (extend_sf b [] fv) /\
    (search re_f_here text = None -> fv = []).
Proof.
  unfold store_f. destruct (search re_f_here text) as [g|] eqn:H.
  - apply search_found in H as (t & n & H).
    apply re_f_here_float in H as [v Hv]. exists [v]. rewrite Hv. simpl.
    split; [|discriminate].
    unfold append_f, extend_sf. now rewrite app_nil_r.
  - exists []. now rewrite extend_sf_nil.
Qed.

Lemma loop_body_skips (mt : string) (i : nat) (line : string) (st : ScanState) :
  truthy (content_of line) = false -> loop_body mt i line st = Some st.
Proof. intro H. unfold loop_body. now rewrite H. Qed.

(** The loop body raises nothing and leaves [line_result]. *)
Lemma loop_body_runs (mt : string) (i : nat) (line : string) (st : ScanState) :
  truthy (content_of line) = true ->
  exists sv fv,
    loop_body mt i line st = Some (line_result mt i line st sv fv) /\
    (search re_s_here (upper (content_of line)) = None -> sv = []) /\
    (search re_f_here (upper (content_of line)) = None -> fv = []).
Proof.
  intro H. unfold loop_body. rewrite H. cbn [negb].
  rewrite int_each_g_codes. cbn [bind].
  fold (g_codes_of line). fold (coords_of line).
  set (st1 := switch_block (i + 1) line st).
  set (m := update_mode (g_codes_of line) (is_rapid_mode st1)).
  set (b1 := store_coords m (coords_of line) (current_block st1)).
  destruct (store_s_runs (upper (content_of line)) b1) as (sv & Es & Hs).
  rewrite Es. cbn [bind].
  destruct (store_f_runs (upper (content_of line)) (extend_sf b1 sv []))
    as (fv & Ef & Hf).
  rewrite Ef. cbn [bind].
  exists sv, fv. split; [|auto].
  unfold line_result. fold st1 m b1.
  unfold extend_sf; simpl. now rewrite !app_nil_r.
Qed.

Lemma switch_block_keeps (n : nat) (line : string) (st : ScanState) :
  is_rapid_mode (switch_block n line st) = is_rapid_mode st /\
  has_g50_global (switch_block n line st) = has_g50_global st.
Proof.
  unfold switch_block. destruct (search re_comment_here line); simpl; auto.
Qed.

Lemma simple_check_fields (mt : string) (n : nat) (gs : list N) (h : bool)
    (b : BlockData) :
  name (simple_check mt n gs h b) = name b /\
  rapid (simple_check mt n gs h b) = rapid b /\
  cut (simple_check mt n gs h b) = cut b /\
  s_vals (simple_check mt n gs h b) = s_vals b /\
  f_vals (simple_check mt n gs h b) = f_vals b.
Proof.
  unfold simple_check.
  destruct (is_lathe mt && (mem 96 gs && negb h)); simpl; auto.
Qed.

Lemma truthy_false (s : string) : truthy s = false -> s = EmptyString.
Proof. destruct s; [reflexivity | discriminate]. Qed.

Lemma skipped_line_codes (line : string) :
  truthy (content_of line) = false -> g_codes_of line = [] /\ coords_of line = [].
Proof.
  intro H. unfold g_codes_of, coords_of.
  now rewrite (truthy_false _ H).
Qed.

Lemma update_mode_closed (gs : list N) (m : bool) :
  update_mode gs m
    = if existsb (fun g => mem g [1; 2; 3]%N) gs then false
      else if mem 0 gs then true else m.
Proof.
  unfold update_mode.
  destruct (existsb (fun g => mem g [1; 2; 3]%N) gs), (mem 0 gs); reflexivity.
Qed.

Lemma line_result_mode (mt : string) (i : nat) (line : string)
    (st : ScanState) (sv fv : list Q) :
  is_rapid_mode (line_result mt i line st sv fv)
    = update_mode (g_codes_of line) (is_rapid_mode st) /\
  has_g50_global (line_result mt i line st sv fv)
    = update_g50 mt (g_codes_of line) (has_g50_global st).
Proof.
  unfold line_result; simpl.
  destruct (switch_block_keeps (i + 1) line st) as [-> ->]. auto.
Qed.

(** The samples of the current block after a line: those before it and the
    tokens of the line, under the mode decided on the line. *)
Lemma line_result_lookup (mt : string) (i : nat) (line : string)
    (st : ScanState) (sv fv : list Q) (a : Axis) :
  let b0 := current_block (switch_block (i + 1) line st) in
  let m := update_mode (g_codes_of line) (is_rapid_mode st) in
  lookup (rapid (current_block (line_result mt i line st sv fv))) a
    = lookup (rapid b0) a ++ (if m then coord_values a (coords_of line) else []) /\
  lookup (cut (current_block (line_result mt i line st sv fv))) a
    = lookup (cut b0) a ++ (if m then [] else coord_values a (coords_of line)).
Proof.
  intros b0 m. unfold line_result. cbn [current_block].
  match goal with |- context [simple_check ?x ?n ?g ?h ?b] =>
    destruct (simple_check_fields x n g h b) as (_ & -> & -> & _) end.
  unfold extend_sf; cbn [rapid cut].
  destruct (switch_block_keeps (i + 1) line st) as [-> _].
  apply store_coords_lookup.
Qed.

Lemma loop_body_total (mt : string) (i : nat) (line : string) (st : ScanState) :
  exists st', loop_body mt i line st = Some st'.
Proof.
  destruct (truthy (content_of line)) eqn:H.
  - destruct (loop_body_runs mt i line st H) as (sv & fv & E & _). eauto.
  - rewrite (loop_body_skips mt i line st H). eauto.
Qed.

(* ================================================================== *)
(** ** The motion mode of a line *)

(** C2.  For every line, the loop body returns, and the mode it leaves is
    the mode of [update_mode] on the G codes of the line: RAPID is set
    first when some code is 0, CUT is set afterwards when some code is 1, 2
    or 3, so that CUT wins whenever such a code is present.  On a line that
    carries both a code 0 and a code in 1..3 the mode left is CUT, the
    coordinates of the line are appended to the cut samples of the current
    block, and its rapid samples stay as they were. *)
Theorem mode_update_cut_overrides_rapid
    (machine_type : string) (i : nat) (line : string) (st : ScanState) :
  let gs := g_codes_of line in
  let b0 := current_block (switch_block (i + 1) line st) in
  exists st',
    loop_body machine_type i line st = Some st' /\
    is_rapid_mode st' = update_mode gs (is_rapid_mode st) /\
    is_rapid_mode st'
      = (if existsb (fun g => mem g [1; 2; 3]%N) gs then false
         else if mem 0 gs then true else is_rapid_mode st) /\
    (mem 0 gs = true ->
     existsb (fun g => mem g [1; 2; 3]%N) gs = true ->
     is_rapid_mode st' = false /\
     forall a,
       lookup (rapid (current_block st')) a = lookup (rapid b0) a /\
       lookup (cut (current_block st')) a
         = lookup (cut b0) a ++ coord_values a (coords_of line)).
Proof.
  intros gs b0. destruct (truthy (content_of line)) eqn:H.
  - destruct (loop_body_runs machine_type i line st H) as (sv & fv & E & _).
    exists (line_result machine_type i line st sv fv).
    destruct (line_result_mode machine_type i line st sv fv) as [Hm _].
    split; [exact E|]. split; [exact Hm|].
    split; [rewrite Hm; apply update_mode_closed|].
    intros _ Hcut.
    assert (Hfalse : update_mode gs (is_rapid_mode st) = false).
    { rewrite update_mode_closed. fold gs. now rewrite Hcut. }
    split; [now rewrite Hm|].
    intro a.
    destruct (line_result_lookup machine_type i line st sv fv a) as [Hr Hc].
    fold gs in Hr, Hc. rewrite Hfalse in Hr, Hc.
    rewrite app_nil_r in Hr. now split.
  - destruct (skipped_line_codes line H) as [Hg _].
    exists st. subst gs. rewrite Hg.
    split; [now apply loop_body_skips|].
    split; [reflexivity|]. split; [reflexivity|].
    intro Hc; discriminate Hc.
Qed.

Lemma mode_update_cut_overrides_rapid_witness :
  let st := initial_state in
  let line := "G0 X1 G1 Y2" in
  mem 0 (g_codes_of line) = true /\
  existsb (fun g => mem g [1; 2; 3]%N) (g_codes_of line) = true /\
  exists st',
    loop_body "OSP_Mill" 0 line st = Some st' /\
    is_rapid_mode st' = false /\
    lookup (rapid (current_block st')) aX = [] /\
    lookup (cut (current_block st')) aX = [1%Q] /\
    lookup (cut (current_block st')) aY = [2%Q].
Proof.
  intros st line.
  assert (H0 : mem 0 (g_codes_of line) = true) by reflexivity.
  assert (H1 : existsb (fun g => mem g [1; 2; 3]%N) (g_codes_of line) = true)
    by reflexivity.
  split; [exact H0|]. split; [exact H1|].
  destruct (mode_update_cut_overrides_rapid "OSP_Mill" 0 line st)
    as (st' & E & _ & _ & Hboth).
  destruct (Hboth H0 H1) as [Hm Hl].
  exists st'. split; [exact E|]. split; [exact Hm|].
  destruct (Hl aX) as [HrX HcX]. destruct (Hl aY) as [_ HcY].
  repeat split; [rewrite HrX | rewrite HcX | rewrite HcY]; reflexivity.
Defined.

(* ================================================================== *)
(** ** The worked example *)

(** C3.  On the three lines "G0 X10 Y5", "G1 X20 Z-3" and
    "(Facing) G96 S500 F0.2" under the lathe profile, [analyze] returns
    exactly two blocks.  The header has rapid X samples [10], rapid Y
    samples [5], cut X samples [20] and cut Z samples [-3], and nothing
    else.  The second block is named "Line3: Facing" and has spindle
    samples [500], feed samples [0.2] (the rational 1/5) and the single
    error of line 3 for G96 without G50. *)
Theorem analyze_facing_example :
  analyze (String.concat (String "010" EmptyString)
             ["G0 X10 Y5"; "G1 X20 Z-3"; "(Facing) G96 S500 F0.2"])
          "FANUC_Lathe"
  = Some
      [ mkBlockData "Header / Setup"
          (mkAxisDict [10%Q] [5%Q] [])
          (mkAxisDict [20%Q] [] [(-3)%Q])
          [] [] [];
        mkBlockData "Line3: Facing"
          (mkAxisDict [] [] [])
          (mkAxisDict [] [] [])
          [500%Q] [(1 # 5)%Q]
          ["[Line 3] 危険: G50なしでG96使用"] ].
Proof. vm_compute. reflexivity. Qed.

(* ================================================================== *)
(** ** Coordinate extraction *)

(** C4, as the code has it.  A line that is passed over stores nothing.
    On any other line the coordinate samples appended to the current block
    are exactly, in order, the values of every place of the upper-cased,
    comment-stripped line where an axis letter X, Y or Z is followed, after
    any blanks, by an optional minus sign and a decimal number.  They go to
    the dictionary of the motion mode left by the line and the dictionary
    of the other mode is unchanged; the blocks before the current one are
    not touched. *)
Theorem coordinate_samples_of_line
    (machine_type : string) (i : nat) (line : string) (st : ScanState) :
  (truthy (content_of line) = false ->
   loop_body machine_type i line st = Some st) /\
  (truthy (content_of line) = true ->
   let st1 := switch_block (i + 1) line st in
   let tokens := occurrences re_coord_here (upper (content_of line)) in
   exists st',
     loop_body machine_type i line st = Some st' /\
     earlier st' = earlier st1 /\
     forall a,
       lookup (rapid (current_block st')) a
         = lookup (rapid (current_block st1)) a
           ++ (if is_rapid_mode st' then coord_values a tokens else []) /\
       lookup (cut (current_block st')) a
         = lookup (cut (current_block st1)) a
           ++ (if is_rapid_mode st' then [] else coord_values a tokens)).
Proof.
  split; [apply loop_body_skips|].
  intros H st1 tokens.
  destruct (loop_body_runs machine_type i line st H) as (sv & fv & E & _).
  exists (line_result machine_type i line st sv fv).
  split; [exact E|]. split; [reflexivity|].
  intro a.
  destruct (line_result_mode machine_type i line st sv fv) as [-> _].
  subst tokens. rewrite <- findall_coord_occurrences.
  apply line_result_lookup.
Qed.

Lemma coordinate_samples_of_line_witness :
  let line := "g1 x 10 Y-2.5 (x7)" in
  truthy (content_of line) = true /\
  exists st',
    loop_body "OSP_Mill" 4 line initial_state = Some st' /\
    is_rapid_mode st' = false /\
    lookup (cut (current_block st')) aX = [10%Q; 7%Q] /\
    lookup (cut (current_block st')) aY = [(-5 # 2)%Q] /\
    lookup (rapid (current_block st')) aX = [].
Proof.
  intro line.
  assert (H : truthy (content_of line) = true) by reflexivity.
  split; [exact H|].
  destruct (coordinate_samples_of_line "OSP_Mill" 4 line initial_state)
    as [_ Hrun].
  destruct (Hrun H) as (st' & E & _ & Hl).
  assert (Hm : is_rapid_mode st' = false).
  { vm_compute in E. inversion E. reflexivity. }
  exists st'. split; [exact E|]. split; [exact Hm|].
  destruct (Hl aX) as [HrX HcX]. destruct (Hl aY) as [_ HcY].
  rewrite Hm in HrX, HcX, HcY.
  repeat split; [rewrite HcX | rewrite HcY | rewrite HrX]; reflexivity.
Defined.

(** C4, as stated, fails: with a blank between the axis letter and the
    number, the line "X 10" has no place where an axis letter is
    immediately followed by a number, and yet its analysis records the
    sample 10 for X. *)
Lemma coordinate_after_blank_is_recorded :
  exists header,
    analyze "X 10" "OSP_Mill" = Some [header] /\
    lookup (rapid header) aX = [10%Q] /\
    lookup (rapid header) aX
      <> coord_values aX
           (occurrences spec_coord_here (upper (content_of "X 10"))).
Proof.
  eexists. split; [vm_compute; reflexivity|].
  split; [reflexivity | discriminate].
Qed.

(** Storing the tokens that [re_coord] finds in a text is the plain loop of
    [add_val] over the tokens and their values: the branch that passes
    over an unreadable value is never taken. *)
Lemma store_coords_is_plain_loop
    (text : string) (is_rapid : bool) (b : BlockData) :
  let coords := findall re_coord_here text in
  exists vals : list Q,
    map parse_value (map snd coords) = map Some vals /\
    store_coords is_rapid coords b
      = fold_left (fun b (p : string * Q) => add_val b (fst p) (snd p) is_rapid)
          (combine (map fst coords) vals) b /\
    sample_count (store_coords is_rapid coords b)
      = sample_count b + length coords.
Proof.
  intro coords.
  pose proof (coords_well_formed text) as Hwf. fold coords in Hwf.
  assert (Hvals : exists vals,
             map parse_value (map snd coords) = map Some vals /\
             forall b0,
               store_coords is_rapid coords b0
               = fold_left
                   (fun b (p : string * Q) => add_val b (fst p) (snd p) is_rapid)
                   (combine (map fst coords) vals) b0).
  { clear b. induction Hwf as [|[axis val_str] cs [_ [v Hv]] _ IH].
    - exists []. split; [reflexivity | intro; reflexivity].
    - destruct IH as (vals & Hmap & Hfold). simpl in Hv.
      exists (v :: vals). split.
      + simpl. now rewrite Hv, Hmap.
      + intro b0. unfold store_coords in *. simpl. rewrite Hv. apply Hfold. }
  destruct Hvals as (vals & Hmap & Hfold).
  exists vals. split; [exact Hmap|]. split; [apply Hfold|].
  now apply store_coords_count.
Qed.

(** C9.  On every line of the scan, each token matched by [re_coord] has an
    axis letter that is a key of the dictionaries and a numeric part that
    [parse_value] reads.  So the loop body never takes the branch that
    passes over an unreadable value: the dictionaries it leaves in the
    current block are those of one call of [add_val] per token, in order,
    with the value of the token and the mode of the line, and the block
    gains exactly one coordinate sample per token.  A line that is passed
    over has no token and leaves the state as it is. *)
Theorem every_coordinate_token_is_stored
    (machine_type : string) (i : nat) (line : string) (st : ScanState) :
  let coords := coords_of line in
  let b1 := current_block (switch_block (i + 1) line st) in
  (truthy (content_of line) = false ->
   loop_body machine_type i line st = Some st /\ coords = []) /\
  (truthy (content_of line) = true ->
   exists st' vals,
     loop_body machine_type i line st = Some st' /\
     map parse_value (map snd coords) = map Some vals /\
     Forall (fun axis => exists a, axis_of_key axis = Some a)
       (map fst coords) /\
     (let b := fold_left
                 (fun b (p : string * Q) =>
                    add_val b (fst p) (snd p) (is_rapid_mode st'))
                 (combine (map fst coords) vals) b1 in
      rapid (current_block st') = rapid b /\
      cut (current_block st') = cut b) /\
     sample_count (current_block st') = sample_count b1 + length coords).
Proof.
  intros coords b1. split.
  - intro H. split; [now apply loop_body_skips|].
    now destruct (skipped_line_codes line H).
  - intro H.
    destruct (loop_body_runs machine_type i line st H) as (sv & fv & E & _).
    set (m := update_mode (g_codes_of line)
                (is_rapid_mode (switch_block (i + 1) line st))).
    destruct (store_coords_is_plain_loop (upper (content_of line)) m b1)
      as (vals & Hmap & Hfold & Hcount).
    fold (coords_of line) in Hmap, Hfold, Hcount. fold coords in Hmap, Hfold, Hcount.
    exists (line_result machine_type i line st sv fv), vals.
    split; [exact E|]. split; [exact Hmap|].
    assert (Hdicts :
              rapid (current_block (line_result machine_type i line st sv fv))
                = rapid (store_coords m coords b1) /\
              cut (current_block (line_result machine_type i line st sv fv))
                = cut (store_coords m coords b1)).
    { unfold line_result. cbn [current_block].
      match goal with |- context [simple_check ?x ?n ?g ?h ?b] =>
        destruct (simple_check_fields x n g h b) as (_ & -> & -> & _) end.
      unfold extend_sf; cbn [rapid cut]. split; reflexivity. }
    destruct Hdicts as [Hr Hc].
    split; [|split].
    + pose proof (coords_well_formed (upper (content_of line))) as Hwf.
      fold (coords_of line) in Hwf. fold coords in Hwf.
      apply Forall_map. revert Hwf. apply Forall_impl. now intros c [Ha _].
    + change (is_rapid_mode (line_result machine_type i line st sv fv)) with m.
      cbv zeta. rewrite <- Hfold. now split.
    + unfold sample_count. rewrite Hr, Hc. exact Hcount.
Qed.

Lemma every_coordinate_token_is_stored_witness :
  let line := "G1 X1 Y-2.5 z 3. X.5 Y" in
  truthy (content_of line) = true /\
  exists st',
    loop_body "OSP_Mill" 0 line initial_state = Some st' /\
    length (coords_of line) = 3 /\
    sample_count (current_block st') = 3 /\
    cut (current_block st') = mkAxisDict [1%Q] [(-5 # 2)%Q] [3%Q].
Proof.
  intro line.
  assert (H : truthy (content_of line) = true) by reflexivity.
  split; [exact H|].
  destruct (every_coordinate_token_is_stored "OSP_Mill" 0 line initial_state)
    as [_ Hrun].
  destruct (Hrun H) as (st' & vals & E & _ & _ & _ & Hcount).
  exists st'. split; [exact E|]. split; [reflexivity|].
  split; [rewrite Hcount; reflexivity|].
  vm_compute in E. inversion E. reflexivity.
Defined.

(* ================================================================== *)
(** ** Minimum and maximum of the samples of a block *)

Lemma Qltb_true (a b : Q) : Qltb a b = true -> (a < b)%Q.
Proof.
  unfold Qltb. intro H. apply negb_true_iff in H.
  apply Qnot_le_lt. intro Hle. apply Qle_bool_iff in Hle. congruence.
Qed.

Lemma Qltb_false (a b : Q) : Qltb a b = false -> (b <= a)%Q.
Proof.
  unfold Qltb. intro H. apply negb_false_iff in H. now apply Qle_bool_iff.
Qed.

Ltac order_facts :=
  repeat match goal with
    | H : Qltb _ _ = true |- _ => apply Qltb_true in H
    | H : Qltb _ _ = false |- _ => apply Qltb_false in H
    end.

Ltac pick_cases a b c :=
  destruct (Qltb a b) eqn:?; cbv iota;
  destruct (Qltb c a) eqn:?; cbv iota;
  destruct (Qltb c b) eqn:?; cbv iota;
  repeat match goal with H : Qltb _ _ = _ |- _ => rewrite H end;
  try reflexivity; exfalso; order_facts; lra.

Lemma pick_min_assoc (m y w : Q) :
  pick_min (pick_min m y) w = pick_min m (pick_min y w).
Proof. unfold pick_min. pick_cases y m w. Qed.

Lemma pick_max_assoc (m y w : Q) :
  pick_max (pick_max m y) w = pick_max m (pick_max y w).
Proof.
  unfold pick_max.
  destruct (Qltb m y) eqn:?; cbv iota;
  destruct (Qltb y w) eqn:?; cbv iota;
  destruct (Qltb m w) eqn:?; cbv iota;
  repeat match goal with H : Qltb _ _ = _ |- _ => rewrite H end;
  try reflexivity; exfalso; order_facts; lra.
Qed.

Lemma fold_left_assoc (f : Q -> Q -> Q) :
  (forall a b c, f (f a b) c = f a (f b c)) ->
  forall r m y, fold_left f r (f m y) = f m (fold_left f r y).
Proof.
  intros Hf; induction r as [|z r IH]; intros m y; simpl; [reflexivity|].
  now rewrite Hf, IH.
Qed.

Lemma py_min_app (x y : Q) (r r2 : list Q) :
  py_min x (r ++ y :: r2) = pick_min (py_min x r) (py_min y r2).
Proof.
  unfold py_min. rewrite fold_left_app. simpl.
  apply (fold_left_assoc pick_min pick_min_assoc).
Qed.

Lemma py_max_app (x y : Q) (r r2 : list Q) :
  py_max x (r ++ y :: r2) = pick_max (py_max x r) (py_max y r2).
Proof.
  unfold py_max. rewrite fold_left_app. simpl.
  apply (fold_left_assoc pick_max pick_max_assoc).
Qed.

(** The range of a concatenation is the union of the ranges. *)
Lemma min_max_app (l1 l2 : list Q) :
  min_max (l1 ++ l2) = union_min_max (min_max l1) (min_max l2).
Proof.
  destruct l1 as [|x r]; [now destruct l2|].
  destruct l2 as [|y r2]; [now rewrite app_nil_r|].
  simpl. now rewrite py_min_app, py_max_app.
Qed.

Lemma py_min_least (r : list Q) :
  forall x,
    In (py_min x r) (x :: r) /\ forall v, In v (x :: r) -> (py_min x r <= v)%Q.
Proof.
  induction r as [|y r IH]; intro x.
  - simpl. split; [auto|]. intros v [<-|[]]. apply Qle_refl.
  - change (py_min x (y :: r)) with (py_min (pick_min x y) r).
    destruct (IH (pick_min x y)) as [Hin Hle]. split.
    + destruct Hin as [Hin|Hin]; [|simpl; auto].
      rewrite <- Hin. unfold pick_min. destruct (Qltb y x); simpl; auto.
    + assert (Hp : (py_min (pick_min x y) r <= pick_min x y)%Q)
        by (apply Hle; simpl; auto).
      intros v [<-|[<-|Hv]]; [| |apply Hle; simpl; auto];
        (eapply Qle_trans; [exact Hp|]); unfold pick_min;
        destruct (Qltb y x) eqn:E; order_facts; lra.
Qed.

Lemma py_max_greatest (r : list Q) :
  forall x,
    In (py_max x r) (x :: r) /\ forall v, In v (x :: r) -> (v <= py_max x r)%Q.
Proof.
  induction r as [|y r IH]; intro x.
  - simpl. split; [auto|]. intros v [<-|[]]. apply Qle_refl.
  - change (py_max x (y :: r)) with (py_max (pick_max x y) r).
    destruct (IH (pick_max x y)) as [Hin Hle]. split.
    + destruct Hin as [Hin|Hin]; [|simpl; auto].
      rewrite <- Hin. unfold pick_max. destruct (Qltb x y); simpl; auto.
    + assert (Hp : (pick_max x y <= py_max (pick_max x y) r)%Q)
        by (apply Hle; simpl; auto).
      intros v [<-|[<-|Hv]]; [| |apply Hle; simpl; auto];
        (eapply Qle_trans; [|exact Hp]); unfold pick_max;
        destruct (Qltb x y) eqn:E; order_facts; lra.
Qed.

Lemma min_max_bounds (vals : list Q) (lo hi : Q) :
  min_max vals = (Some lo, Some hi) ->
  In lo vals /\ In hi vals /\
  forall v, In v vals -> (lo <= v)%Q /\ (v <= hi)%Q.
Proof.
  destruct vals as [|x r]; simpl; [discriminate|].
  intro H; inversion H; subst.
  destruct (py_min_least r x) as [H1 H2].
  destruct (py_max_greatest r x) as [H3 H4]. auto.
Qed.

Lemma min_max_none (vals : list Q) : min_max vals = (None, None) <-> vals = [].
Proof. destruct vals; simpl; split; congruence. Qed.

(** C6.  For every block and every axis, the range of mode "both" is the
    range of the rapid samples followed by the cut samples: its two ends
    are samples of that list and bound every sample of it.  It is the union
    of the ranges of the modes "rapid" and "cut" taken apart, and it is
    (absent, absent) exactly when both sample lists are empty. *)
Theorem raw_min_max_both_is_union (b : BlockData) (a : Axis) :
  let both := lookup (rapid b) a ++ lookup (cut b) a in
  get_raw_min_max b a "both" = min_max both /\
  get_raw_min_max b a "rapid" = min_max (lookup (rapid b) a) /\
  get_raw_min_max b a "cut" = min_max (lookup (cut b) a) /\
  get_raw_min_max b a "both"
    = union_min_max (get_raw_min_max b a "rapid") (get_raw_min_max b a "cut") /\
  (get_raw_min_max b a "both" = (None, None)
     <-> lookup (rapid b) a = [] /\ lookup (cut b) a = []) /\
  (forall lo hi,
     get_raw_min_max b a "both" = (Some lo, Some hi) ->
     In lo both /\ In hi both /\
     forall v, In v both -> (lo <= v)%Q /\ (v <= hi)%Q).
Proof.
  intro both.
  assert (Hb : get_raw_min_max b a "both" = min_max both) by reflexivity.
  assert (Hr : get_raw_min_max b a "rapid" = min_max (lookup (rapid b) a))
    by reflexivity.
  assert (Hc : get_raw_min_max b a "cut" = min_max (lookup (cut b) a))
    by reflexivity.
  repeat split; auto.
  - rewrite Hb, Hr, Hc. apply min_max_app.
  - rewrite Hb in H. apply min_max_none in H.
    now apply app_eq_nil in H.
  - rewrite Hb in H. apply min_max_none in H.
    now apply app_eq_nil in H.
  - intros [H1 H2]. rewrite Hb. apply min_max_none.
    subst both. now rewrite H1, H2.
  - rewrite Hb in H. now apply min_max_bounds in H.
  - rewrite Hb in H. now apply min_max_bounds in H.
  - rewrite Hb in H. apply min_max_bounds in H as (_ & _ & H).
    now apply H.
  - rewrite Hb in H. apply min_max_bounds in H as (_ & _ & H).
    now apply H.
Qed.

Lemma raw_min_max_both_is_union_witness :
  let b := mkBlockData "B" (mkAxisDict [3%Q; (-1)%Q] [] [])
             (mkAxisDict [7%Q; 2%Q] [] []) [] [] [] in
  let both := lookup (rapid b) aX ++ lookup (cut b) aX in
  get_raw_min_max b aX "both" = (Some (-1)%Q, Some 7%Q) /\
  In (-1)%Q both /\ In 7%Q both /\
  forall v, In v both -> (-1 <= v)%Q /\ (v <= 7)%Q.
Proof.
  intros b both.
  assert (H : get_raw_min_max b aX "both" = (Some (-1)%Q, Some 7%Q))
    by reflexivity.
  split; [exact H|].
  destruct (raw_min_max_both_is_union b aX) as (_ & _ & _ & _ & _ & Hb).
  exact (Hb _ _ H).
Defined.

(* ================================================================== *)
(** ** The scan as a whole *)

Lemma for_lines_app (mt : string) (l1 l2 : list string) :
  forall i st,
    for_lines mt i (l1 ++ l2) st
      = (st' <- for_lines mt i l1 st ;; for_lines mt (i + length l1) l2 st').
Proof.
  induction l1 as [|line l1 IH]; intros i st; simpl.
  - now rewrite Nat.add_0_r.
  - destruct (loop_body mt i line st) as [st1|]; simpl; [|reflexivity].
    rewrite IH. now rewrite Nat.add_succ_comm.
Qed.

(** The scan runs to its end whatever the lines are. *)
Lemma for_lines_total (mt : string) (lines : list string) :
  forall i st, exists st', for_lines mt i lines st = Some st'.
Proof.
  induction lines as [|line lines IH]; intros i st; simpl; [eauto|].
  destruct (loop_body_total mt i line st) as [st1 ->]. simpl. apply IH.
Qed.

(** An invariant of the loop body over lines of a given kind is an
    invariant of the scan. *)
Lemma for_lines_invariant (mt : string) (P : ScanState -> Prop)
    (ok : string -> bool) :
  (forall i line st st',
     ok line = true -> P st -> loop_body mt i line st = Some st' -> P st') ->
  forall lines i st st',
    forallb ok lines = true -> P st ->
    for_lines mt i lines st = Some st' -> P st'.
Proof.
  intros Hstep; induction lines as [|line lines IH]; intros i st st' Hok HP.
  - simpl. intro E; inversion E; subst; exact HP.
  - simpl in Hok. apply andb_prop in Hok as [Hl Hok]. simpl.
    destruct (loop_body mt i line st) as [st1|] eqn:E; simpl; [|discriminate].
    apply (IH (S i) st1 st' Hok). exact (Hstep i line st st1 Hl HP E).
Qed.

Lemma update_g50_nil (mt : string) (h : bool) : update_g50 mt [] h = h.
Proof. unfold update_g50. now rewrite andb_false_r. Qed.

(** Mode and latch after one line, whether the line is passed over, opens
    a block or not. *)
Lemma loop_body_mode_latch (mt : string) (i : nat) (line : string)
    (st : ScanState) :
  exists st',
    loop_body mt i line st = Some st' /\
    is_rapid_mode st' = update_mode (g_codes_of line) (is_rapid_mode st) /\
    has_g50_global st' = update_g50 mt (g_codes_of line) (has_g50_global st).
Proof.
  destruct (truthy (content_of line)) eqn:H.
  - destruct (loop_body_runs mt i line st H) as (sv & fv & E & _).
    exists (line_result mt i line st sv fv). split; [exact E|].
    apply line_result_mode.
  - exists st. split; [now apply loop_body_skips|].
    destruct (skipped_line_codes line H) as [-> _].
    now rewrite update_g50_nil.
Qed.

Lemma for_lines_mode_latch (mt : string) (lines : list string) :
  forall i st,
    exists st',
      for_lines mt i lines st = Some st' /\
      is_rapid_mode st'
        = fold_left (fun m line => update_mode (g_codes_of line) m) lines
            (is_rapid_mode st) /\
      has_g50_global st'
        = fold_left (fun h line => update_g50 mt (g_codes_of line) h) lines
            (has_g50_global st).
Proof.
  induction lines as [|line lines IH]; intros i st; simpl; [eauto|].
  destruct (loop_body_mode_latch mt i line st) as (st1 & -> & Hm & Hh).
  simpl. rewrite <- Hm, <- Hh. apply IH.
Qed.

Lemma new_BlockData_lookup (title : string) (a : Axis) :
  lookup (rapid (new_BlockData title)) a = [] /\
  lookup (cut (new_BlockData title)) a = [].
Proof. now destruct a. Qed.

Lemma switch_block_cases (n : nat) (line : string) (st : ScanState) :
  (has_comment line = false /\ switch_block n line st = st) \/
  (has_comment line = true /\
   exists title,
     switch_block n line st
       = mkScanState (blocks st) (new_BlockData title)
           (has_g50_global st) (is_rapid_mode st)).
Proof.
  unfold has_comment, switch_block.
  destruct (search re_comment_here line); [right | left]; eauto.
Qed.

Lemma line_result_errors (mt : string) (i : nat) (line : string)
    (st : ScanState) (sv fv : list Q) :
  let st1 := switch_block (i + 1) line st in
  let gs := g_codes_of line in
  let g50 := update_g50 mt gs (has_g50_global st) in
  map errors (blocks (line_result mt i line st sv fv))
    = map errors (earlier st1)
      ++ [errors (current_block st1)
          ++ (if is_lathe mt && (mem 96 gs && negb g50)
              then [g96_message (i + 1)] else [])].
Proof.
  intros st1 gs g50. unfold line_result, blocks.
  cbn [earlier current_block]. fold st1 gs.
  rewrite map_app. cbn [map]. f_equal. f_equal.
  destruct (switch_block_keeps (i + 1) line st) as [_ Hh].
  fold st1 in Hh. rewrite Hh. fold g50.
  unfold simple_check.
  destruct (is_lathe mt && (mem 96 gs && negb g50)); cbn [errors append_error].
  - unfold extend_sf; cbn [errors].
    now destruct (store_coords_fields
                    (update_mode gs (is_rapid_mode st1)) (coords_of line)
                    (current_block st1)) as (_ & _ & _ & ->).
  - unfold extend_sf; cbn [errors]. rewrite app_nil_r.
    now destruct (store_coords_fields
                    (update_mode gs (is_rapid_mode st1)) (coords_of line)
                    (current_block st1)) as (_ & _ & _ & ->).
Qed.

(** With the latch set after the line, or off the lathe profile, the line
    adds no error: the error lists of the blocks are as before, with an
    empty one for a block the line opens. *)
Lemma loop_body_no_error (mt : string) (i : nat) (line : string)
    (st : ScanState) :
  is_lathe mt = false
  \/ update_g50 mt (g_codes_of line) (has_g50_global st) = true ->
  exists st' k,
    loop_body mt i line st = Some st' /\
    has_g50_global st' = update_g50 mt (g_codes_of line) (has_g50_global st) /\
    map errors (blocks st') = map errors (blocks st) ++ repeat [] k.
Proof.
  intro Hquiet. destruct (truthy (content_of line)) eqn:H.
  - destruct (loop_body_runs mt i line st H) as (sv & fv & E & _).
    exists (line_result mt i line st sv fv).
    destruct (line_result_mode mt i line st sv fv) as [_ Hh].
    pose proof (line_result_errors mt i line st sv fv) as He.
    cbv zeta in He.
    assert (Hno : is_lathe mt
                  && (mem 96 (g_codes_of line)
                      && negb (update_g50 mt (g_codes_of line)
                                 (has_g50_global st))) = false).
    { destruct Hquiet as [-> | ->]; [reflexivity|].
      now rewrite andb_false_r, andb_false_r. }
    rewrite Hno, app_nil_r in He.
    destruct (switch_block_cases (i + 1) line st)
      as [[_ Hsw] | [_ [title Hsw]]]; rewrite Hsw in He.
    + exists 0. split; [exact E|]. split; [exact Hh|].
      rewrite He. unfold blocks. rewrite map_app. simpl. now rewrite app_nil_r.
    + exists 1. split; [exact E|]. split; [exact Hh|].
      rewrite He. reflexivity.
  - exists st, 0. split; [now apply loop_body_skips|].
    destruct (skipped_line_codes line H) as [-> _].
    rewrite update_g50_nil. split; [reflexivity|].
    simpl. now rewrite app_nil_r.
Qed.

Lemma update_g50_latched (mt : string) (gs : list N) :
  update_g50 mt gs true = true.
Proof. unfold update_g50. now destruct (is_lathe mt && mem 50 gs). Qed.

(** Once the latch is set, the rest of the scan adds no error. *)
Lemma for_lines_latched (mt : string) (lines : list string) :
  forall i st,
    has_g50_global st = true ->
    exists st' k,
      for_lines mt i lines st = Some st' /\
      has_g50_global st' = true /\
      map errors (blocks st') = map errors (blocks st) ++ repeat [] k.
Proof.
  induction lines as [|line lines IH]; intros i st Hl; simpl.
  - exists st, 0. simpl. now rewrite app_nil_r.
  - destruct (loop_body_no_error mt i line st) as (st1 & k1 & -> & Hh & He).
    { right. rewrite Hl. apply update_g50_latched. }
    rewrite Hl, update_g50_latched in Hh. simpl.
    destruct (IH (S i) st1 Hh) as (st' & k & E & Hh' & He').
    exists st', (k1 + k). split; [exact E|]. split; [exact Hh'|].
    now rewrite He', He, <- app_assoc, repeat_app.
Qed.

Lemma all_errors_concat (blks : list BlockData) :
  all_errors blks = concat (map errors blks).
Proof. apply flat_map_concat_map. Qed.

Lemma concat_repeat_nil (A : Type) (l : list (list A)) (k : nat) :
  concat (l ++ repeat [] k) = concat l.
Proof.
  rewrite concat_app.
  replace (concat (repeat [] k)) with (@nil A); [apply app_nil_r|].
  induction k; simpl; auto.
Qed.

(** The scan through a line that carries G50, under the lathe profile. *)
Lemma scan_through_g50 (pre : list string) (line : string) (post : list string) :
  mem 50 (g_codes_of line) = true ->
  exists s0 s1 s2 k1 k2,
    analyze_lines pre "FANUC_Lathe" = Some s0 /\
    analyze_lines (pre ++ [line]) "FANUC_Lathe" = Some s1 /\
    analyze_lines (pre ++ line :: post) "FANUC_Lathe" = Some s2 /\
    has_g50_global s1 = true /\
    map errors (blocks s1) = map errors (blocks s0) ++ repeat [] k1 /\
    map errors (blocks s2) = map errors (blocks s1) ++ repeat [] k2.
Proof.
  intro H50. unfold analyze_lines.
  destruct (for_lines_total "FANUC_Lathe" pre 0 initial_state) as [s0 E0].
  destruct (loop_body_no_error "FANUC_Lathe" (0 + length pre) line s0)
    as (s1 & k1 & E1 & Hh1 & He1).
  { right. unfold update_g50. now rewrite H50. }
  assert (Hl1 : has_g50_global s1 = true).
  { rewrite Hh1. unfold update_g50. now rewrite H50. }
  destruct (for_lines_latched "FANUC_Lathe" post
              (0 + length (pre ++ [line])) s1 Hl1) as (s2 & k2 & E2 & _ & He2).
  assert (E01 : for_lines "FANUC_Lathe" 0 (pre ++ [line]) initial_state = Some s1).
  { rewrite for_lines_app, E0. cbn [bind for_lines]. now rewrite E1. }
  exists s0, s1, s2, k1, k2. repeat split; auto.
  change (pre ++ line :: post) with (pre ++ [line] ++ post).
  now rewrite app_assoc, for_lines_app, E01.
Qed.

(* ================================================================== *)
(** ** The spindle-limit latch *)

(** C5.  Under the lathe profile, let a line of the input carry the G code
    50.  The scan of the input up to and including that line ends with the
    latch set, and the scan of the whole input returns; the error messages
    of its blocks are those present once the G50 line has been processed,
    which in turn are those present before it.  No later line, whatever
    its G codes, adds a message. *)
Theorem spindle_latch_is_monotonic
    (nc_code : string) (pre : list string) (line : string) (post : list string) :
  split "010" nc_code = pre ++ line :: post ->
  mem 50 (g_codes_of line) = true ->
  exists s0 s1 blks,
    analyze_lines pre "FANUC_Lathe" = Some s0 /\
    analyze_lines (pre ++ [line]) "FANUC_Lathe" = Some s1 /\
    analyze nc_code "FANUC_Lathe" = Some blks /\
    has_g50_global s1 = true /\
    all_errors (blocks s1) = all_errors (blocks s0) /\
    all_errors blks = all_errors (blocks s1).
Proof.
  intros Hsplit H50.
  destruct (scan_through_g50 pre line post H50)
    as (s0 & s1 & s2 & k1 & k2 & E0 & E1 & E2 & Hl & He1 & He2).
  exists s0, s1, (blocks s2).
  split; [exact E0|]. split; [exact E1|].
  split; [unfold analyze; now rewrite Hsplit, E2|].
  split; [exact Hl|].
  split.
  - now rewrite !all_errors_concat, He1, concat_repeat_nil.
  - now rewrite !all_errors_concat, He2, concat_repeat_nil.
Qed.

Lemma spindle_latch_is_monotonic_witness :
  let pre := ["G96 S100"; "(Rough) G0 X50"] in
  let line := "G50 S2000 G96" in
  let post := ["(Finish) G96 S300"; "G96"] in
  let nc_code := String.concat (String "010" EmptyString) (pre ++ line :: post) in
  split "010" nc_code = pre ++ line :: post /\
  mem 50 (g_codes_of line) = true /\
  exists blks,
    analyze nc_code "FANUC_Lathe" = Some blks /\
    all_errors blks = ["[Line 1] 危険: G50なしでG96使用"].
Proof.
  intros pre line post nc_code.
  assert (Hs : split "010" nc_code = pre ++ line :: post) by reflexivity.
  assert (H50 : mem 50 (g_codes_of line) = true) by reflexivity.
  split; [exact Hs|]. split; [exact H50|].
  destruct (spindle_latch_is_monotonic nc_code pre line post Hs H50)
    as (s0 & s1 & blks & E0 & _ & E & _ & H1 & H2).
  exists blks. split; [exact E|].
  rewrite H2, H1. vm_compute in E0. inversion E0. reflexivity.
Defined.

(* ================================================================== *)
(** ** Scan state and block boundaries *)

(** C10.  Opening a block leaves the motion mode and the latch as they
    were.  After any lines, the mode and the latch are the folds of
    [update_mode] and [update_g50] over the G codes of the lines, in which
    blocks play no part: the mode is RAPID as long as no line carried a
    code 0..3.  A line that opens a block stores its coordinates in the new
    block under the mode that the earlier lines and its own G codes decide.
    Under the lathe profile, once a line carried G50 the blocks already
    there keep their errors and every block opened later has none. *)
Theorem scan_state_crosses_blocks (machine_type : string) :
  (forall n line st,
     is_rapid_mode (switch_block n line st) = is_rapid_mode st /\
     has_g50_global (switch_block n line st) = has_g50_global st) /\
  (forall lines,
     exists st,
       analyze_lines lines machine_type = Some st /\
       is_rapid_mode st = mode_after lines /\
       has_g50_global st = latch_after machine_type lines) /\
  (forall i line st,
     truthy (content_of line) = true ->
     has_comment line = true ->
     exists st',
       loop_body machine_type i line st = Some st' /\
       earlier st' = blocks st /\
       let m := update_mode (g_codes_of line) (is_rapid_mode st) in
       forall a,
         lookup (rapid (current_block st')) a
           = (if m then coord_values a (coords_of line) else []) /\
         lookup (cut (current_block st')) a
           = (if m then [] else coord_values a (coords_of line))) /\
  (forall pre line post,
     mem 50 (g_codes_of line) = true ->
     exists s1 s2 k,
       analyze_lines (pre ++ [line]) "FANUC_Lathe" = Some s1 /\
       analyze_lines (pre ++ line :: post) "FANUC_Lathe" = Some s2 /\
       map errors (blocks s2) = map errors (blocks s1) ++ repeat [] k).
Proof.
  split; [intros; apply switch_block_keeps|].
  split; [intro lines; apply for_lines_mode_latch|].
  split.
  - intros i line st H Hc.
    destruct (loop_body_runs machine_type i line st H) as (sv & fv & E & _).
    exists (line_result machine_type i line st sv fv).
    split; [exact E|].
    destruct (switch_block_cases (i + 1) line st)
      as [[Hn _] | [_ [title Hsw]]]; [congruence|].
    split; [unfold line_result; cbn [earlier]; now rewrite Hsw|].
    intros m a.
    destruct (line_result_lookup machine_type i line st sv fv a) as [Hr Hcut].
    rewrite Hsw in Hr, Hcut. cbn [current_block] in Hr, Hcut.
    destruct (new_BlockData_lookup title a) as [Er Ec].
    rewrite Er in Hr. rewrite Ec in Hcut. exact (conj Hr Hcut).
  - intros pre line post H50.
    destruct (scan_through_g50 pre line post H50)
      as (s0 & s1 & s2 & k1 & k2 & _ & E1 & E2 & _ & _ & He2).
    exists s1, s2, k2. auto.
Qed.

Lemma scan_state_crosses_blocks_witness :
  let pre := ["G1 X1"] in
  let line := "G50 S2000" in
  let post := ["(Turn) G96 X5"] in
  mem 50 (g_codes_of line) = true /\
  truthy (content_of "(Turn) G96 X5") = true /\
  has_comment "(Turn) G96 X5" = true /\
  exists s1 s2,
    analyze_lines (pre ++ [line]) "FANUC_Lathe" = Some s1 /\
    loop_body "FANUC_Lathe" 2 "(Turn) G96 X5" s1 = Some s2 /\
    analyze_lines (pre ++ line :: post) "FANUC_Lathe" = Some s2 /\
    is_rapid_mode s2 = false /\
    has_g50_global s2 = true /\
    earlier s2 = blocks s1 /\
    lookup (cut (current_block s2)) aX = [5%Q] /\
    map errors (blocks s2) = [[]; []].
Proof.
  intros pre line post.
  assert (H50 : mem 50 (g_codes_of line) = true) by reflexivity.
  assert (Ht : truthy (content_of "(Turn) G96 X5") = true) by reflexivity.
  assert (Hc : has_comment "(Turn) G96 X5" = true) by reflexivity.
  split; [exact H50|]. split; [exact Ht|]. split; [exact Hc|].
  destruct (scan_state_crosses_blocks "FANUC_Lathe")
    as (_ & Hfold & Hopen & Herr).
  destruct (Herr pre line post H50) as (s1 & s2 & k & E1 & E2 & He).
  destruct (Hfold (pre ++ line :: post)) as (s2' & E2' & Hm & Hh).
  rewrite E2 in E2'. inversion E2'; subst s2'.
  destruct (Hopen 2 "(Turn) G96 X5" s1 Ht Hc) as (s2'' & E3 & Hearlier & Hl).
  assert (E3' : loop_body "FANUC_Lathe" 2 "(Turn) G96 X5" s1 = Some s2).
  { vm_compute in E1. inversion E1; subst s1.
    vm_compute in E2. inversion E2; subst s2. vm_compute. reflexivity. }
  rewrite E3' in E3. inversion E3; subst s2''.
  exists s1, s2. split; [exact E1|]. split; [exact E3'|]. split; [exact E2|].
  split; [rewrite Hm; reflexivity|].
  split; [rewrite Hh; reflexivity|].
  split; [exact Hearlier|].
  vm_compute in E2. inversion E2. split; reflexivity.
Defined.

(* ================================================================== *)
(** ** The program returned *)

Lemma blocks_first (st : ScanState) :
  blocks st = first_block st :: tl (blocks st).
Proof. unfold blocks, first_block. now destruct (earlier st). Qed.

Lemma loop_body_cases (mt : string) (i : nat) (line : string)
    (st st' : ScanState) :
  loop_body mt i line st = Some st' ->
  (truthy (content_of line) = false /\ st' = st) \/
  (truthy (content_of line) = true /\
   exists sv fv,
     st' = line_result mt i line st sv fv /\
     (search re_s_here (upper (content_of line)) = None -> sv = []) /\
     (search re_f_here (upper (content_of line)) = None -> fv = [])).
Proof.
  intro E. destruct (truthy (content_of line)) eqn:H.
  - right. split; [reflexivity|].
    destruct (loop_body_runs mt i line st H) as (sv & fv & E' & Hs & Hf).
    rewrite E' in E. inversion E. eauto.
  - left. rewrite (loop_body_skips mt i line st H) in E. inversion E. auto.
Qed.

Lemma line_result_name (mt : string) (i : nat) (line : string)
    (st : ScanState) (sv fv : list Q) :
  name (current_block (line_result mt i line st sv fv))
    = name (current_block (switch_block (i + 1) line st)).
Proof.
  unfold line_result. cbn [current_block].
  match goal with |- context [simple_check ?x ?n ?g ?h ?b] =>
    destruct (simple_check_fields x n g h b) as (-> & _) end.
  unfold extend_sf; cbn [name]. apply store_coords_fields.
Qed.

(** A line that opens a block leaves the first block as it is. *)
Lemma line_result_opens (mt : string) (i : nat) (line : string)
    (st : ScanState) (sv fv : list Q) :
  has_comment line = true ->
  first_block (line_result mt i line st sv fv) = first_block st.
Proof.
  intro Hc. unfold first_block, line_result. cbn [earlier current_block].
  destruct (switch_block_cases (i + 1) line st)
    as [[Hn _] | [_ [title ->]]]; [congruence|].
  cbn [earlier]. unfold blocks. now destruct (earlier st).
Qed.

(** The first block keeps its name. *)
Lemma loop_body_first_name (mt : string) (i : nat) (line : string)
    (st st' : ScanState) :
  loop_body mt i line st = Some st' ->
  name (first_block st') = name (first_block st).
Proof.
  intro E. apply loop_body_cases in E as [[_ ->] | [_ (sv & fv & -> & _)]];
    [reflexivity|].
  destruct (has_comment line) eqn:Hc; [now rewrite line_result_opens|].
  pose proof (line_result_name mt i line st sv fv) as Hn.
  destruct (switch_block_cases (i + 1) line st)
    as [[_ Hsw] | [Hy _]]; [|congruence].
  unfold first_block. unfold line_result at 2. cbn [earlier]. rewrite Hsw in *.
  destruct (earlier st); [exact Hn | reflexivity].
Qed.

(** Without a parenthesised comment no block is opened. *)
Lemma loop_body_no_comment (mt : string) (i : nat) (line : string)
    (st st' : ScanState) :
  has_comment line = false ->
  loop_body mt i line st = Some st' -> earlier st' = earlier st.
Proof.
  intros Hc E. apply loop_body_cases in E as [[_ ->] | [_ (sv & fv & -> & _)]];
    [reflexivity|].
  destruct (switch_block_cases (i + 1) line st)
    as [[_ Hsw] | [Hy _]]; [|congruence].
  unfold line_result. cbn [earlier]. now rewrite Hsw.
Qed.

(** A line with nothing to store leaves the current block as it is. *)
Lemma line_result_quiet (mt : string) (i : nat) (line : string)
    (st : ScanState) :
  has_comment line = false -> truthy (content_of line) = true ->
  quiet_line line = true ->
  current_block (line_result mt i line st [] []) = current_block st.
Proof.
  intros Hc Ht Hq. unfold quiet_line in Hq. rewrite Ht in Hq. cbn [negb orb] in Hq.
  apply andb_prop in Hq as [Hq H96]. apply andb_prop in Hq as [Hq _].
  apply andb_prop in Hq as [Hcoords _].
  destruct (coords_of line) eqn:Ecs; [|discriminate].
  destruct (switch_block_cases (i + 1) line st)
    as [[_ Hsw] | [Hy _]]; [|congruence].
  unfold line_result. cbn [current_block]. rewrite Hsw, Ecs.
  unfold simple_check. apply negb_true_iff in H96. rewrite H96.
  cbn [andb]. rewrite andb_false_r. apply extend_sf_nil.
Qed.

Lemma loop_body_quiet_first (mt : string) (i : nat) (line : string)
    (st st' : ScanState) :
  quiet_line line || has_comment line = true ->
  loop_body mt i line st = Some st' ->
  first_block st' = first_block st.
Proof.
  intros Hq E.
  apply loop_body_cases in E as [[_ ->] | [Ht (sv & fv & -> & Hs & Hf)]];
    [reflexivity|].
  destruct (has_comment line) eqn:Hc; [now apply line_result_opens|].
  rewrite orb_false_r in Hq.
  assert (Hsv : sv = []).
  { apply Hs. unfold quiet_line in Hq. rewrite Ht in Hq. cbn [negb orb] in Hq.
    apply andb_prop in Hq as [Hq _]. apply andb_prop in Hq as [Hq _].
    apply andb_prop in Hq as [_ Hq].
    now destruct (search re_s_here (upper (content_of line))). }
  assert (Hfv : fv = []).
  { apply Hf. unfold quiet_line in Hq. rewrite Ht in Hq. cbn [negb orb] in Hq.
    apply andb_prop in Hq as [Hq _]. apply andb_prop in Hq as [_ Hq].
    now destruct (search re_f_here (upper (content_of line))). }
  subst sv fv.
  pose proof (line_result_quiet mt i line st Hc Ht Hq) as Hcur.
  unfold first_block. rewrite Hcur.
  destruct (switch_block_cases (i + 1) line st)
    as [[_ Hsw] | [Hy _]]; [|congruence].
  unfold line_result. cbn [earlier]. now rewrite Hsw.
Qed.

Lemma forallb_true (A : Type) (l : list A) : forallb (fun _ => true) l = true.
Proof. induction l; simpl; auto. Qed.

(** With the limit of [int] on the number of digits lifted (as [py_int]
    is), the scan returns for every input text and every machine profile:
    a list of blocks that is not empty and whose first block is the header
    block.  When no line carries a parenthesised comment the header is the
    only block.  When every line is either passed over, or has no token to
    store, or carries a parenthesised comment, the header is the all-empty
    block: so it is for an input of comments only or of tokens that no
    pattern matches. *)
Theorem analyze_returns_program (nc_code machine_type : string) :
  let lines := split "010" nc_code in
  exists header rest,
    analyze nc_code machine_type = Some (header :: rest) /\
    name header = "Header / Setup" /\
    (forallb (fun l => negb (has_comment l)) lines = true -> rest = []) /\
    (forallb (fun l => quiet_line l || has_comment l) lines = true ->
     header = new_BlockData "Header / Setup").
Proof.
  intro lines. unfold analyze, analyze_lines. fold lines.
  destruct (for_lines_total machine_type lines 0 initial_state) as [st E].
  rewrite E. cbn [option_map].
  exists (first_block st), (tl (blocks st)).
  split; [now rewrite <- blocks_first|]. split; [|split].
  - apply (for_lines_invariant machine_type
             (fun s => name (first_block s) = "Header / Setup")
             (fun _ => true)) with (4 := E);
      [|apply forallb_true | reflexivity].
    intros i line s s' _ HP Es.
    now rewrite (loop_body_first_name _ _ _ _ _ Es).
  - intro Hno.
    assert (He : earlier st = []).
    { apply (for_lines_invariant machine_type (fun s => earlier s = [])
               (fun l => negb (has_comment l))) with (4 := E);
        [|exact Hno | reflexivity].
      intros i line s s' Hl HP Es. apply negb_true_iff in Hl.
      now rewrite (loop_body_no_comment _ _ _ _ _ Hl Es). }
    unfold blocks. now rewrite He.
  - intro Hq.
    apply (for_lines_invariant machine_type
             (fun s => first_block s = new_BlockData "Header / Setup")
             (fun l => quiet_line l || has_comment l)) with (4 := E);
      [|exact Hq | reflexivity].
    intros i line s s' Hl HP Es.
    now rewrite (loop_body_quiet_first _ _ _ _ _ Hl Es).
Qed.

Lemma analyze_returns_program_witness :
  let nc_code := String.concat (String "010" EmptyString)
                   ["; set-up sheet 12"; "%"; "O1234"; ""; "M30 ; end"] in
  let lines := split "010" nc_code in
  forallb (fun l => negb (has_comment l)) lines = true /\
  forallb (fun l => quiet_line l || has_comment l) lines = true /\
  analyze nc_code "TOSNUC_Mill" = Some [new_BlockData "Header / Setup"].
Proof.
  intros nc_code lines.
  assert (H1 : forallb (fun l => negb (has_comment l)) lines = true)
    by reflexivity.
  assert (H2 : forallb (fun l => quiet_line l || has_comment l) lines = true)
    by reflexivity.
  split; [exact H1|]. split; [exact H2|].
  destruct (analyze_returns_program nc_code "TOSNUC_Mill")
    as (header & rest & E & _ & Hrest & Hheader).
  rewrite (Hrest H1), (Hheader H2) in E. exact E.
Defined.

(* ================================================================== *)
(** ** The range check *)

Section LimitCheckerFacts.
Variable num : Type.
Variable float : string -> option num.
Variable lt gt : num -> num -> bool.
Variable show : num -> string.

Lemma check_min_in_step (a : Axis) (p : num) (u : string)
    (acc : list string * bool) :
  in_step acc -> in_step (check_min num float lt show a p u acc).
Proof.
  unfold check_min, in_step. intro H.
  destruct (truthy u); [|exact H].
  destruct (float u) as [limit|]; [|exact H].
  destruct (lt p limit); [|exact H].
  simpl. split; [discriminate|]. intro E. now apply app_eq_nil in E as [_ E].
Qed.

Lemma check_max_in_step (a : Axis) (p : option num) (u : string)
    (acc : list string * bool) :
  in_step acc -> in_step (check_max num float gt show a p u acc).
Proof.
  unfold check_max, in_step. intro H.
  destruct (truthy u); [|exact H].
  destruct (float u) as [limit|]; [|exact H].
  destruct p as [p|]; [|exact H].
  destruct (gt p limit); [|exact H].
  simpl. split; [discriminate|]. intro E. now apply app_eq_nil in E as [_ E].
Qed.

Lemma check_axis_in_step (stats : Axis -> option num * option num)
    (entries : Axis -> string * string) (acc : list string * bool) (a : Axis) :
  in_step acc -> in_step (check_axis num float lt gt show stats entries acc a).
Proof.
  intro H. unfold check_axis.
  destruct (stats a) as [[p_min|] p_max]; [|exact H].
  destruct (entries a) as [u_min u_max].
  now apply check_max_in_step, check_min_in_step.
Qed.

Lemma check_loop_in_step (stats : Axis -> option num * option num)
    (entries : Axis -> string * string) :
  in_step (check_loop num float lt gt show stats entries).
Proof.
  unfold check_loop. simpl.
  repeat apply check_axis_in_step. unfold in_step; simpl; tauto.
Qed.

(** The branch of the label that reports "no conditions" is never taken:
    its guard asks for [safe] with a non-empty [results]. *)
Lemma check_never_no_conditions (stats : Axis -> option num * option num)
    (entries : Axis -> string * string) :
  check num float lt gt show stats entries <> NO_CONDITIONS.
Proof.
  unfold check. pose proof (check_loop_in_step stats entries) as H.
  destruct (check_loop num float lt gt show stats entries) as [results safe].
  unfold in_step in H; simpl in H.
  destruct safe; [|discriminate].
  destruct results; [discriminate|].
  destruct H as [H _]. now specialize (H eq_refl).
Qed.

(** What one turn of the loop adds to [results]. *)
Lemma check_axis_failures (stats : Axis -> option num * option num)
    (entries : Axis -> string * string) (acc : list string * bool) (a : Axis) :
  check_axis num float lt gt show stats entries acc a
    = match failures_of num float lt gt show stats entries a with
      | [] => acc
      | fs => (fst acc ++ fs, false)
      end.
Proof.
  unfold check_axis, failures_of.
  destruct (stats a) as [[p_min|] p_max]; [|reflexivity].
  destruct (entries a) as [u_min u_max].
  unfold check_min, check_max.
  cbn [fst snd].
  destruct (truthy u_min); destruct (float u_min) as [l1|];
    destruct (truthy u_max); destruct (float u_max) as [l2|];
    destruct p_max as [p|]; cbn [fst snd app];
    repeat match goal with
      | |- context [if ?c then _ else _] => destruct c
      end;
    cbn [fst snd app]; rewrite <- ?app_assoc; reflexivity.
Qed.

(** The verdict is SAFE when no supplied bound fails, and otherwise the
    violation that lists every failure, axis by axis, minimum first. *)
Lemma check_lists_every_failure (stats : Axis -> option num * option num)
    (entries : Axis -> string * string) :
  check num float lt gt show stats entries
    = match flat_map (failures_of num float lt gt show stats entries)
              [aX; aY; aZ] with
      | [] => SAFE
      | fs => VIOLATION fs
      end.
Proof.
  unfold check, check_loop. cbn [fold_left flat_map].
  rewrite !check_axis_failures.
  destruct (failures_of num float lt gt show stats entries aX) as [|x fx];
    destruct (failures_of num float lt gt show stats entries aY) as [|y fy];
    destruct (failures_of num float lt gt show stats entries aZ) as [|z fz];
    cbn [fst snd app andb]; rewrite ?app_nil_r, <- ?app_assoc; reflexivity.
Qed.

Lemma check_axis_blank (stats : Axis -> option num * option num)
    (acc : list string * bool) (a : Axis) :
  check_axis num float lt gt show stats blank_entries acc a = acc.
Proof.
  unfold check_axis, blank_entries.
  now destruct (stats a) as [[p_min|] p_max].
Qed.

(** C1, at the inputs where it fails.  With every entry field left blank
    the check reports SAFE, whatever the statistics are, and not the
    NO-CONDITIONS state. *)
Theorem check_blank_entries_is_SAFE (stats : Axis -> option num * option num) :
  check num float lt gt show stats blank_entries = SAFE.
Proof.
  unfold check, check_loop. simpl. now rewrite !check_axis_blank.
Qed.

Lemma check_axis_clear_min (stats : Axis -> option num * option num)
    (entries : Axis -> string * string) (a : Axis) :
  float (fst (entries a)) = None ->
  forall acc b,
    check_axis num float lt gt show stats (clear_min a entries) acc b
      = check_axis num float lt gt show stats entries acc b.
Proof.
  intros Hf acc b. unfold check_axis, clear_min.
  destruct (stats b) as [[p_min|] p_max]; [|reflexivity].
  destruct (Axis_eqb b a) eqn:E; [|reflexivity].
  assert (b = a) by (destruct a, b; simpl in E; congruence). subst b.
  destruct (entries a) as [u_min u_max]. simpl in *.
  f_equal. unfold check_min. rewrite Hf. now destruct (truthy u_min).
Qed.

Lemma check_axis_clear_max (stats : Axis -> option num * option num)
    (entries : Axis -> string * string) (a : Axis) :
  float (snd (entries a)) = None ->
  forall acc b,
    check_axis num float lt gt show stats (clear_max a entries) acc b
      = check_axis num float lt gt show stats entries acc b.
Proof.
  intros Hf acc b. unfold check_axis, clear_max.
  destruct (stats b) as [[p_min|] p_max]; [|reflexivity].
  destruct (Axis_eqb b a) eqn:E; [|reflexivity].
  assert (b = a) by (destruct a, b; simpl in E; congruence). subst b.
  destruct (entries a) as [u_min u_max]. simpl in *.
  unfold check_max. rewrite Hf. now destruct (truthy u_max).
Qed.

(** C8.  The check is a total function of the statistics and the entry
    texts.  An entry text that [float] does not read has no effect: the
    verdict, with its list of failures, is the one obtained with that
    field left blank and every other field as it is. *)
Theorem unreadable_bound_is_ignored
    (stats : Axis -> option num * option num)
    (entries : Axis -> string * string) (a : Axis) :
  (float (fst (entries a)) = None ->
   check num float lt gt show stats entries = check num float lt gt show stats (clear_min a entries)) /\
  (float (snd (entries a)) = None ->
   check num float lt gt show stats entries = check num float lt gt show stats (clear_max a entries)).
Proof.
  split; intro Hf; unfold check, check_loop; simpl.
  - now rewrite !(check_axis_clear_min stats entries a Hf).
  - now rewrite !(check_axis_clear_max stats entries a Hf).
Qed.
End LimitCheckerFacts.

Lemma unreadable_bound_is_ignored_witness :
  let blks := [mkBlockData "Header / Setup"
                 (mkAxisDict [(-5)%Q] [] []) (mkAxisDict [120%Q] [] [])
                 [] [] []] in
  let entries := fun a : Axis =>
                   match a with
                   | aX => ("0..5", "100")
                   | aY => ("1", "n/a")
                   | aZ => ("", "")
                   end in
  py_float (fst (entries aX)) = None /\
  py_float (snd (entries aY)) = None /\
  check_blocks py_float show_integral blks entries
    = VIOLATION ["❌ X Max違反: 120.0 > 100"].
Proof.
  intros blks entries.
  assert (H1 : py_float (fst (entries aX)) = None) by reflexivity.
  assert (H2 : py_float (snd (entries aY)) = None) by reflexivity.
  split; [exact H1|]. split; [exact H2|].
  unfold check_blocks.
  destruct (unreadable_bound_is_ignored Q py_float Qltb
              (fun a b => Qltb b a) show_integral
              (stat_of (get_global_stats blks)) entries aX) as [Hmin _].
  rewrite (Hmin H1).
  destruct (unreadable_bound_is_ignored Q py_float Qltb
              (fun a b => Qltb b a) show_integral
              (stat_of (get_global_stats blks)) (clear_min aX entries) aY)
    as [_ Hmax].
  rewrite (Hmax H2). reflexivity.
Defined.

(* ================================================================== *)
(** * Further properties of the code *)

(** ** Lines of the program text *)

Lemma split_not_nil (sep : ascii) (s : string) : split sep s <> [].
Proof.
  induction s as [|c r IH]; simpl; [discriminate|].
  destruct (Ascii.eqb c sep); [discriminate|].
  destruct (split sep r); discriminate.
Qed.

Lemma concat_cons (sep x : string) (xs : list string) :
  xs <> [] ->
  String.concat sep (x :: xs) = (x ++ sep ++ String.concat sep xs)%string.
Proof. destruct xs; [congruence | reflexivity]. Qed.

Lemma split_pieces (sep : ascii) (s : string) :
  Forall (fun piece => no_char sep piece = true) (split sep s).
Proof.
  induction s as [|c r IH]; simpl.
  - repeat constructor.
  - destruct (Ascii.eqb c sep) eqn:E.
    + constructor; [reflexivity | exact IH].
    + assert (Hc : no_char sep (String c EmptyString) = true)
        by (unfold no_char; simpl; now rewrite E).
      destruct (split sep r) as [|h t]; [now repeat constructor|].
      inversion IH as [|? ? Hh Ht]; subst. constructor; [|exact Ht].
      unfold no_char in *. simpl. now rewrite E, Hh.
Qed.

Lemma split_piece_more (sep : ascii) (x rest : string) :
  no_char sep x = true ->
  split sep (x ++ String sep rest)%string = x :: split sep rest.
Proof.
  unfold no_char. induction x as [|c x IH]; simpl; intro H.
  - now rewrite Ascii.eqb_refl.
  - apply andb_prop in H as [Hc Hx]. apply negb_true_iff in Hc.
    now rewrite Hc, (IH Hx).
Qed.

Lemma split_single (sep : ascii) (x : string) :
  no_char sep x = true -> split sep x = [x].
Proof.
  unfold no_char. induction x as [|c x IH]; simpl; intro H; [reflexivity|].
  apply andb_prop in H as [Hc Hx]. apply negb_true_iff in Hc.
  now rewrite Hc, (IH Hx).
Qed.

(** X1.  Splitting a text at the line feeds loses nothing: joining the
    lines again gives the text back, no line contains a line feed, and any
    non-empty list of lines without line feeds is the split of its join. *)
Theorem split_join_round_trip :
  (forall nc_code,
     join_lines (split "010" nc_code) = nc_code /\
     Forall (fun line => no_char "010" line = true) (split "010" nc_code)) /\
  (forall lines,
     lines <> [] ->
     Forall (fun line => no_char "010" line = true) lines ->
     split "010" (join_lines lines) = lines).
Proof.
  split.
  - intro s. split; [|apply split_pieces].
    unfold join_lines. induction s as [|c r IH]; [reflexivity|]. simpl.
    destruct (Ascii.eqb_spec c "010") as [->|_].
    + rewrite concat_cons by apply split_not_nil. cbn [append].
      now rewrite IH.
    + pose proof (split_not_nil "010" r) as Hne.
      destruct (split "010" r) as [|h t]; [congruence|].
      destruct t as [|h' t'].
      * cbn [String.concat] in *. now rewrite IH.
      * rewrite concat_cons by discriminate.
        rewrite concat_cons in IH by discriminate.
        cbn [append] in *. now rewrite IH.
  - unfold join_lines. induction lines as [|x xs IH]; intros Hne Hall.
    + congruence.
    + inversion Hall as [|? ? Hx Hxs]; subst.
      destruct xs as [|y ys]; [now apply split_single|].
      rewrite concat_cons by discriminate. cbn [append].
      rewrite split_piece_more by exact Hx.
      f_equal. apply IH; [discriminate | exact Hxs].
Qed.

Lemma split_join_round_trip_witness :
  let lines := ["G0 X10"; ""; "G1 Z-3 ; cut"] in
  lines <> [] /\
  Forall (fun line => no_char "010" line = true) lines /\
  split "010" (join_lines lines) = lines.
Proof.
  intro lines.
  assert (Hne : lines <> []) by discriminate.
  assert (Hall : Forall (fun line => no_char "010" line = true) lines)
    by (repeat constructor).
  split; [exact Hne|]. split; [exact Hall|].
  destruct split_join_round_trip as [_ H]. exact (H lines Hne Hall).
Defined.

(** ** Line comments and letter case *)

Lemma all_chars_lstrip (p : ascii -> bool) (s : string) :
  all_chars p s = true -> all_chars p (lstrip s) = true.
Proof.
  induction s as [|c r IH]; simpl; [auto|]. intro H.
  destruct (is_space c); [|exact H].
  apply andb_prop in H as [_ H]. auto.
Qed.

Lemma all_chars_rstrip (p : ascii -> bool) (s : string) :
  all_chars p s = true -> all_chars p (rstrip s) = true.
Proof.
  induction s as [|c r IH]; simpl; [auto|]. intro H.
  apply andb_prop in H as [Hc H]. specialize (IH H).
  destruct (rstrip r) as [|c' r'].
  - destruct (is_space c); simpl; [reflexivity | now rewrite Hc].
  - simpl in *. now rewrite Hc, IH.
Qed.

Lemma rstrip_again (s : string) : rstrip (rstrip s) = rstrip s.
Proof.
  induction s as [|c r IH]; simpl; [reflexivity|].
  destruct (rstrip r) as [|c' r'] eqn:E.
  - destruct (is_space c) eqn:Hc; simpl; [reflexivity | now rewrite Hc].
  - simpl in IH. simpl. destruct (rstrip r') as [|c'' r''].
    + destruct (is_space c') eqn:Hc'; [discriminate IH|]. now rewrite IH.
    + now rewrite IH.
Qed.

Lemma lstrip_stops (s : string) : stops is_space (lstrip s).
Proof.
  induction s as [|c r IH]; simpl; [exact I|].
  destruct (is_space c) eqn:Hc; [exact IH | exact Hc].
Qed.

Lemma rstrip_head (s : string) :
  stops is_space s -> stops is_space (rstrip s).
Proof.
  destruct s as [|c r]; simpl; [auto|]. intro Hc.
  destruct (rstrip r); [now rewrite Hc | exact Hc].
Qed.

Lemma lstrip_fixed (s : string) : stops is_space s -> lstrip s = s.
Proof. destruct s as [|c r]; simpl; [auto|]. now intros ->. Qed.

Lemma strip_again (s : string) : strip (strip s) = strip s.
Proof.
  unfold strip.
  rewrite (lstrip_fixed (rstrip (lstrip s)))
    by apply rstrip_head, lstrip_stops.
  apply rstrip_again.
Qed.

Lemma split_head_before (sep : ascii) (a b : string) :
  no_char sep a = true ->
  hd EmptyString (split sep (a ++ String sep b)%string) = a /\
  hd EmptyString (split sep a) = a.
Proof.
  intro H. now rewrite (split_piece_more sep a b H), (split_single sep a H).
Qed.

Lemma split_head_clean (sep : ascii) (s : string) :
  no_char sep (hd EmptyString (split sep s)) = true.
Proof.
  pose proof (split_pieces sep s) as H.
  destruct (split sep s); [reflexivity | now inversion H].
Qed.

(** X2.  What follows the first ";" of a line is no part of its content:
    the content, the G codes and the coordinate tokens are those of the
    text before the ";".  The content never contains a ";" and has no
    blank at either end (stripping it again changes nothing). *)
Theorem line_comment_is_dropped :
  (forall a b,
     no_char ";" a = true ->
     content_of (a ++ String ";" b)%string = strip a /\
     content_of a = strip a /\
     g_codes_of (a ++ String ";" b)%string = g_codes_of a /\
     coords_of (a ++ String ";" b)%string = coords_of a) /\
  (forall line,
     no_char ";" (content_of line) = true /\
     strip (content_of line) = content_of line).
Proof.
  split.
  - intros a b H. destruct (split_head_before ";" a b H) as [H1 H2].
    assert (E : content_of (a ++ String ";" b)%string = content_of a)
      by (unfold content_of; now rewrite H1, H2).
    unfold g_codes_of, coords_of. rewrite E.
    unfold content_of. rewrite H2. auto.
  - intro line. unfold content_of. split; [|apply strip_again].
    unfold strip, no_char.
    apply all_chars_rstrip, all_chars_lstrip, split_head_clean.
Qed.

Lemma line_comment_is_dropped_witness :
  let a := "  G1 X5 " in
  let b := " G0 X99 (old)" in
  no_char ";" a = true /\
  content_of (a ++ String ";" b)%string = "G1 X5" /\
  g_codes_of (a ++ String ";" b)%string = [1%N] /\
  coords_of (a ++ String ";" b)%string = [("X", "5")].
Proof.
  intros a b.
  assert (H : no_char ";" a = true) by reflexivity.
  split; [exact H|].
  destruct line_comment_is_dropped as [Hdrop _].
  destruct (Hdrop a b H) as (E1 & _ & E2 & E3).
  rewrite E1, E2, E3. repeat split; reflexivity.
Defined.

Lemma upper_char_facts (c : ascii) :
  upper_char (upper_char c) = upper_char c /\
  is_space (upper_char c) = is_space c /\
  Ascii.eqb (upper_char c) ";" = Ascii.eqb c ";".
Proof.
  destruct c as [[] [] [] [] [] [] [] []]; repeat split; reflexivity.
Qed.

Lemma upper_again (s : string) : upper (upper s) = upper s.
Proof.
  induction s as [|c r IH]; simpl; [reflexivity|].
  destruct (upper_char_facts c) as [-> _]. now rewrite IH.
Qed.

Lemma upper_lstrip (s : string) : lstrip (upper s) = upper (lstrip s).
Proof.
  induction s as [|c r IH]; simpl; [reflexivity|].
  destruct (upper_char_facts c) as (_ & -> & _).
  now destruct (is_space c).
Qed.

Lemma upper_rstrip (s : string) : rstrip (upper s) = upper (rstrip s).
Proof.
  induction s as [|c r IH]; simpl; [reflexivity|].
  rewrite IH. destruct (upper_char_facts c) as (_ & -> & _).
  destruct (rstrip r); simpl; [now destruct (is_space c) | reflexivity].
Qed.

Lemma upper_split_head (s : string) :
  hd EmptyString (split ";" (upper s)) = upper (hd EmptyString (split ";" s)).
Proof.
  induction s as [|c r IH]; simpl; [reflexivity|].
  destruct (upper_char_facts c) as (_ & _ & ->).
  destruct (Ascii.eqb c ";"); [reflexivity|].
  pose proof (split_not_nil ";" r) as N1.
  pose proof (split_not_nil ";" (upper r)) as N2.
  destruct (split ";" r); [congruence|].
  destruct (split ";" (upper r)); [congruence|].
  simpl in *. now rewrite IH.
Qed.

Lemma upper_content (line : string) :
  content_of (upper line) = upper (content_of line).
Proof.
  unfold content_of, strip.
  now rewrite upper_split_head, upper_lstrip, upper_rstrip.
Qed.

Lemma upper_truthy (s : string) : truthy (upper s) = truthy s.
Proof. now destruct s. Qed.

(** X3.  The scanner reads its tokens without regard to letter case: two
    lines that differ only in the case of their letters are passed over
    alike and have the same G codes, the same coordinate tokens and the
    same spindle and feed tokens. *)
Theorem tokens_ignore_letter_case (line1 line2 : string) :
  upper line1 = upper line2 ->
  truthy (content_of line1) = truthy (content_of line2) /\
  g_codes_of line1 = g_codes_of line2 /\
  coords_of line1 = coords_of line2 /\
  search re_s_here (upper (content_of line1))
    = search re_s_here (upper (content_of line2)) /\
  search re_f_here (upper (content_of line1))
    = search re_f_here (upper (content_of line2)).
Proof.
  intro H.
  assert (E : upper (content_of line1) = upper (content_of line2))
    by (now rewrite <- !upper_content, H).
  unfold g_codes_of, coords_of. rewrite E. repeat split.
  now rewrite <- (upper_truthy (content_of line1)), E, upper_truthy.
Qed.

Lemma tokens_ignore_letter_case_witness :
  upper "g01 x5 f0.2 s300" = upper "G01 X5 F0.2 S300" /\
  g_codes_of "g01 x5 f0.2 s300" = [1%N] /\
  coords_of "g01 x5 f0.2 s300" = [("X", "5")].
Proof.
  assert (H : upper "g01 x5 f0.2 s300" = upper "G01 X5 F0.2 S300")
    by reflexivity.
  split; [exact H|].
  destruct (tokens_ignore_letter_case _ _ H) as (_ & -> & -> & _).
  split; reflexivity.
Defined.

(** ** The value of a number token *)

Lemma digits_value_app (a b : string) :
  forall acc,
    digits_value acc (a ++ b)%string = digits_value (digits_value acc a) b.
Proof. induction a as [|c a IH]; intro acc; simpl; [reflexivity | apply IH]. Qed.

Lemma str_app_nil (s : string) : (s ++ "")%string = s.
Proof. induction s as [|c s IH]; simpl; [reflexivity | now rewrite IH]. Qed.

Lemma float_unsigned_int (neg : bool) (d1 : string) :
  truthy d1 = true -> all_chars is_digit d1 = true ->
  float_unsigned neg d1 = Some (decimal neg d1 "").
Proof.
  intros T A. unfold float_unsigned. now rewrite (span_all _ _ A), T.
Qed.

Lemma float_unsigned_point (neg : bool) (d1 d2 : string) :
  truthy d1 = true -> all_chars is_digit d1 = true ->
  all_chars is_digit d2 = true ->
  float_unsigned neg (d1 ++ String "." d2)%string = Some (decimal neg d1 d2).
Proof.
  intros T A1 A2. unfold float_unsigned.
  rewrite (span_app is_digit d1 (String "." d2) A1 eq_refl).
  rewrite Ascii.eqb_refl, (span_all _ _ A2). simpl. now rewrite T.
Qed.

Lemma py_float_head_digit (num : string) :
  unsigned_shape num -> py_float num = float_unsigned false num.
Proof.
  intro H. destruct (unsigned_shape_head num H) as (c & r & -> & Hc).
  destruct (digit_not_sign c Hc) as (N1 & N2 & _).
  unfold py_float. now rewrite N1, N2.
Qed.

Lemma decimal_opp (ip fp : string) :
  decimal true ip fp = (- decimal false ip fp)%Q.
Proof. unfold decimal. apply (Qred_opp (Qmake _ _)). Qed.

Lemma float_unsigned_opp (num : string) :
  unsigned_shape num ->
  float_unsigned true num = option_map Qopp (float_unsigned false num).
Proof.
  intros [d1 T A | d1 d2 T A1 A2].
  - rewrite !float_unsigned_int by assumption. simpl. now rewrite decimal_opp.
  - rewrite !float_unsigned_point by assumption. simpl.
    now rewrite decimal_opp.
Qed.

Lemma pow10_pos (k : nat) : (0 < 10 ^ Z.of_nat k)%Z.
Proof. apply Z.pow_pos_nonneg; lia. Qed.

Lemma decimal_trailing_zero (neg : bool) (ip fp : string) :
  decimal neg ip (fp ++ "0")%string = decimal neg ip fp.
Proof.
  unfold decimal. apply Qred_complete. unfold Qeq. cbn [Qnum Qden].
  rewrite <- str_app_assoc, digits_value_app. cbn [digits_value].
  change (digit_val "0") with 0%N. rewrite str_length_app. cbn [String.length].
  rewrite !Z2Pos.id by apply pow10_pos.
  rewrite Nat2Z.inj_add, Z.pow_add_r by lia.
  rewrite N.add_0_r, N2Z.inj_mul. change (Z.of_N 10) with 10%Z.
  change (10 ^ Z.of_nat 1)%Z with 10%Z.
  destruct neg; ring.
Qed.

Lemma Qred_integer (n : Z) : Qred (n # 1) = (n # 1)%Q.
Proof.
  unfold Qred.
  generalize (Z.ggcd_correct_divisors n 1) (Z.ggcd_gcd n 1).
  destruct (Z.ggcd n 1) as (g, (aa, bb)); simpl.
  intros [Ha Hb] Hg. rewrite Z.gcd_1_r in Hg. subst g.
  rewrite Z.mul_1_l in Ha, Hb. now subst.
Qed.

Lemma decimal_integer (ip : string) :
  decimal false ip "" = inject_Z (Z.of_N (digits_value 0 ip)).
Proof.
  unfold decimal. rewrite str_app_nil. cbn [String.length].
  change (Z.to_pos (10 ^ Z.of_nat 0)) with 1%positive. apply Qred_integer.
Qed.

Lemma decimal_nonneg (ip fp : string) : (0 <= decimal false ip fp)%Q.
Proof.
  unfold decimal. rewrite Qred_correct. unfold Qle. cbn [Qnum Qden].
  lia.
Qed.

(** X4.  How [parse_value] reads the number of a token.  Every number
    without a sign is read, whole or with decimals, and its value is not
    negative.  A point after a whole number does not change the value, nor
    does a zero added at the end of the decimals: the tokens X10, X10. and
    X10.0 record the same sample.  A leading minus sign gives the opposite
    of the value read without it. *)
Theorem number_token_value (ip fp : string) :
  truthy ip = true -> all_chars is_digit ip = true ->
  all_chars is_digit fp = true ->
  (exists v, parse_value ip = Some v /\ (0 <= v)%Q) /\
  (exists v, parse_value (ip ++ String "." fp)%string = Some v /\ (0 <= v)%Q) /\
  parse_value (ip ++ ".")%string = parse_value ip /\
  parse_value (ip ++ String "." (fp ++ "0"))%string
    = parse_value (ip ++ String "." fp)%string /\
  parse_value (String "-" ip) = option_map Qopp (parse_value ip) /\
  parse_value (String "-" (ip ++ String "." fp))%string
    = option_map Qopp (parse_value (ip ++ String "." fp)%string).
Proof.
  intros T A1 A2. unfold parse_value.
  assert (S1 : unsigned_shape ip) by now constructor.
  assert (S2 : forall d, all_chars is_digit d = true ->
                         unsigned_shape (ip ++ String "." d)%string)
    by (intros; now constructor).
  assert (A3 : all_chars is_digit (fp ++ "0")%string = true)
    by (rewrite all_chars_app, A2; reflexivity).
  assert (Hneg : forall num, unsigned_shape num ->
            py_float (String "-" num) = option_map Qopp (py_float num)).
  { intros num H. rewrite (py_float_head_digit num H).
    unfold py_float at 1. rewrite Ascii.eqb_refl.
    now apply float_unsigned_opp. }
  rewrite (Hneg ip S1), (Hneg _ (S2 fp A2)).
  rewrite (py_float_head_digit ip S1).
  rewrite !(py_float_head_digit _ (S2 _ A2)).
  rewrite (py_float_head_digit _ (S2 _ A3)).
  rewrite (py_float_head_digit _ (S2 "" eq_refl)).
  rewrite float_unsigned_int, !float_unsigned_point by auto.
  rewrite decimal_trailing_zero.
  split; [eexists; split; [reflexivity | apply decimal_nonneg]|].
  split; [eexists; split; [reflexivity | apply decimal_nonneg]|].
  repeat split.
Qed.

Lemma number_token_value_witness :
  parse_value "10." = parse_value "10" /\
  parse_value "10.50" = parse_value "10.5" /\
  parse_value "-10.5" = option_map Qopp (parse_value "10.5") /\
  parse_value "10.5" = Some (21 # 2)%Q.
Proof.
  destruct (number_token_value "10" "5" eq_refl eq_refl eq_refl)
    as (_ & _ & H2 & H3 & _ & H6).
  split; [exact H2|]. split; [exact H3|]. split; [exact H6|]. reflexivity.
Defined.

(** ** Errors and blocks of a whole scan *)

Lemma line_result_all_errors (mt : string) (i : nat) (line : string)
    (st : ScanState) (sv fv : list Q) :
  all_errors (blocks (line_result mt i line st sv fv))
    = all_errors (blocks st)
      ++ (if is_lathe mt
             && (mem 96 (g_codes_of line)
                 && negb (update_g50 mt (g_codes_of line) (has_g50_global st)))
          then [g96_message (i + 1)] else []).
Proof.
  rewrite !all_errors_concat, line_result_errors.
  rewrite concat_app. cbn [concat]. rewrite app_nil_r.
  destruct (switch_block_cases (i + 1) line st)
    as [[_ ->] | [_ [title ->]]].
  - unfold blocks. rewrite map_app, concat_app. cbn [map concat].
    now rewrite app_nil_r, app_assoc.
  - cbn [earlier current_block]. reflexivity.
Qed.

Lemma for_lines_errors (mt : string) (lines : list string) :
  forall i st,
    exists st',
      for_lines mt i lines st = Some st' /\
      all_errors (blocks st')
        = all_errors (blocks st)
          ++ expected_errors mt i lines (has_g50_global st).
Proof.
  induction lines as [|line lines IH]; intros i st; simpl.
  - exists st. now rewrite app_nil_r.
  - assert (Hstep : exists st1,
              loop_body mt i line st = Some st1 /\
              has_g50_global st1
                = update_g50 mt (g_codes_of line) (has_g50_global st) /\
              all_errors (blocks st1)
                = all_errors (blocks st)
                  ++ (if is_lathe mt
                         && (mem 96 (g_codes_of line)
                             && negb (update_g50 mt (g_codes_of line)
                                        (has_g50_global st)))
                      then [g96_message (i + 1)] else [])).
    { destruct (truthy (content_of line)) eqn:H.
      - destruct (loop_body_runs mt i line st H) as (sv & fv & E & _).
        exists (line_result mt i line st sv fv). split; [exact E|].
        split; [apply line_result_mode | apply line_result_all_errors].
      - exists st. split; [now apply loop_body_skips|].
        destruct (skipped_line_codes line H) as [-> _].
        rewrite update_g50_nil. split; [reflexivity|].
        cbn [mem existsb andb]. now rewrite andb_false_r, app_nil_r. }
    destruct Hstep as (st1 & -> & Hh & He). cbn [bind].
    destruct (IH (S i) st1) as (st' & E & He').
    exists st'. split; [exact E|].
    now rewrite He', He, Hh, app_assoc.
Qed.

(** X5.  The error messages of the returned blocks, taken block after
    block, are the messages of the lines taken line after line: one for
    each line that carries G96 while no G50 has been seen up to and
    including that line, under the lathe profile.  Where a block begins
    has no effect on them. *)
Theorem errors_follow_the_lines (nc_code machine_type : string) :
  exists blks,
    analyze nc_code machine_type = Some blks /\
    all_errors blks
      = expected_errors machine_type 0 (split "010" nc_code) false.
Proof.
  unfold analyze, analyze_lines.
  destruct (for_lines_errors machine_type (split "010" nc_code) 0
              initial_state) as (st & E & He).
  rewrite E. exists (blocks st). split; [reflexivity | exact He].
Qed.

Lemma Forall_repeat_nil (A : Type) (k : nat) :
  Forall (fun e : list A => e = []) (repeat [] k).
Proof. induction k; simpl; constructor; auto. Qed.

(** X6.  Under a profile other than the lathe one the scan reports
    nothing: every returned block has an empty error list, whatever G codes
    the program carries. *)
Theorem other_profiles_report_no_error (nc_code machine_type : string) :
  is_lathe machine_type = false ->
  exists blks,
    analyze nc_code machine_type = Some blks /\
    Forall (fun b => errors b = []) blks.
Proof.
  intro Hmt. unfold analyze, analyze_lines.
  destruct (for_lines_total machine_type (split "010" nc_code) 0
              initial_state) as [st E].
  rewrite E. exists (blocks st). split; [reflexivity|].
  apply (proj1 (Forall_map errors (fun e => e = []) (blocks st))).
  apply (for_lines_invariant machine_type
           (fun s => Forall (fun e => e = []) (map errors (blocks s)))
           (fun _ => true)) with (4 := E);
    [|apply forallb_true | repeat constructor].
  intros i line s s' _ HP Es.
  destruct (loop_body_no_error machine_type i line s (or_introl Hmt))
    as (s1 & k & Es1 & _ & He).
  rewrite Es1 in Es. inversion Es; subst s1.
  rewrite He. apply Forall_app. split; [exact HP | apply Forall_repeat_nil].
Qed.

Lemma other_profiles_report_no_error_witness :
  is_lathe "OSP_Mill" = false /\
  exists blks,
    analyze (join_lines ["G96 S200"; "(Op2) G96 X5"]) "OSP_Mill" = Some blks /\
    length blks = 2 /\
    Forall (fun b => errors b = []) blks.
Proof.
  assert (H : is_lathe "OSP_Mill" = false) by reflexivity.
  split; [exact H|].
  destruct (other_profiles_report_no_error
              (join_lines ["G96 S200"; "(Op2) G96 X5"]) "OSP_Mill" H)
    as (blks & E & Hall).
  exists blks. split; [exact E|]. split; [|exact Hall].
  vm_compute in E. inversion E. reflexivity.
Defined.

Lemma line_result_names (mt : string) (i : nat) (line : string)
    (st : ScanState) (sv fv : list Q) :
  truthy (content_of line) = true ->
  map name (blocks (line_result mt i line st sv fv))
    = map name (blocks st) ++ opened_title i line.
Proof.
  intro H. unfold blocks at 1. rewrite map_app. cbn [map].
  rewrite line_result_name. unfold line_result. cbn [earlier].
  unfold opened_title. rewrite H. unfold switch_block.
  destruct (search re_comment_here line) as [g|].
  - cbn [earlier current_block]. reflexivity.
  - unfold blocks. now rewrite map_app, app_nil_r.
Qed.

Lemma for_lines_names (mt : string) (lines : list string) :
  forall i st,
    exists st',
      for_lines mt i lines st = Some st' /\
      map name (blocks st') = map name (blocks st) ++ opened_titles i lines.
Proof.
  induction lines as [|line lines IH]; intros i st; simpl.
  - exists st. now rewrite app_nil_r.
  - assert (Hstep : exists st1,
              loop_body mt i line st = Some st1 /\
              map name (blocks st1) = map name (blocks st) ++ opened_title i line).
    { destruct (truthy (content_of line)) eqn:H.
      - destruct (loop_body_runs mt i line st H) as (sv & fv & E & _).
        exists (line_result mt i line st sv fv).
        split; [exact E | now apply line_result_names].
      - exists st. split; [now apply loop_body_skips|].
        unfold opened_title. now rewrite H, app_nil_r. }
    destruct Hstep as (st1 & -> & Hn). cbn [bind].
    destruct (IH (S i) st1) as (st' & E & Hn').
    exists st'. split; [exact E|]. now rewrite Hn', Hn, app_assoc.
Qed.

(** X7.  The names of the returned blocks are "Header / Setup" followed,
    in order, by one title "Line<N>: <comment>" for each line that is not
    passed over and carries a parenthesised comment, N being the number of
    the line and the comment the stripped text of its first pair of
    parentheses.  So the program has one block more than it has such
    lines. *)
Theorem block_names_follow_comments (nc_code machine_type : string) :
  exists blks,
    analyze nc_code machine_type = Some blks /\
    map name blks = "Header / Setup" :: opened_titles 0 (split "010" nc_code) /\
    length blks = 1 + length (opened_titles 0 (split "010" nc_code)).
Proof.
  unfold analyze, analyze_lines.
  destruct (for_lines_names machine_type (split "010" nc_code) 0
              initial_state) as (st & E & Hn).
  rewrite E. exists (blocks st). split; [reflexivity|].
  split; [exact Hn|].
  rewrite <- (length_map name), Hn. reflexivity.
Qed.

Lemma opened_titles_example :
  opened_titles 0 ["G0 X1"; "( Rough )  G1 X2"; "; (not a block)"; "(A)(B)"]
  = ["Line2: Rough"; "Line4: A"].
Proof. reflexivity. Qed.

(** ** Blocks only grow *)

Lemma extends_refl (A : Type) (l : list A) : extends l l.
Proof. exists []. now rewrite app_nil_r. Qed.

Lemma extends_trans (A : Type) (l1 l2 l3 : list A) :
  extends l1 l2 -> extends l2 l3 -> extends l1 l3.
Proof.
  intros [m1 ->] [m2 ->]. exists (m1 ++ m2). now rewrite app_assoc.
Qed.

Lemma extends_app (A : Type) (l m : list A) : extends l (l ++ m).
Proof. now exists m. Qed.

Lemma grown_refl (b : BlockData) : grown b b.
Proof. repeat split; intros; apply extends_refl. Qed.

Lemma grown_trans (b1 b2 b3 : BlockData) :
  grown b1 b2 -> grown b2 b3 -> grown b1 b3.
Proof.
  intros (N1 & R1 & C1 & S1 & F1 & E1) (N2 & R2 & C2 & S2 & F2 & E2).
  repeat split; try congruence; intros; eapply extends_trans; eauto.
Qed.

Lemma line_result_fields (mt : string) (i : nat) (line : string)
    (st : ScanState) (sv fv : list Q) :
  let b1 := current_block (switch_block (i + 1) line st) in
  let b' := current_block (line_result mt i line st sv fv) in
  s_vals b' = s_vals b1 ++ sv /\
  f_vals b' = f_vals b1 ++ fv /\
  errors b'
    = errors b1
      ++ (if is_lathe mt
             && (mem 96 (g_codes_of line)
                 && negb (update_g50 mt (g_codes_of line) (has_g50_global st)))
          then [g96_message (i + 1)] else []).
Proof.
  intros b1 b'. subst b'. unfold line_result. cbn [current_block].
  destruct (switch_block_keeps (i + 1) line st) as [_ ->]. fold b1.
  set (m := update_mode (g_codes_of line)
              (is_rapid_mode (switch_block (i + 1) line st))).
  destruct (store_coords_fields m (coords_of line) b1) as (_ & Hs & Hf & He).
  unfold simple_check.
  destruct (is_lathe mt
            && (mem 96 (g_codes_of line)
                && negb (update_g50 mt (g_codes_of line) (has_g50_global st))));
    unfold append_error, extend_sf; cbn [s_vals f_vals errors];
    rewrite Hs, Hf, He, ?app_nil_r; auto.
Qed.

(** One line either opens a block, closing the current one as it is, or
    lets the current block grow; the blocks before are not touched. *)
Lemma loop_body_grows (mt : string) (i : nat) (line : string)
    (st st' : ScanState) :
  loop_body mt i line st = Some st' ->
  (earlier st' = earlier st /\ grown (current_block st) (current_block st'))
  \/ earlier st' = blocks st.
Proof.
  intro E. apply loop_body_cases in E as [[_ ->] | [_ (sv & fv & -> & _)]].
  - left. split; [reflexivity | apply grown_refl].
  - destruct (switch_block_cases (i + 1) line st)
      as [[_ Hsw] | [_ [title Hsw]]].
    + left. split; [unfold line_result; cbn [earlier]; now rewrite Hsw|].
      pose proof (line_result_name mt i line st sv fv) as Hn.
      pose proof (line_result_fields mt i line st sv fv) as (Hs & Hf & He).
      rewrite Hsw in Hn, Hs, Hf, He.
      split; [exact Hn|].
      split; [|split; [|split; [|split]]].
      * intro a. destruct (line_result_lookup mt i line st sv fv a) as [Hr _].
        rewrite Hsw in Hr. rewrite Hr. apply extends_app.
      * intro a. destruct (line_result_lookup mt i line st sv fv a) as [_ Hc].
        rewrite Hsw in Hc. rewrite Hc. apply extends_app.
      * rewrite Hs. apply extends_app.
      * rewrite Hf. apply extends_app.
      * rewrite He. apply extends_app.
    + right. unfold line_result; cbn [earlier]. now rewrite Hsw.
Qed.

Lemma for_lines_grows (mt : string) (lines : list string) :
  forall i st,
    exists st' cur' newer,
      for_lines mt i lines st = Some st' /\
      blocks st' = earlier st ++ cur' :: newer /\
      grown (current_block st) cur'.
Proof.
  induction lines as [|line lines IH]; intros i st; simpl.
  - exists st, (current_block st), [].
    split; [reflexivity|]. split; [reflexivity | apply grown_refl].
  - destruct (loop_body_total mt i line st) as [st1 E1]. rewrite E1.
    cbn [bind].
    destruct (IH (S i) st1) as (st' & cur' & newer & E & Hb & Hg).
    destruct (loop_body_grows mt i line st st1 E1) as [[He Hg1] | He].
    + exists st', cur', newer. split; [exact E|].
      split; [now rewrite Hb, He | eapply grown_trans; eauto].
    + exists st', (current_block st), (cur' :: newer). split; [exact E|].
      split; [|apply grown_refl].
      rewrite Hb, He. unfold blocks. now rewrite <- app_assoc.
Qed.

(** X8.  Blocks are append-only during the scan.  Whatever lines follow, a
    block that is no longer the current one is returned exactly as it was
    left, and the block that was current keeps its name and has each of its
    lists (samples per axis and mode, spindle, feed, errors) continued,
    never shortened or rewritten; new blocks come after it. *)
Theorem blocks_are_append_only (machine_type : string) (pre post : list string) :
  exists s1 s2 cur' newer,
    analyze_lines pre machine_type = Some s1 /\
    analyze_lines (pre ++ post) machine_type = Some s2 /\
    blocks s2 = earlier s1 ++ cur' :: newer /\
    grown (current_block s1) cur'.
Proof.
  unfold analyze_lines. rewrite for_lines_app.
  destruct (for_lines_total machine_type pre 0 initial_state) as [s1 E1].
  rewrite E1. cbn [bind].
  destruct (for_lines_grows machine_type post (0 + length pre) s1)
    as (s2 & cur' & newer & E2 & Hb & Hg).
  exists s1, s2, cur', newer. auto.
Qed.

(** ** What the patterns guarantee of the samples *)

Lemma re_s_here_value (t g : string) (n : nat) :
  re_s_here t = Some (g, n) ->
  exists v, py_float g = Some v /\ (0 <= v)%Q.
Proof.
  destruct t as [|c r]; simpl; [discriminate|].
  destruct (Ascii.eqb c "S"); [|discriminate].
  destruct (span is_space r) as [ws r1].
  destruct (span is_digit r1) as [d r'] eqn:Hs.
  apply span_parts in Hs as (_ & Hd & _).
  destruct (truthy d) eqn:T; [|discriminate].
  intro E; inversion E; subst.
  rewrite py_float_head_digit by now constructor.
  rewrite float_unsigned_int by assumption.
  eexists; split; [reflexivity | apply decimal_nonneg].
Qed.

Lemma re_f_here_value (t g : string) (n : nat) :
  re_f_here t = Some (g, n) ->
  exists v, py_float g = Some v /\ (0 <= v)%Q.
Proof.
  destruct t as [|c r]; simpl; [discriminate|].
  destruct (Ascii.eqb c "F"); [|discriminate].
  destruct (span is_space r) as [ws r1].
  destruct (unsigned_here r1) as [[num rest]|] eqn:H; [|discriminate].
  apply unsigned_here_shape in H as [Hs _].
  intro E; inversion E; subst.
  rewrite (py_float_head_digit g Hs).
  destruct Hs as [d1 T A | d1 d2 T A1 A2].
  - rewrite float_unsigned_int by assumption.
    eexists; split; [reflexivity | apply decimal_nonneg].
  - rewrite float_unsigned_point by assumption.
    eexists; split; [reflexivity | apply decimal_nonneg].
Qed.

Lemma loop_body_samples (mt : string) (i : nat) (line : string)
    (st st' : ScanState) :
  loop_body mt i line st = Some st' ->
  st' = st \/
  exists sv fv,
    st' = line_result mt i line st sv fv /\
    Forall (fun v => (0 <= v)%Q) sv /\
    Forall (fun v => (0 <= v)%Q) fv.
Proof.
  intro E. destruct (truthy (content_of line)) eqn:H.
  2:{ left. rewrite (loop_body_skips mt i line st H) in E. now inversion E. }
  right. revert E. unfold loop_body. rewrite H. cbn [negb].
  rewrite int_each_g_codes. cbn [bind].
  fold (g_codes_of line). fold (coords_of line).
  set (st1 := switch_block (i + 1) line st).
  set (m := update_mode (g_codes_of line) (is_rapid_mode st1)).
  set (b1 := store_coords m (coords_of line) (current_block st1)).
  assert (Hsv : exists sv,
             store_s (upper (content_of line)) b1 = Some (extend_sf b1 sv []) /\
             Forall (fun v => (0 <= v)%Q) sv).
  { unfold store_s.
    destruct (search re_s_here (upper (content_of line))) as [g|] eqn:Hs.
    - apply search_found in Hs as (t & n & Hs).
      destruct (re_s_here_value t g n Hs) as (v & -> & Hv). cbn [bind].
      exists [v].
      split; [unfold append_s, extend_sf; now rewrite app_nil_r|].
      repeat constructor. exact Hv.
    - exists []. split; [now rewrite extend_sf_nil | constructor]. }
  destruct Hsv as (sv & -> & Hsv). cbn [bind].
  assert (Hfv : exists fv,
             store_f (upper (content_of line)) (extend_sf b1 sv [])
               = Some (extend_sf (extend_sf b1 sv []) [] fv) /\
             Forall (fun v => (0 <= v)%Q) fv).
  { unfold store_f.
    destruct (search re_f_here (upper (content_of line))) as [g|] eqn:Hf.
    - apply search_found in Hf as (t & n & Hf).
      destruct (re_f_here_value t g n Hf) as (v & -> & Hv). cbn [bind].
      exists [v].
      split; [unfold append_f, extend_sf; cbn; now rewrite !app_nil_r|].
      repeat constructor. exact Hv.
    - exists []. split; [now rewrite extend_sf_nil | constructor]. }
  destruct Hfv as (fv & -> & Hfv). cbn [bind].
  intro E. inversion E. exists sv, fv. split; [|auto].
  unfold line_result. fold st1 m b1.
  unfold extend_sf; simpl. now rewrite !app_nil_r.
Qed.

Lemma scanned_new (title : string) : scanned_block (new_BlockData title).
Proof. repeat split; constructor. Qed.

(** X9.  In every block that [analyze] returns, no spindle sample and no
    feed sample is negative, and each error is the G96 message of some
    line: the patterns for S and F take no sign, and no other message is
    ever appended. *)
Theorem analysed_blocks_are_well_formed (nc_code machine_type : string) :
  exists blks,
    analyze nc_code machine_type = Some blks /\
    Forall scanned_block blks.
Proof.
  unfold analyze, analyze_lines.
  destruct (for_lines_total machine_type (split "010" nc_code) 0
              initial_state) as [st E].
  rewrite E. exists (blocks st). split; [reflexivity|].
  apply (for_lines_invariant machine_type
           (fun s => Forall scanned_block (blocks s)) (fun _ => true))
    with (4 := E); [|apply forallb_true|].
  2:{ unfold blocks; simpl. repeat constructor. }
  intros i line s s' _ HP Es.
  apply loop_body_samples in Es as [-> | (sv & fv & -> & Hsv & Hfv)];
    [exact HP|].
  pose proof (line_result_fields machine_type i line s sv fv) as (Hs & Hf & He).
  assert (H1 : Forall scanned_block
                 (blocks (switch_block (i + 1) line s))).
  { destruct (switch_block_cases (i + 1) line s)
      as [[_ ->] | [_ [title ->]]]; [exact HP|].
    unfold blocks at 1. cbn [earlier current_block].
    apply Forall_app. split; [exact HP|].
    constructor; [apply scanned_new | constructor]. }
  unfold blocks in H1. apply Forall_app in H1 as [Hearlier Hcur].
  inversion Hcur as [|? ? (Hcs & Hcf & Hce) _]; subst.
  unfold blocks at 1. apply Forall_app. split; [exact Hearlier|].
  constructor; [|constructor].
  unfold scanned_block. rewrite Hs, Hf, He.
  repeat split; apply Forall_app; split; auto.
  destruct (is_lathe machine_type
            && (mem 96 (g_codes_of line)
                && negb (update_g50 machine_type (g_codes_of line)
                           (has_g50_global s)))); repeat constructor.
  eauto.
Qed.

(** ** Ranges of a block and of the program *)

Lemma max_or_zero_greatest (vals : list Q) :
  (vals = [] -> max_or_zero vals = 0%Q) /\
  (vals <> [] ->
   In (max_or_zero vals) vals /\
   forall v, In v vals -> (v <= max_or_zero vals)%Q).
Proof.
  destruct vals as [|x r]; split; try congruence; try reflexivity.
  intros _. apply py_max_greatest.
Qed.

(** X10.  [get_max_s_f] gives 0 for a list without samples and otherwise
    a sample of the list that no sample exceeds, for the spindle values and
    for the feed values alike. *)
Theorem max_s_f_is_greatest_sample (b : BlockData) :
  (s_vals b = [] -> fst (get_max_s_f b) = 0%Q) /\
  (f_vals b = [] -> snd (get_max_s_f b) = 0%Q) /\
  (s_vals b <> [] ->
   In (fst (get_max_s_f b)) (s_vals b) /\
   forall v, In v (s_vals b) -> (v <= fst (get_max_s_f b))%Q) /\
  (f_vals b <> [] ->
   In (snd (get_max_s_f b)) (f_vals b) /\
   forall v, In v (f_vals b) -> (v <= snd (get_max_s_f b))%Q).
Proof.
  unfold get_max_s_f. cbn [fst snd].
  destruct (max_or_zero_greatest (s_vals b)) as [S0 S1].
  destruct (max_or_zero_greatest (f_vals b)) as [F0 F1]. auto.
Qed.

Lemma max_s_f_is_greatest_sample_witness :
  let b := mkBlockData "B" (mkAxisDict [] [] []) (mkAxisDict [] [] [])
             [300%Q; 1200%Q; 800%Q] [] [] in
  s_vals b <> [] /\ f_vals b = [] /\
  get_max_s_f b = (1200%Q, 0%Q) /\
  forall v, In v (s_vals b) -> (v <= 1200)%Q.
Proof.
  intro b.
  assert (Hs : s_vals b <> []) by discriminate.
  assert (Hf : f_vals b = []) by reflexivity.
  split; [exact Hs|]. split; [exact Hf|]. split; [reflexivity|].
  destruct (max_s_f_is_greatest_sample b) as (_ & _ & HS & _).
  exact (proj2 (HS Hs)).
Defined.

Lemma get_raw_min_max_modes (b : BlockData) (a : Axis) :
  get_raw_min_max b a "rapid" = min_max (lookup (rapid b) a) /\
  get_raw_min_max b a "cut" = min_max (lookup (cut b) a) /\
  get_raw_min_max b a "both" = min_max (block_samples b a).
Proof. repeat split; reflexivity. Qed.

Lemma append_at_lookup (d : AxisDict) (a a' : Axis) (v : Q) :
  lookup (append_at d a v) a'
    = lookup d a' ++ (if Axis_eqb a' a then [v] else []).
Proof. destruct a, a'; simpl; now rewrite ?app_nil_r. Qed.

Lemma axis_eqb_refl (a : Axis) : Axis_eqb a a = true.
Proof. now destruct a. Qed.

Lemma min_max_single_bounds (l1 l2 : list Q) (v : Q) :
  exists lo hi,
    min_max (l1 ++ v :: l2) = (Some lo, Some hi) /\
    (lo <= v)%Q /\ (v <= hi)%Q.
Proof.
  destruct (l1 ++ v :: l2) as [|x r] eqn:E.
  - now destruct l1.
  - exists (py_min x r), (py_max x r). split; [reflexivity|].
    assert (Hin : In v (x :: r))
      by (rewrite <- E; apply in_or_app; right; now left).
    split; [now apply py_min_least | now apply py_max_greatest].
Qed.

(** X11.  [add_val] with a key other than X, Y, Z leaves the block as it
    is.  With the key of an axis, the range of that axis in the mode of
    the call becomes the union of the former range and the value, the
    range of the other mode and the ranges of the other axes are unchanged,
    and the range over both modes contains the value. *)
Theorem add_val_widens_range
    (b : BlockData) (axis : string) (val : Q) (is_rapid : bool) :
  (axis_of_key axis = None -> add_val b axis val is_rapid = b) /\
  (forall a,
     axis_of_key axis = Some a ->
     let b' := add_val b axis val is_rapid in
     get_raw_min_max b' a (mode_name is_rapid)
       = union_min_max (get_raw_min_max b a (mode_name is_rapid))
           (Some val, Some val) /\
     get_raw_min_max b' a (mode_name (negb is_rapid))
       = get_raw_min_max b a (mode_name (negb is_rapid)) /\
     (forall a' mode,
        Axis_eqb a' a = false ->
        get_raw_min_max b' a' mode = get_raw_min_max b a' mode) /\
     exists lo hi,
       get_raw_min_max b' a "both" = (Some lo, Some hi) /\
       (lo <= val)%Q /\ (val <= hi)%Q).
Proof.
  split; [intro H; unfold add_val; now rewrite H|].
  intros a Ha b'. subst b'. unfold add_val. rewrite Ha.
  destruct is_rapid; cbn [mode_name negb];
    rewrite ?(proj1 (get_raw_min_max_modes _ _)),
            ?(proj1 (proj2 (get_raw_min_max_modes _ _))),
            ?(proj2 (proj2 (get_raw_min_max_modes _ _)));
    unfold block_samples; cbn [rapid cut];
    rewrite ?append_at_lookup, ?axis_eqb_refl.
  - split; [apply min_max_app|]. split; [reflexivity|]. split.
    + intros a' mode Hne. unfold get_raw_min_max. cbn [rapid cut].
      now rewrite append_at_lookup, Hne, app_nil_r.
    + rewrite <- app_assoc. apply min_max_single_bounds.
  - split; [apply min_max_app|]. split; [reflexivity|]. split.
    + intros a' mode Hne. unfold get_raw_min_max. cbn [rapid cut].
      now rewrite append_at_lookup, Hne, app_nil_r.
    + rewrite app_assoc.
      destruct (min_max_single_bounds
                  (lookup (rapid b) a ++ lookup (cut b) a) [] val)
        as (lo & hi & H & Hb).
      eauto.
Qed.

Lemma add_val_widens_range_witness :
  let b := add_val (new_BlockData "B") "X" 4%Q true in
  axis_of_key "x" = None /\ axis_of_key "X" = Some aX /\
  add_val b "x" 9%Q true = b /\
  get_raw_min_max (add_val b "X" (-2)%Q true) aX "rapid"
    = (Some (-2)%Q, Some 4%Q) /\
  get_raw_min_max (add_val b "X" (-2)%Q true) aX "cut" = (None, None).
Proof.
  intro b.
  assert (H1 : axis_of_key "x" = None) by reflexivity.
  assert (H2 : axis_of_key "X" = Some aX) by reflexivity.
  split; [exact H1|]. split; [exact H2|].
  destruct (add_val_widens_range b "x" 9%Q true) as [Hnone _].
  split; [exact (Hnone H1)|].
  destruct (add_val_widens_range b "X" (-2)%Q true) as [_ Hsome].
  destruct (Hsome aX H2) as (Hr & Hc & _).
  split; [exact Hr | exact Hc].
Defined.

Lemma stat_of_samples (blks : list BlockData) (a : Axis) :
  stat_of (get_global_stats blks) a = min_max (axis_samples a blks).
Proof. now destruct a. Qed.

Lemma axis_samples_cons (a : Axis) (b : BlockData) (blks : list BlockData) :
  axis_samples a (b :: blks) = block_samples b a ++ axis_samples a blks.
Proof. reflexivity. Qed.

Lemma axis_samples_in (a : Axis) (blks : list BlockData) (v : Q) :
  In v (axis_samples a blks) <->
  exists b, In b blks /\ In v (block_samples b a).
Proof. unfold axis_samples. apply in_flat_map. Qed.

Lemma axis_samples_nil (a : Axis) (blks : list BlockData) :
  axis_samples a blks = [] <-> forall b, In b blks -> block_samples b a = [].
Proof.
  split.
  - intros H b Hb. destruct (block_samples b a) as [|v r] eqn:E; auto.
    assert (Hin : In v (axis_samples a blks))
      by (apply axis_samples_in; exists b; rewrite E; simpl; auto).
    rewrite H in Hin. destruct Hin.
  - intro H. destruct (axis_samples a blks) as [|v r] eqn:E; auto.
    assert (Hin : In v (axis_samples a blks)) by (rewrite E; now left).
    apply axis_samples_in in Hin as (b & Hb & Hv).
    rewrite (H b Hb) in Hv. destruct Hv.
Qed.

(** X12.  The global range of an axis is the union of the ranges of the
    blocks, block after block.  It is absent exactly when no block has a
    sample for the axis; otherwise both ends are samples of some block and
    every sample of every block lies between them. *)
Theorem global_range_is_union_of_blocks (blks : list BlockData) (a : Axis) :
  let stat := stat_of (get_global_stats blks) a in
  stat = fold_right
           (fun b acc => union_min_max (get_raw_min_max b a "both") acc)
           (None, None) blks /\
  (stat = (None, None) <-> forall b, In b blks -> block_samples b a = []) /\
  (forall b v,
     In b blks -> In v (block_samples b a) ->
     exists lo hi,
       stat = (Some lo, Some hi) /\ (lo <= v)%Q /\ (v <= hi)%Q /\
       (exists b1, In b1 blks /\ In lo (block_samples b1 a)) /\
       (exists b2, In b2 blks /\ In hi (block_samples b2 a))).
Proof.
  intro stat. subst stat. rewrite stat_of_samples. split; [|split].
  - induction blks as [|b blks IH]; [reflexivity|].
    rewrite axis_samples_cons, min_max_app. cbn [fold_right].
    now rewrite IH.
  - rewrite min_max_none. apply axis_samples_nil.
  - intros b v Hb Hv.
    assert (Hin : In v (axis_samples a blks))
      by (apply axis_samples_in; eauto).
    destruct (axis_samples a blks) as [|x r] eqn:E; [destruct Hin|].
    exists (py_min x r), (py_max x r).
    destruct (min_max_bounds (x :: r) _ _ eq_refl) as (Hlo & Hhi & Hall).
    split; [reflexivity|]. rewrite <- E in Hlo, Hhi.
    split; [now apply Hall|]. split; [now apply Hall|].
    split; now apply axis_samples_in.
Qed.

Lemma global_range_is_union_of_blocks_witness :
  let b1 := mkBlockData "Header / Setup" (mkAxisDict [10%Q] [] [])
              (mkAxisDict [20%Q] [] []) [] [] [] in
  let b2 := mkBlockData "Line3: Facing" (mkAxisDict [] [] [])
              (mkAxisDict [(-5)%Q; 120%Q] [] []) [] [] [] in
  In b2 [b1; b2] /\ In 120%Q (block_samples b2 aX) /\
  stat_of (get_global_stats [b1; b2]) aX = (Some (-5)%Q, Some 120%Q) /\
  stat_of (get_global_stats [b1; b2]) aY = (None, None).
Proof.
  intros b1 b2.
  assert (Hb : In b2 [b1; b2]) by (right; now left).
  assert (Hv : In 120%Q (block_samples b2 aX)) by (right; now left).
  split; [exact Hb|]. split; [exact Hv|].
  destruct (global_range_is_union_of_blocks [b1; b2] aX) as (Hu & _ & Hin).
  destruct (Hin b2 120%Q Hb Hv) as (lo & hi & E & _).
  split; [exact Hu | reflexivity].
Defined.

(** ** The range texts *)

Lemma has_blank (x y : string) :
  no_char " " (x ++ " ~ " ++ y)%string = false.
Proof.
  unfold no_char. rewrite all_chars_app. simpl. apply andb_false_r.
Qed.

Section RenderingFacts.
Variable fmt3 : Q -> string.

(** X13.  [get_range_str] agrees with [get_raw_min_max]: it shows the
    placeholder "-" exactly when the range is absent, that is when the
    selected mode has no sample for the axis, and otherwise the two ends
    of the range joined by " ~ ". *)
Theorem range_text_matches_raw_range
    (b : BlockData) (a : Axis) (mode : string) :
  get_range_str fmt3 b a mode
    = match get_raw_min_max b a mode with
      | (Some lo, Some hi) => (fmt3 lo ++ " ~ " ++ fmt3 hi)%string
      | _ => "-"
      end /\
  (get_range_str fmt3 b a mode = "-"
     <-> get_raw_min_max b a mode = (None, None)).
Proof.
  unfold get_range_str, get_raw_min_max.
  set (vals :=
         (if String.eqb mode "cut" || String.eqb mode "both"
          then (if String.eqb mode "rapid" || String.eqb mode "both"
                then [] ++ lookup (rapid b) a else [])
               ++ lookup (cut b) a
          else (if String.eqb mode "rapid" || String.eqb mode "both"
                then [] ++ lookup (rapid b) a else []))).
  destruct vals as [|x r]; cbn [min_max].
  - split; [reflexivity | split; reflexivity].
  - split; [reflexivity|]. split; [|discriminate].
    intro H. pose proof (has_blank (fmt3 (py_min x r)) (fmt3 (py_max x r))) as Hb.
    rewrite H in Hb. discriminate Hb.
Qed.

(** X14.  The dashboard label of an axis is always produced (formatting
    never meets an absent maximum), and it reads "<axis>: ---" exactly when
    no block of the program has a sample for the axis. *)
Theorem axis_label_placeholder (blks : list BlockData) (a : Axis) :
  exists text,
    axis_label fmt3 blks a = Some (axis_key a ++ ": " ++ text)%string /\
    (text = "---" <-> forall b, In b blks -> block_samples b a = []).
Proof.
  pose proof (axis_samples_nil a blks) as Hnone.
  unfold axis_label. rewrite stat_of_samples.
  destruct (axis_samples a blks) as [|x r]; cbn [min_max fmt_mm option_map].
  - exists "---". split; [reflexivity|]. split; [|reflexivity].
    intros _. now apply Hnone.
  - eexists. split; [reflexivity|]. split.
    + intro H.
      pose proof (has_blank (fmt3 (py_min x r)) (fmt3 (py_max x r))) as Hb.
      rewrite H in Hb. discriminate Hb.
    + intro H. apply Hnone in H. discriminate H.
Qed.
End RenderingFacts.

(** ** What the verdict of the range check means *)

Lemma failures_of_nil_iff (float : string -> option Q) (show : Q -> string)
    (blks : list BlockData) (entries : Axis -> string * string) (a : Axis) :
  failures_of Q float Qltb (fun x y => Qltb y x) show
    (stat_of (get_global_stats blks)) entries a = []
  <-> forall v, In v (axis_samples a blks) -> within_limits float entries a v.
Proof.
  unfold failures_of. rewrite stat_of_samples.
  destruct (axis_samples a blks) as [|x r] eqn:E; cbn [min_max].
  - split; [intros _ v [] | reflexivity].
  - destruct (min_max_bounds (x :: r) _ _ eq_refl) as (Hlo & Hhi & Hall).
    unfold within_limits. split.
    + intros H v Hv. apply app_eq_nil in H as [Hmin Hmax].
      destruct (Hall v Hv) as [Hl Hh]. split.
      * intros lo Ht Hf. rewrite Ht, Hf in Hmin.
        destruct (Qltb (py_min x r) lo) eqn:C; [discriminate|].
        apply Qltb_false in C. lra.
      * intros hi Ht Hf. rewrite Ht, Hf in Hmax.
        destruct (Qltb hi (py_max x r)) eqn:C; [discriminate|].
        apply Qltb_false in C. lra.
    + intro H.
      destruct (H _ Hlo) as [Hmin _]. destruct (H _ Hhi) as [_ Hmax].
      assert (E1 : (if truthy (fst (entries a)) then
                      match float (fst (entries a)) with
                      | Some limit =>
                          if Qltb (py_min x r) limit
                          then [min_message Q show a (py_min x r)
                                  (fst (entries a))]
                          else []
                      | None => []
                      end
                    else []) = []).
      { destruct (truthy (fst (entries a))); [|reflexivity].
        destruct (float (fst (entries a))) as [lo|]; [|reflexivity].
        destruct (Qltb (py_min x r) lo) eqn:C; [|reflexivity].
        apply Qltb_true in C. specialize (Hmin lo eq_refl eq_refl). lra. }
      rewrite E1. cbn [app].
      destruct (truthy (snd (entries a))); [|reflexivity].
      destruct (float (snd (entries a))) as [hi|]; [|reflexivity].
      destruct (Qltb hi (py_max x r)) eqn:C; [|reflexivity].
      apply Qltb_true in C. specialize (Hmax hi eq_refl eq_refl). lra.
Qed.

Lemma failures_of_short (float : string -> option Q) (show : Q -> string)
    (stats : Axis -> option Q * option Q)
    (entries : Axis -> string * string) (a : Axis) :
  length (failures_of Q float Qltb (fun x y => Qltb y x) show stats entries a)
  <= 2.
Proof.
  unfold failures_of. destruct (stats a) as [[p_min|] p_max]; [|simpl; lia].
  rewrite length_app.
  destruct (truthy (fst (entries a))); [destruct (float (fst (entries a)));
    [destruct (Qltb p_min _)|]|];
  (destruct (truthy (snd (entries a))); [destruct (float (snd (entries a)));
    [destruct p_max as [p|]; [destruct (Qltb _ p)|]|]|]);
  simpl; lia.
Qed.

(** X15.  The verdict on the blocks of a program is SAFE exactly when every
    coordinate sample of every block respects the bounds entered for its
    axis, as far as a bound is filled in and readable.  Otherwise it is a
    violation that lists between one and six failures.  There is no third
    outcome. *)
Theorem safe_means_within_limits
    (float : string -> option Q) (show : Q -> string)
    (blks : list BlockData) (entries : Axis -> string * string) :
  (check_blocks float show blks entries = SAFE
     <-> forall a v, In v (axis_samples a blks) ->
                     within_limits float entries a v) /\
  (check_blocks float show blks entries <> SAFE ->
   exists fs,
     check_blocks float show blks entries = VIOLATION fs /\
     1 <= length fs <= 6).
Proof.
  unfold check_blocks. rewrite check_lists_every_failure.
  set (F := failures_of Q float Qltb (fun a b => Qltb b a) show
              (stat_of (get_global_stats blks)) entries).
  cbn [flat_map]. rewrite app_nil_r.
  pose proof (failures_of_nil_iff float show blks entries) as Hiff.
  fold F in Hiff.
  assert (Hlen : length (F aX ++ F aY ++ F aZ) <= 6).
  { assert (Hshort : forall a, length (F a) <= 2)
      by (intro a; apply failures_of_short).
    rewrite !length_app.
    pose proof (Hshort aX). pose proof (Hshort aY). pose proof (Hshort aZ).
    lia. }
  split.
  - split.
    + intros H a v Hv.
      destruct (F aX ++ F aY ++ F aZ) eqn:E; [|discriminate].
      apply app_eq_nil in E as [EX E]. apply app_eq_nil in E as [EY EZ].
      apply Hiff; [|exact Hv]. now destruct a.
    + intro H.
      rewrite (proj2 (Hiff aX) (H aX)), (proj2 (Hiff aY) (H aY)),
              (proj2 (Hiff aZ) (H aZ)). reflexivity.
  - intro Hns. destruct (F aX ++ F aY ++ F aZ) as [|f fs] eqn:E;
      [congruence|].
    exists (f :: fs). split; [reflexivity|]. simpl in *. lia.
Qed.

Lemma safe_means_within_limits_witness :
  let blks := [mkBlockData "Header / Setup"
                 (mkAxisDict [(-5)%Q] [] []) (mkAxisDict [120%Q] [] [])
                 [] [] []] in
  let entries := fun a : Axis =>
                   match a with aX => ("0", "") | _ => ("", "") end in
  check_blocks py_float show_integral blks entries <> SAFE /\
  check_blocks py_float show_integral blks entries
    = VIOLATION ["❌ X Min違反: -5.0 < 0"].
Proof.
  intros blks entries.
  assert (H : check_blocks py_float show_integral blks entries <> SAFE)
    by discriminate.
  split; [exact H|].
  destruct (safe_means_within_limits py_float show_integral blks entries)
    as [_ Hv].
  destruct (Hv H) as (fs & E & _). reflexivity.
Defined.

(** ** The log *)

Lemma log_inner_fold (blk_name : string) (errs : list string) :
  forall text count,
    fold_left
      (fun (acc : string * nat) err =>
         ((fst acc ++ log_line blk_name err)%string, snd acc + 1))
      errs (text, count)
    = ((text ++ str_concat (map (log_line blk_name) errs))%string,
       count + length errs).
Proof.
  induction errs as [|e errs IH]; intros text count; simpl.
  - now rewrite str_app_nil, Nat.add_0_r.
  - rewrite IH. cbn [fst snd]. rewrite str_app_assoc. f_equal. lia.
Qed.

Lemma str_concat_app (l1 l2 : list string) :
  str_concat (l1 ++ l2) = (str_concat l1 ++ str_concat l2)%string.
Proof.
  induction l1 as [|x l1 IH]; simpl; [reflexivity|].
  now rewrite IH, str_app_assoc.
Qed.

Lemma log_outer_fold (blks : list BlockData) :
  forall text count,
    fold_left
      (fun acc blk =>
         fold_left
           (fun (acc : string * nat) err =>
              ((fst acc ++ log_line (name blk) err)%string, snd acc + 1))
           (errors blk) acc)
      blks (text, count)
    = ((text ++ str_concat (error_lines blks))%string,
       count + length (error_lines blks)).
Proof.
  induction blks as [|b blks IH]; intros text count; simpl.
  - now rewrite str_app_nil, Nat.add_0_r.
  - rewrite log_inner_fold, IH.
    rewrite str_concat_app, length_app, length_map, str_app_assoc.
    f_equal. lia.
Qed.

Lemma error_lines_nil (blks : list BlockData) :
  error_lines blks = [] <-> Forall (fun b => errors b = []) blks.
Proof.
  unfold error_lines. induction blks as [|b blks IH]; simpl.
  - split; [constructor | reflexivity].
  - split.
    + intro H. apply app_eq_nil in H as [H1 H2]. constructor.
      * now destruct (errors b).
      * now apply IH.
    + intro H. inversion H as [|? ? Hb Hbs]; subst.
      now rewrite Hb, (proj2 IH Hbs).
Qed.

(** X16.  After [update_log] the log holds one line per error, in the
    order of the blocks and of their errors, each naming its block; when no
    block has an error it holds the single line that says so, and it holds
    that line in no other case. *)
Theorem log_has_a_line_per_error (blks : list BlockData) :
  update_log blks
    = match error_lines blks with
      | [] => no_error_line
      | ls => str_concat ls
      end /\
  length (error_lines blks) = length (all_errors blks) /\
  (update_log blks = no_error_line
     <-> Forall (fun b => errors b = []) blks).
Proof.
  assert (E : update_log blks
              = match error_lines blks with
                | [] => no_error_line
                | ls => str_concat ls
                end).
  { unfold update_log. rewrite log_outer_fold. cbn [append Nat.add].
    destruct (error_lines blks) as [|l ls]; reflexivity. }
  split; [exact E|]. split.
  - clear E. unfold error_lines, all_errors.
    induction blks as [|b blks IH]; simpl; [reflexivity|].
    now rewrite !length_app, length_map, IH.
  - rewrite <- error_lines_nil, E. split.
    + destruct (error_lines blks) as [|l ls] eqn:El; [reflexivity|].
      assert (Hl : exists n e, l = log_line n e).
      { assert (Hin : In l (error_lines blks)) by (rewrite El; now left).
        unfold error_lines in Hin. apply in_flat_map in Hin as (b & _ & Hin).
        apply in_map_iff in Hin as (e & <- & _). eauto. }
      destruct Hl as (n & e & ->). cbn. discriminate.
    + now intros ->.
Qed.

(** ** The path of a dropped file *)

Lemma rstrip_chars_tail (p : ascii -> bool) (s : string) (c : ascii) :
  all_chars (fun x => negb (p x)) s = true -> p c = true ->
  rstrip_chars p (s ++ String c "")%string = s.
Proof.
  intros Hs Hc. induction s as [|a s IH]; simpl.
  - now rewrite Hc.
  - simpl in Hs. apply andb_prop in Hs as [Ha Hs]. apply negb_true_iff in Ha.
    rewrite (IH Hs). destruct s; [now rewrite Ha | reflexivity].
Qed.

Lemma lstrip_chars_fixed (p : ascii -> bool) (s : string) :
  stops p s -> lstrip_chars p s = s.
Proof. destruct s as [|c r]; simpl; [auto|]. now intros ->. Qed.

Lemma clean_braced (p : string) :
  all_chars (fun x => negb (is_brace x)) p = true ->
  clean_path (String "{" p ++ "}")%string = p.
Proof.
  intro H. unfold clean_path. cbn [append lstrip_chars].
  change (is_brace "{") with true. cbv iota.
  destruct p as [|c r].
  - reflexivity.
  - assert (Hc : is_brace c = false)
      by (simpl in H; apply andb_prop in H as [Hc _];
          now apply negb_true_iff in Hc).
    rewrite lstrip_chars_fixed by exact Hc.
    now apply rstrip_chars_tail.
Qed.

Lemma split_ws_blank (ws rest : string) :
  all_chars is_space ws = true -> split_ws (ws ++ rest)%string = split_ws rest.
Proof.
  induction ws as [|c ws IH]; simpl; intro H; [reflexivity|].
  apply andb_prop in H as [Hc H]. now rewrite Hc, IH.
Qed.

Lemma split_ws_token (tok rest : string) :
  forall c,
    all_chars (fun x => negb (is_space x)) (String c tok) = true ->
    stops (fun x => negb (is_space x)) rest ->
    split_ws (String c tok ++ rest)%string = String c tok :: split_ws rest.
Proof.
  induction tok as [|d tok IH]; intros c H Hr.
  - simpl in H. rewrite andb_true_r in H. apply negb_true_iff in H.
    cbn [append split_ws]. rewrite H.
    destruct rest as [|x r]; [reflexivity|].
    simpl in Hr. apply negb_false_iff in Hr. now rewrite Hr.
  - change (all_chars (fun x => negb (is_space x)) (String c (String d tok)))
      with (negb (is_space c)
            && all_chars (fun x => negb (is_space x)) (String d tok)) in H.
    apply andb_prop in H as [Hc H]. apply negb_true_iff in Hc.
    pose proof (IH d H Hr) as E.
    assert (Hd : is_space d = false)
      by (simpl in H; apply andb_prop in H as [Hd _];
          now apply negb_true_iff in Hd).
    change (String c (String d tok) ++ rest)%string
      with (String c (String d tok ++ rest)).
    set (r := (String d tok ++ rest)%string) in *.
    assert (Er : r = String d (tok ++ rest)%string) by reflexivity.
    cbn [split_ws]. rewrite Hc. rewrite Er at 1. rewrite Hd.
    fold r. now rewrite E.
Qed.

Lemma split_ws_all_blank (raw : string) :
  all_chars is_space raw = true -> split_ws raw = [].
Proof.
  intro H. rewrite <- (str_app_nil raw). now rewrite split_ws_blank.
Qed.

(** X17.  The path that a drop event makes [load_and_run] open.  Data that
    begin with a brace give the text between the first pair of braces,
    blanks included, whatever follows the closing brace.  Other data give
    the first run of characters that are not blanks, freed of braces at its
    ends.  Data made of blanks only raise [IndexError], and empty data do
    nothing. *)
Theorem dropped_path_is_first_file :
  (forall p rest,
     all_chars (fun x => negb (is_brace x)) p = true ->
     drop_file (String "{" p ++ String "}" rest)%string = Loads p) /\
  (forall ws c tok rest,
     all_chars is_space ws = true ->
     all_chars (fun x => negb (is_space x)) (String c tok) = true ->
     stops (fun x => negb (is_space x)) rest ->
     startswith "{" (ws ++ String c tok ++ rest)%string = false ->
     drop_file (ws ++ String c tok ++ rest)%string
       = Loads (clean_path (String c tok))) /\
  (forall raw,
     truthy raw = true -> all_chars is_space raw = true ->
     drop_file raw = IndexError) /\
  drop_file "" = NothingDone.
Proof.
  split; [|split; [|split; [|reflexivity]]].
  - intros p rest H. unfold drop_file. cbn [append truthy startswith].
    rewrite Ascii.eqb_refl.
    assert (Hn : no_char "}" (String "{" p) = true).
    { unfold no_char. cbn [all_chars]. change (negb (Ascii.eqb "{" "}")) with true.
      cbn [andb]. apply (all_chars_weaken _ _ p) with (2 := H).
      intros x Hx. unfold is_brace in Hx. apply negb_true_iff in Hx.
      apply orb_false_iff in Hx as [_ Hx]. now rewrite Hx. }
    change (String "{" (p ++ String "}" rest))
      with (String "{" p ++ String "}" rest)%string.
    rewrite (split_piece_more "}" (String "{" p) rest Hn). cbn [hd].
    now rewrite clean_braced.
  - intros ws c tok rest Hws Htok Hrest Hstart. unfold drop_file.
    rewrite Hstart.
    assert (Ht : truthy (ws ++ String c tok ++ rest)%string = true)
      by (destruct ws; reflexivity).
    rewrite Ht, (split_ws_blank ws _ Hws).
    now rewrite (split_ws_token tok rest c Htok Hrest).
  - intros raw Ht Hb. unfold drop_file. rewrite Ht.
    assert (Hs : startswith "{" raw = false).
    { destruct raw as [|x r]; [reflexivity|]. simpl in *.
      apply andb_prop in Hb as [Hx _].
      destruct (Ascii.eqb_spec x "{") as [->|_]; [discriminate Hx | reflexivity]. }
    now rewrite Hs, split_ws_all_blank.
Qed.

Lemma dropped_path_is_first_file_witness :
  all_chars (fun x => negb (is_brace x)) "C:/nc files/part 1.nc" = true /\
  drop_file "{C:/nc files/part 1.nc} {C:/nc files/part 2.nc}"
    = Loads "C:/nc files/part 1.nc" /\
  drop_file "C:/nc/part1.nc C:/nc/part2.nc" = Loads "C:/nc/part1.nc" /\
  drop_file "   " = IndexError.
Proof.
  assert (H1 : all_chars (fun x => negb (is_brace x))
                 "C:/nc files/part 1.nc" = true) by reflexivity.
  split; [exact H1|].
  destruct dropped_path_is_first_file as (Hbraced & Hplain & Hblank & _).
  split; [exact (Hbraced "C:/nc files/part 1.nc" " {C:/nc files/part 2.nc}" H1)|].
  split.
  - exact (Hplain "" "C"%char ":/nc/part1.nc" " C:/nc/part2.nc"
             eq_refl eq_refl eq_refl eq_refl).
  - exact (Hblank "   " eq_refl eq_refl).
Defined.

(** ** Rows of the CSV file and of the table *)

Lemma g96_join_head (errs : list string) :
  errs <> [] ->
  Forall (fun e => exists n : nat, e = g96_message n) errs ->
  exists rest, String.concat " / " errs = String "[" rest.
Proof.
  intros Hne H. destruct H as [|e errs [n ->] _]; [congruence|].
  destruct errs as [|e' errs]; cbn; eauto.
Qed.

Lemma min_max_ends (vals : list Q) :
  (vals = [] /\ min_max vals = (None, None)) \/
  (vals <> [] /\ exists lo hi, min_max vals = (Some lo, Some hi)).
Proof.
  destruct vals as [|x r]; [left | right]; split;
    try reflexivity; try discriminate.
  simpl. eauto.
Qed.

(** X18.  A row of the CSV file has as many cells as the header row.  For
    each axis and mode, its Min and Max cells are both blank when the block
    has no sample there and both numbers otherwise.  For a block built by
    the scan, the Errors cell reads "OK" exactly when the block has no
    error. *)
Theorem csv_row_matches_header (b : BlockData) :
  length (csv_row b) = length csv_header /\
  (forall k,
     k < 6 ->
     let samples := nth k [lookup (rapid b) aX; lookup (cut b) aX;
                           lookup (rapid b) aY; lookup (cut b) aY;
                           lookup (rapid b) aZ; lookup (cut b) aZ] [] in
     (samples = [] ->
      nth (1 + 2 * k) (csv_row b) (Number 0) = Text "" /\
      nth (2 + 2 * k) (csv_row b) (Number 0) = Text "") /\
     (samples <> [] ->
      exists lo hi,
        min_max samples = (Some lo, Some hi) /\
        nth (1 + 2 * k) (csv_row b) (Number 0) = Number lo /\
        nth (2 + 2 * k) (csv_row b) (Number 0) = Number hi)) /\
  nth 15 (csv_row b) (Number 0) = Text (errors_cell (errors b)) /\
  (scanned_block b -> (errors_cell (errors b) = "OK" <-> errors b = [])).
Proof.
  split; [reflexivity|]. split; [|split; [reflexivity|]].
  - intros k Hk samples. subst samples.
    destruct k as [|[|[|[|[|[|k]]]]]]; try lia; cbn [nth];
      match goal with
      |- (?l = [] -> nth ?i _ _ = _ /\ nth ?j _ _ = _) /\ _ =>
        change (nth i (csv_row b) (Number 0))
          with (cell_of (fst (min_max l)));
        change (nth j (csv_row b) (Number 0))
          with (cell_of (snd (min_max l)));
        destruct (min_max_ends l) as [[E M] | [E (lo & hi & M)]];
        rewrite M; cbn [fst snd cell_of];
        (split; [intro; try congruence; auto | intro; try congruence; eauto])
      end.
  - intros (_ & _ & He). split; [|now intros ->].
    destruct (errors b) as [|e errs] eqn:E; [reflexivity|].
    intro H. destruct (g96_join_head (e :: errs)) as [rest Hr];
      [discriminate | exact He |].
    unfold errors_cell in H. rewrite Hr in H. discriminate H.
Qed.

Lemma csv_row_matches_header_witness :
  let b := mkBlockData "Line3: Facing" (mkAxisDict [] [] [])
             (mkAxisDict [] [] [])
             [500%Q] [(1 # 5)%Q] [g96_message 3] in
  2 < 6 /\ scanned_block b /\
  nth 5 (csv_row b) (Number 0) = Text "" /\
  nth 13 (csv_row b) (Number 0) = Number 500 /\
  errors_cell (errors b) <> "OK".
Proof.
  intro b.
  assert (Hk : 2 < 6) by lia.
  assert (Hb : scanned_block b).
  { repeat split; repeat constructor.
    - discriminate.
    - discriminate.
    - now exists 3. }
  split; [exact Hk|]. split; [exact Hb|].
  destruct (csv_row_matches_header b) as (_ & Hcells & _ & Herr).
  destruct (Hcells 2 Hk) as [Hblank _].
  split; [exact (proj1 (Hblank eq_refl))|]. split; [reflexivity|].
  intro H. apply (Herr Hb) in H. discriminate H.
Defined.

Lemma int_of_float_integer (z : Z) : int_of_float (inject_Z z) = z.
Proof. unfold int_of_float. simpl. apply Z.quot_1_r. Qed.

Lemma max_or_zero_member (vals : list Q) :
  max_or_zero vals = 0%Q \/ In (max_or_zero vals) vals.
Proof.
  destruct vals as [|x r]; [now left | right].
  apply py_max_greatest.
Qed.

Lemma nonzero_max_of_nonneg (fs : list Q) :
  Forall (fun v => (0 <= v)%Q) fs ->
  nonzero (max_or_zero fs) = negb (forallb (fun v => Qeq_bool v 0) fs).
Proof.
  intro Hpos. unfold nonzero. f_equal.
  destruct fs as [|x r]; [reflexivity|].
  destruct (max_or_zero_greatest (x :: r)) as [_ H].
  destruct (H ltac:(discriminate)) as [Hin Hmax].
  rewrite Forall_forall in Hpos.
  destruct (Qeq_bool (max_or_zero (x :: r)) 0) eqn:E.
  - apply Qeq_bool_iff in E. symmetry. apply forallb_forall.
    intros v Hv. apply Qeq_bool_iff.
    pose proof (Hpos v Hv). pose proof (Hmax v Hv). lra.
  - symmetry. apply not_true_is_false. intro Hall.
    rewrite forallb_forall in Hall. specialize (Hall _ Hin). congruence.
Qed.

Section TableFacts.
Variable fmt3 fmt1 : Q -> string.

(** X19.  The table row of a block has ten cells.  Its Max S cell is the
    integer part of the greatest spindle sample, which is that sample
    itself when the spindle samples of the block are whole numbers.  When
    no feed sample of the block is negative, its Max F cell shows "-"
    exactly when the block has no feed sample other than zero, so also for
    a block whose only feed is F0.  The status is OK with the tag odd or
    even by the parity of the index when the block has no error, and WARN
    with the tag error when it has one. *)
Theorem table_row_of_block (i : nat) (b : BlockData) :
  let values := fst (table_row fmt3 fmt1 i b) in
  let tag := snd (table_row fmt3 fmt1 i b) in
  length values = 10 /\
  nth 7 values (Text "")
    = Number (inject_Z (int_of_float (fst (get_max_s_f b)))) /\
  (Forall (fun v => exists n : Z, v = inject_Z n) (s_vals b) ->
   nth 7 values (Text "") = Number (fst (get_max_s_f b))) /\
  (Forall (fun v => (0 <= v)%Q) (f_vals b) ->
   nth 8 values (Text "")
     = Text (if forallb (fun v => Qeq_bool v 0) (f_vals b) then "-"
             else fmt1 (snd (get_max_s_f b)))) /\
  (errors b = [] ->
   nth 9 values (Text "") = Text "OK" /\
   tag = if Nat.eqb (Nat.modulo i 2) 0 then "odd" else "even") /\
  (errors b <> [] ->
   nth 9 values (Text "") = Text "WARN" /\ tag = "error").
Proof.
  intros values tag. subst values tag.
  unfold table_row, get_max_s_f. cbn [fst snd length nth].
  split; [reflexivity|]. split; [reflexivity|].
  split; [|split; [|split]].
  - intro Hs. f_equal.
    destruct (max_or_zero_member (s_vals b)) as [-> | Hin]; [reflexivity|].
    rewrite Forall_forall in Hs. destruct (Hs _ Hin) as [n ->].
    now rewrite int_of_float_integer.
  - intro Hf. rewrite (nonzero_max_of_nonneg _ Hf).
    now destruct (forallb (fun v => Qeq_bool v 0) (f_vals b)).
  - now intros ->.
  - intro H. now destruct (errors b).
Qed.
End TableFacts.

Lemma table_row_of_block_witness :
  let b := mkBlockData "Line3: Facing" (mkAxisDict [] [] [])
             (mkAxisDict [] [] [(-3)%Q])
             [500%Q; 1200%Q] [0%Q] [g96_message 3] in
  Forall (fun v => exists n : Z, v = inject_Z n) (s_vals b) /\
  Forall (fun v => (0 <= v)%Q) (f_vals b) /\
  errors b <> [] /\
  nth 7 (fst (table_row show_integral show_integral 1 b)) (Text "")
    = Number 1200 /\
  nth 8 (fst (table_row show_integral show_integral 1 b)) (Text "")
    = Text "-" /\
  nth 9 (fst (table_row show_integral show_integral 1 b)) (Text "")
    = Text "WARN" /\
  snd (table_row show_integral show_integral 1 b) = "error".
Proof.
  intro b.
  assert (Hs : Forall (fun v => exists n : Z, v = inject_Z n) (s_vals b)).
  { repeat constructor; [now exists 500%Z | now exists 1200%Z]. }
  assert (Hf : Forall (fun v => (0 <= v)%Q) (f_vals b)).
  { repeat constructor. discriminate. }
  assert (He : errors b <> []) by discriminate.
  split; [exact Hs|]. split; [exact Hf|]. split; [exact He|].
  destruct (table_row_of_block show_integral show_integral 1 b)
    as (_ & _ & H7 & H8 & _ & Hw).
  destruct (Hw He) as [H9 Htag].
  split; [exact (H7 Hs)|]. split; [exact (H8 Hf)|].
  split; [exact H9 | exact Htag].
Defined.

(** ** Greatest spindle and feed values of the program *)

(** X20.  The global Max S is 0 when no block has a spindle sample;
    otherwise it is a spindle sample of some block and no sample of any
    block exceeds it.  The same holds of the global Max F and the feed
    samples.  For blocks built by the scan, no block's own Max S or Max F
    exceeds the global one. *)
Theorem global_max_is_greatest (blks : list BlockData) :
  let g := get_global_stats blks in
  ((forall b, In b blks -> s_vals b = []) -> max_s g = 0%Q) /\
  ((forall b, In b blks -> f_vals b = []) -> max_f g = 0%Q) /\
  (forall b v,
     In b blks -> In v (s_vals b) ->
     (v <= max_s g)%Q /\ exists b', In b' blks /\ In (max_s g) (s_vals b')) /\
  (forall b v,
     In b blks -> In v (f_vals b) ->
     (v <= max_f g)%Q /\ exists b', In b' blks /\ In (max_f g) (f_vals b')) /\
  (Forall scanned_block blks ->
   forall b, In b blks ->
     (fst (get_max_s_f b) <= max_s g)%Q /\ (snd (get_max_s_f b) <= max_f g)%Q).
Proof.
  intro g. subst g. cbn [get_global_stats max_s max_f].
  assert (Hnil : forall (f : BlockData -> list Q),
             (forall b, In b blks -> f b = []) -> flat_map f blks = []).
  { intros f H. induction blks as [|b bs IH]; [reflexivity|]. simpl.
    rewrite (H b (or_introl eq_refl)), IH; [reflexivity|].
    intros b' Hb'. apply H. now right. }
  assert (Hmax : forall (f : BlockData -> list Q) b v,
             In b blks -> In v (f b) ->
             (v <= max_or_zero (flat_map f blks))%Q /\
             exists b', In b' blks /\ In (max_or_zero (flat_map f blks)) (f b')).
  { intros f b v Hb Hv.
    assert (Hin : In v (flat_map f blks)) by (apply in_flat_map; eauto).
    destruct (max_or_zero_greatest (flat_map f blks)) as [_ H].
    destruct (H ltac:(intro E; rewrite E in Hin; destruct Hin)) as [Hm Hall].
    split; [now apply Hall | now apply in_flat_map]. }
  split; [intro H; now rewrite (Hnil s_vals H)|].
  split; [intro H; now rewrite (Hnil f_vals H)|].
  split; [apply Hmax|]. split; [apply Hmax|].
  intros Hsc b Hb. rewrite Forall_forall in Hsc.
  assert (Hge : forall (f : BlockData -> list Q),
             (forall b', In b' blks -> Forall (fun v => (0 <= v)%Q) (f b')) ->
             (max_or_zero (f b) <= max_or_zero (flat_map f blks))%Q).
  { intros f Hpos. destruct (max_or_zero_member (f b)) as [E | Hin].
    - rewrite E.
      destruct (max_or_zero_member (flat_map f blks)) as [-> | Hin];
        [apply Qle_refl|].
      apply in_flat_map in Hin as (b' & Hb' & Hin).
      specialize (Hpos b' Hb'). rewrite Forall_forall in Hpos. now apply Hpos.
    - now apply (Hmax f b). }
  unfold get_max_s_f. cbn [fst snd]. split; apply Hge; intros b' Hb'.
  - now destruct (Hsc b' Hb') as (Hs & _).
  - now destruct (Hsc b' Hb') as (_ & Hf & _).
Qed.

Lemma global_max_is_greatest_witness :
  let b1 := mkBlockData "Header / Setup" (mkAxisDict [] [] [])
              (mkAxisDict [] [] []) [] [] [] in
  let b2 := mkBlockData "Line3: Facing" (mkAxisDict [] [] [])
              (mkAxisDict [] [] []) [500%Q; 300%Q] [(1 # 5)%Q] [] in
  In b2 [b1; b2] /\ In 300%Q (s_vals b2) /\
  max_s (get_global_stats [b1; b2]) = 500%Q /\
  (300 <= max_s (get_global_stats [b1; b2]))%Q.
Proof.
  intros b1 b2.
  assert (Hb : In b2 [b1; b2]) by (right; now left).
  assert (Hv : In 300%Q (s_vals b2)) by (right; now left).
  split; [exact Hb|]. split; [exact Hv|]. split; [reflexivity|].
  destruct (global_max_is_greatest [b1; b2]) as (_ & _ & Hs & _).
  exact (proj1 (Hs b2 300%Q Hb Hv)).
Defined.

(** ** Spindle and feed tokens, and the count of samples *)

Lemma block_eta (b : BlockData) :
  mkBlockData (name b) (rapid b) (cut b) (s_vals b) (f_vals b) (errors b) = b.
Proof. now destruct b. Qed.

Lemma loop_body_exact (mt : string) (i : nat) (line : string) (st : ScanState) :
  truthy (content_of line) = true ->
  loop_body mt i line st
    = Some (line_result mt i line st (spindle_of line) (feed_of line)) /\
  (forall g, search re_s_here (upper (content_of line)) = Some g ->
     exists v, py_float g = Some v /\ spindle_of line = [v]) /\
  (forall g, search re_f_here (upper (content_of line)) = Some g ->
     exists v, py_float g = Some v /\ feed_of line = [v]).
Proof.
  intro H. unfold loop_body. rewrite H. cbn [negb].
  rewrite int_each_g_codes. cbn [bind].
  fold (g_codes_of line). fold (coords_of line).
  set (st1 := switch_block (i + 1) line st).
  set (m := update_mode (g_codes_of line) (is_rapid_mode st1)).
  set (b1 := store_coords m (coords_of line) (current_block st1)).
  unfold store_s, store_f, spindle_of, feed_of, line_result.
  fold st1 m b1.
  destruct (search re_s_here (upper (content_of line))) as [g|] eqn:Hs;
    [apply search_found in Hs as (t & n & Hs);
     destruct (re_s_here_value t g n Hs) as (sv & Esv & _); rewrite Esv|];
    cbn [bind];
    (destruct (search re_f_here (upper (content_of line))) as [g'|] eqn:Hf;
     [apply search_found in Hf as (t' & n' & Hf);
      destruct (re_f_here_value t' g' n' Hf) as (fv & Efv & _); rewrite Efv|]);
    cbn [bind];
    (split;
     [unfold append_s, append_f, extend_sf; cbn;
      rewrite ?app_nil_r, ?block_eta; reflexivity|]);
    (split; intros g0 E0; inversion E0; subst; eauto).
Qed.

(** X21.  Of the S tokens of a line only the leftmost one is recorded, as
    [float] of the digits after it, and of the F tokens only the leftmost
    one, as [float] of its number: a line with such a token adds exactly
    one spindle (feed) sample to the current block, and a line without one,
    or a line that is passed over, adds none. *)
Theorem one_spindle_and_feed_per_line
    (machine_type : string) (i : nat) (line : string) (st : ScanState) :
  exists st',
    loop_body machine_type i line st = Some st' /\
    (truthy (content_of line) = false -> st' = st) /\
    (truthy (content_of line) = true ->
     let b1 := current_block (switch_block (i + 1) line st) in
     (forall g, search re_s_here (upper (content_of line)) = Some g ->
        exists v, py_float g = Some v /\
                  s_vals (current_block st') = s_vals b1 ++ [v]) /\
     (forall g, search re_f_here (upper (content_of line)) = Some g ->
        exists v, py_float g = Some v /\
                  f_vals (current_block st') = f_vals b1 ++ [v]) /\
     (search re_s_here (upper (content_of line)) = None ->
      s_vals (current_block st') = s_vals b1) /\
     (search re_f_here (upper (content_of line)) = None ->
      f_vals (current_block st') = f_vals b1)).
Proof.
  destruct (truthy (content_of line)) eqn:H.
  - destruct (loop_body_exact machine_type i line st H) as (E & Hsv & Hfv).
    exists (line_result machine_type i line st (spindle_of line) (feed_of line)).
    split; [exact E|]. split; [discriminate|]. intros _ b1.
    pose proof (line_result_fields machine_type i line st
                  (spindle_of line) (feed_of line)) as (Hs & Hf & _).
    fold b1 in Hs, Hf. rewrite Hs, Hf.
    split; [intros g Hg; destruct (Hsv g Hg) as (v & Ev & ->); eauto|].
    split; [intros g Hg; destruct (Hfv g Hg) as (v & Ev & ->); eauto|].
    split; intro Hn.
    + unfold spindle_of. now rewrite Hn, app_nil_r.
    + unfold feed_of. now rewrite Hn, app_nil_r.
  - exists st. split; [now apply loop_body_skips|].
    split; [reflexivity | discriminate].
Qed.

Lemma one_spindle_and_feed_per_line_witness :
  let line := "G1 X5 S300 F0.2 S900 F1.5" in
  truthy (content_of line) = true /\
  exists st',
    loop_body "OSP_Mill" 0 line initial_state = Some st' /\
    s_vals (current_block st') = [300%Q] /\
    f_vals (current_block st') = [(1 # 5)%Q].
Proof.
  intro line.
  assert (H : truthy (content_of line) = true) by reflexivity.
  split; [exact H|].
  destruct (one_spindle_and_feed_per_line "OSP_Mill" 0 line initial_state)
    as (st' & E & _ & Hrun).
  destruct (Hrun H) as (Hs & Hf & _).
  destruct (Hs "300" eq_refl) as (v & Ev & Esv).
  destruct (Hf "0.2" eq_refl) as (w & Ew & Efv).
  assert (Hv : v = 300%Q) by (vm_compute in Ev; congruence).
  assert (Hw : w = (1 # 5)%Q) by (vm_compute in Ew; congruence).
  exists st'. split; [exact E|].
  rewrite Esv, Efv, Hv, Hw. split; reflexivity.
Defined.

Lemma total_samples_app (l1 l2 : list BlockData) :
  total_samples (l1 ++ l2) = total_samples l1 + total_samples l2.
Proof.
  unfold total_samples. induction l1 as [|b l1 IH]; simpl; [reflexivity|].
  rewrite IH. lia.
Qed.

Lemma sample_count_same_dicts (b b' : BlockData) :
  rapid b' = rapid b -> cut b' = cut b -> sample_count b' = sample_count b.
Proof. unfold sample_count. now intros -> ->. Qed.

Lemma total_samples_single (b : BlockData) :
  total_samples [b] = sample_count b.
Proof. unfold total_samples. simpl. lia. Qed.

Lemma line_result_count (mt : string) (i : nat) (line : string)
    (st : ScanState) (sv fv : list Q) :
  total_samples (blocks (line_result mt i line st sv fv))
    = total_samples (blocks st) + length (coords_of line).
Proof.
  unfold blocks. rewrite !total_samples_app, !total_samples_single.
  unfold line_result. cbn [earlier current_block].
  match goal with |- context [simple_check ?x ?n ?g ?h ?b] =>
    destruct (simple_check_fields x n g h b) as (_ & Hr & Hc & _);
    rewrite (sample_count_same_dicts b _ Hr Hc)
  end.
  match goal with |- context [extend_sf ?b0 sv fv] =>
    rewrite (sample_count_same_dicts b0 (extend_sf b0 sv fv) eq_refl eq_refl)
  end.
  unfold coords_of at 1.
  rewrite (store_coords_count _ _ (coords_well_formed _)).
  fold (coords_of line).
  destruct (switch_block_cases (i + 1) line st)
    as [[_ ->] | [_ [title ->]]]; cbn [earlier current_block].
  - lia.
  - unfold blocks. rewrite total_samples_app, total_samples_single.
    change (sample_count (new_BlockData title)) with 0. lia.
Qed.

Lemma for_lines_count (mt : string) (lines : list string) :
  forall i st,
    exists st',
      for_lines mt i lines st = Some st' /\
      total_samples (blocks st') = total_samples (blocks st) + total_tokens lines.
Proof.
  induction lines as [|line lines IH]; intros i st; simpl.
  - exists st. split; [reflexivity | lia].
  - assert (Hstep : exists st1,
              loop_body mt i line st = Some st1 /\
              total_samples (blocks st1)
                = total_samples (blocks st) + length (coords_of line)).
    { destruct (truthy (content_of line)) eqn:H.
      - destruct (loop_body_runs mt i line st H) as (sv & fv & E & _).
        exists (line_result mt i line st sv fv).
        split; [exact E | apply line_result_count].
      - exists st. split; [now apply loop_body_skips|].
        destruct (skipped_line_codes line H) as [_ ->]. simpl. lia. }
    destruct Hstep as (st1 & -> & Hc). cbn [bind].
    destruct (IH (S i) st1) as (st' & E & Hc').
    exists st'. split; [exact E|]. rewrite Hc', Hc. lia.
Qed.

(** X22.  No coordinate is lost or counted twice: the coordinate samples
    of the returned blocks, over both modes and the three axes, are as
    many as the coordinate tokens of the lines of the program. *)
Theorem every_token_is_one_sample (nc_code machine_type : string) :
  exists blks,
    analyze nc_code machine_type = Some blks /\
    total_samples blks = total_tokens (split "010" nc_code).
Proof.
  unfold analyze, analyze_lines.
  destruct (for_lines_count machine_type (split "010" nc_code) 0
              initial_state) as (st & E & Hc).
  rewrite E. exists (blocks st). split; [reflexivity | exact Hc].
Qed.

(* ================================================================== *)
(** ** The scan under the default limit of [int] *)

Lemma int_each_with_py_int (gs : list string) :
  int_each_with py_int gs = int_each gs.
Proof. induction gs as [|g gs IH]; simpl; [reflexivity | now rewrite IH]. Qed.

Lemma loop_body_with_py_int (mt : string) (i : nat) (line : string)
    (st : ScanState) :
  loop_body_with py_int mt i line st = loop_body mt i line st.
Proof. unfold loop_body_with, loop_body. now rewrite int_each_with_py_int. Qed.

Lemma int_each_default_short (gs : list string) :
  existsb too_long gs = false ->
  int_each_with py_int_default gs = int_each gs.
Proof.
  induction gs as [|g gs IH]; simpl; [reflexivity|]. intro H.
  apply orb_false_iff in H as [Hg Hgs]. rewrite (IH Hgs).
  unfold py_int_default. unfold too_long in Hg.
  apply negb_false_iff in Hg. now rewrite Hg.
Qed.

Lemma int_each_default_long (gs : list string) :
  existsb too_long gs = true -> int_each_with py_int_default gs = None.
Proof.
  induction gs as [|g gs IH]; simpl; [discriminate|]. intro H.
  destruct (too_long g) eqn:Hg.
  - unfold py_int_default. unfold too_long in Hg.
    apply negb_true_iff in Hg. now rewrite Hg.
  - simpl in H. rewrite (IH H).
    now destruct (py_int_default g).
Qed.

Lemma for_lines_with_app (int_of : string -> option N) (mt : string)
    (l1 l2 : list string) :
  forall i st,
    for_lines_with int_of mt i (l1 ++ l2) st
      = (st' <- for_lines_with int_of mt i l1 st ;;
         for_lines_with int_of mt (i + length l1) l2 st').
Proof.
  induction l1 as [|line l1 IH]; intros i st; simpl.
  - now rewrite Nat.add_0_r.
  - destruct (loop_body_with int_of mt i line st) as [st1|]; simpl;
      [|reflexivity].
    rewrite IH. now rewrite Nat.add_succ_comm.
Qed.

(** On a program whose G codes all keep within the limit, the scan under
    the default limit is the scan with the limit lifted. *)
Lemma analyze_default_agrees (nc_code machine_type : string) :
  forallb (fun line => negb (existsb too_long (g_captures line)))
    (split "010" nc_code) = true ->
  analyze_with py_int_default nc_code machine_type
    = analyze nc_code machine_type.
Proof.
  unfold analyze_with, analyze, analyze_lines.
  generalize 0, initial_state.
  induction (split "010" nc_code) as [|line lines IH]; intros i st H;
    [reflexivity|].
  simpl in H. apply andb_prop in H as [Hl H]. apply negb_true_iff in Hl.
  assert (E : loop_body_with py_int_default machine_type i line st
              = loop_body machine_type i line st).
  { unfold loop_body_with, loop_body.
    unfold g_captures in Hl. now rewrite (int_each_default_short _ Hl). }
  cbn [for_lines_with for_lines]. rewrite E.
  destruct (loop_body machine_type i line st) as [st1|]; cbn [bind];
    [|reflexivity].
  assert (IH' := IH (S i) st1 H).
  destruct (for_lines_with py_int_default machine_type (S i) lines st1),
           (for_lines machine_type (S i) lines st1);
    simpl in *; congruence.
Qed.

(** Whatever the scan returns under the default limit, the scan with the
    limit lifted returns too: what is proved of the blocks of [analyze]
    holds of the blocks that the program returns. *)
Lemma analyze_default_refines (nc_code machine_type : string)
    (blks : list BlockData) :
  analyze_with py_int_default nc_code machine_type = Some blks ->
  analyze nc_code machine_type = Some blks.
Proof.
  assert (Heach : forall gs ns,
            int_each_with py_int_default gs = Some ns ->
            int_each gs = Some ns).
  { induction gs as [|g gs IH]; intros ns; simpl; [auto|].
    unfold py_int_default at 1.
    destruct (Nat.leb (String.length g) int_max_str_digits);
      [|discriminate].
    destruct (py_int g) as [n|]; cbn [bind]; [|discriminate].
    destruct (int_each_with py_int_default gs) as [ms|]; cbn [bind];
      [|discriminate].
    now rewrite (IH ms eq_refl). }
  assert (Hbody : forall i line st st',
            loop_body_with py_int_default machine_type i line st = Some st' ->
            loop_body machine_type i line st = Some st').
  { intros i line st st'. unfold loop_body_with, loop_body.
    destruct (negb (truthy (content_of line))); [auto|].
    destruct (int_each_with py_int_default
                (findall re_g_here (upper (content_of line)))) as [ns|] eqn:E;
      cbn [bind]; [|discriminate].
    now rewrite (Heach _ _ E). }
  unfold analyze_with, analyze, analyze_lines.
  generalize 0, initial_state.
  induction (split "010" nc_code) as [|line lines IH]; intros i st;
    [auto|].
  cbn [for_lines_with for_lines].
  destruct (loop_body_with py_int_default machine_type i line st)
    as [st1|] eqn:E; cbn [bind option_map]; [|discriminate].
  rewrite (Hbody _ _ _ _ E). cbn [bind]. apply IH.
Qed.

(** C7, at the inputs where it fails.  Under the limit that the interpreter
    applies to [int] by default, a program with a line whose content
    carries a G followed by more than 4300 digits makes the conversion of
    line 102 raise: no list of blocks is returned, whatever the profile and
    whatever the other lines are. *)
Theorem long_g_code_raises
    (nc_code machine_type : string) (pre : list string) (line : string)
    (post : list string) :
  split "010" nc_code = pre ++ line :: post ->
  existsb too_long (g_captures line) = true ->
  analyze_with py_int_default nc_code machine_type = None.
Proof.
  intros Hsplit Hlong. unfold analyze_with. rewrite Hsplit.
  rewrite for_lines_with_app.
  destruct (for_lines_with py_int_default machine_type 0 pre initial_state)
    as [st|]; cbn [bind for_lines_with]; [|reflexivity].
  assert (E : loop_body_with py_int_default machine_type (0 + length pre)
                line st = None).
  { unfold loop_body_with.
    destruct (truthy (content_of line)) eqn:Ht.
    - cbn [negb]. unfold g_captures in Hlong.
      now rewrite (int_each_default_long _ Hlong).
    - unfold g_captures in Hlong. rewrite (truthy_false _ Ht) in Hlong.
      discriminate Hlong. }
  now rewrite E.
Qed.

Lemma long_g_code_raises_witness :
  let line := String "G" (run_of "1" 4301) in
  let nc_code := ("G0 X1" ++ String "010" line)%string in
  split "010" nc_code = ["G0 X1"] ++ line :: [] /\
  existsb too_long (g_captures line) = true /\
  analyze_with py_int_default nc_code "OSP_Mill" = None /\
  exists blks, analyze_with py_int_default "G0 X1" "OSP_Mill" = Some blks.
Proof.
  intros line nc_code.
  assert (Hs : split "010" nc_code = ["G0 X1"] ++ line :: [])
    by (vm_compute; reflexivity).
  assert (Hl : existsb too_long (g_captures line) = true)
    by (vm_compute; reflexivity).
  split; [exact Hs|]. split; [exact Hl|].
  split; [exact (long_g_code_raises nc_code "OSP_Mill" ["G0 X1"] line [] Hs Hl)|].
  eexists. vm_compute. reflexivity.
Defined.
